(** * GoDiverse task manager: the client-side synchronisation engine

    A shallow embedding of the React components [UserSelector], [TodoList]
    and [Notification] and of [lib/notificationUtils], followed by the
    properties of the task collection, the assignment operations, the
    notification feed and the filter engine.

    Conventions of the embedding.
    - A JavaScript [number] that holds a row id, a counter or a time value
      is a [Z]; a time value that is [NaN] is [None].
    - A JavaScript string is a [string]; a character stands for a UTF-16
      code unit below 256.
    - [T | null] is [option T]; truthiness of such a value is written out
      ([truthy], [truthyb]).
    - The remote store is not part of the program: it is an interface
      ([Supabase.Client]) over an arbitrary store state, and every call the
      program makes is recorded in a log of [Request]s.
    - An [async] function is a computation in the monad [Async]: store
      state, call log and component state are threaded, and a JavaScript
      [throw] is the completion [Throw]. *)

From Stdlib Require Import ZArith List String Ascii Bool Lia Sorted.
Import ListNotations.

Local Open Scope string_scope.
Local Open Scope Z_scope.

(* ===================================================================== *)
(** ** The JavaScript runtime                                            *)
(* ===================================================================== *)

Module JS.

(** [!!x] for [x : string | null]: [null] and the empty string are falsy. *)
Definition truthy (x : option string) : bool :=
  match x with
  | None => false
  | Some s => negb (String.length s =? 0)%nat
  end.

(** [!!x] for [x : boolean | null]. *)
Definition truthyb (x : option bool) : bool :=
  match x with
  | None => false
  | Some b => b
  end.

(** [a || b] on strings. *)
Definition or_else (x : option string) (d : string) : string :=
  match x with
  | Some s => if (String.length s =? 0)%nat then d else s
  | None => d
  end.

(** [a === b] for [a : string | null] and [b : string | undefined]:
    [null] and [undefined] are different values. *)
Definition strict_eq (a b : option string) : bool :=
  match a, b with
  | Some x, Some y => String.eqb x y
  | _, _ => false
  end.

(** WhiteSpace and LineTerminator code units below 256: TAB, LF, VT, FF,
    CR, SP and NBSP. *)
Definition isWhiteSpace (c : ascii) : bool :=
  let n := nat_of_ascii c in
  ((9 <=? n) && (n <=? 13) || (n =? 32) || (n =? 160))%nat.

Fixpoint trimStart (s : string) : string :=
  match s with
  | EmptyString => EmptyString
  | String c s' => if isWhiteSpace c then trimStart s' else s
  end.

Fixpoint trimEnd (s : string) : string :=
  match s with
  | EmptyString => EmptyString
  | String c s' =>
      match trimEnd s' with
      | EmptyString => if isWhiteSpace c then EmptyString
                       else String c EmptyString
      | r => String c r
      end
  end.

(** [String.prototype.trim]. *)
Definition trim (s : string) : string := trimEnd (trimStart s).

(** [s.includes(search)]. *)
Fixpoint includes (s search : string) : bool :=
  if String.prefix search s then true
  else match s with
       | EmptyString => false
       | String _ s' => includes s' search
       end.

(** The two facts about its environment that a [Date] depends on: how a
    date string parses ([Date.parse], [None] for an invalid date) and the
    local time zone adjustment of ECMA-262 (offset in milliseconds at a
    time value; the flag says whether the time value is UTC). *)
Class Runtime := {
  Date_parse : string -> option Z;
  LocalTZA : Z -> bool -> Z
}.

Section Date.
Context {rt : Runtime}.

Definition msPerDay : Z := 86400000.

Definition Day (t : Z) : Z := t / msPerDay.

Definition MakeTime (hour min sec ms : Z) : Z :=
  hour * 3600000 + min * 60000 + sec * 1000 + ms.

Definition MakeDate (day time : Z) : Z := day * msPerDay + time.

Definition TimeClip (t : Z) : option Z :=
  if Z.abs t >? 8640000000000000 then None else Some t.

Definition LocalTime (t : Z) : Z := t + LocalTZA t true.

Definition UTC (t : Z) : Z := t - LocalTZA t false.

(** [new Date(s)]: the time value of the new object. *)
Definition Date_of_string (s : string) : option Z :=
  match Date_parse s with
  | Some t => TimeClip t
  | None => None
  end.

(** [d.setHours(hour, min, sec, ms)]: the new time value of [d]. *)
Definition setHours (d : option Z) (hour min sec ms : Z) : option Z :=
  match d with
  | None => None
  | Some t =>
      TimeClip (UTC (MakeDate (Day (LocalTime t)) (MakeTime hour min sec ms)))
  end.

(** [a < b] on two [Date]s: false as soon as one is invalid. *)
Definition Date_lt (a b : option Z) : bool :=
  match a, b with
  | Some x, Some y => x <? y
  | _, _ => false
  end.

(** [a.getTime() === b.getTime()]: [NaN] equals nothing. *)
Definition getTime_eq (a b : option Z) : bool :=
  match a, b with
  | Some x, Some y => x =? y
  | _, _ => false
  end.

End Date.

End JS.

(* ===================================================================== *)
(** ** lib/schema: the rows of the two tables                            *)
(* ===================================================================== *)

Module Todos.

(** [Database['public']['Tables']['todos']['Row']]. *)
Record Row := {
  id : Z;
  inserted_at : string;
  is_complete : option bool;
  task : option string;
  user_id : string;
  assigned_to : option string;
  due_date : option string;
  created_by : string
}.

(** The object literal that [addTodo] inserts. *)
Record Insert := {
  ins_task : string;
  ins_user_id : string;
  ins_assigned_to : option string;
  ins_due_date : option string;
  ins_created_by : string
}.

(** [{ ...t, assigned_to: a }]. *)
Definition with_assigned_to (t : Row) (a : option string) : Row :=
  {| id := id t; inserted_at := inserted_at t; is_complete := is_complete t;
     task := task t; user_id := user_id t; assigned_to := a;
     due_date := due_date t; created_by := created_by t |}.

(** [{ ...newTodo, assigned_to: null }]. *)
Definition ins_without_assignee (r : Insert) : Insert :=
  {| ins_task := ins_task r; ins_user_id := ins_user_id r;
     ins_assigned_to := None; ins_due_date := ins_due_date r;
     ins_created_by := ins_created_by r |}.

End Todos.

Module Notifications.

(** [Database['public']['Tables']['notifications']['Row']]; [created_at]
    is the instant the timestamp string denotes. *)
Record Row := {
  id : Z;
  user_id : string;
  task_id : Z;
  message : string;
  is_read : bool;
  created_at : Z
}.

(** The object literal that [createTaskAssignmentNotification] inserts. *)
Record Insert := {
  ins_user_id : string;
  ins_task_id : Z;
  ins_message : string;
  ins_is_read : bool
}.

(** [{ ...n, is_read: true }]. *)
Definition with_read (n : Row) : Row :=
  {| id := id n; user_id := user_id n; task_id := task_id n;
     message := message n; is_read := true; created_at := created_at n |}.

End Notifications.

Module Auth.

(** The signed-in user of [useUser()]: [email] may be undefined. *)
Record User := {
  id : string;
  email : option string
}.

End Auth.

(* ===================================================================== *)
(** ** components/UserSelector                                           *)
(* ===================================================================== *)

Module UserSelector.

Record UserProfile := {
  id : string;
  email : string;
  name : option string
}.

(** What [fetch('/api/users')] followed by [response.json()] can give:
    the request fails, or a response arrives with its [ok] flag and a
    body whose [users] field is a list ([None] when the body has no such
    list, in which case the access throws). *)
Inductive FetchResult :=
| NetworkError
| Response (ok : bool) (users : option (list UserProfile)).

Record State := {
  users : list UserProfile;
  loading : bool
}.

(** [useState<UserProfile[]>([])], [useState(true)]. *)
Definition initial : State := {| users := []; loading := true |}.

(** The [filter] and [map] of [fetchUsers]. *)
Definition formattedUsers (currentUserId : string) (data : list UserProfile)
  : list UserProfile :=
  map (fun user => {| id := id user; email := email user; name := name user |})
      (filter (fun user => negb (String.eqb (id user) currentUserId)) data).

(** One run of [fetchUsers]: the [try] sets [users] only when the whole
    chain succeeds, the [finally] always clears [loading]. *)
Definition fetchUsers (currentUserId : string) (r : FetchResult) (s : State)
  : State :=
  match r with
  | Response true (Some data) =>
      {| users := formattedUsers currentUserId data; loading := false |}
  | _ => {| users := users s; loading := false |}
  end.

(** The runs of the effect from the mount on, in the order in which they
    complete: [useEffect(..., [currentUserId])] starts one at the mount and
    one after every change of the prop, and each run filters with the
    [currentUserId] of the render that started it.  [users] and [loading]
    are kept across the renders. *)
Definition runEffects (runs : list (string * FetchResult)) : State :=
  fold_left (fun s run => fetchUsers (fst run) (snd run) s) runs initial.

End UserSelector.

(* ===================================================================== *)
(** ** components/TaskFilter and the filter effect of TodoList           *)
(* ===================================================================== *)

Inductive FilterType := all | assignedToMe | createdByMe | overdue | dueToday.

Module Filter.
Import JS.

Section WithRuntime.
Context {rt : Runtime}.

(** [today]: [new Date()] at the time value [now], then
    [setHours(0, 0, 0, 0)]. *)
Definition today (now : Z) : option Z := setHours (Some now) 0 0 0 0.

(** The callback of the ['overdue'] case. *)
Definition isOverdue (now : Z) (todo : Todos.Row) : bool :=
  if negb (truthy (Todos.due_date todo)) then false
  else
    match Todos.due_date todo with
    | None => false
    | Some s =>
        let dueDate := setHours (Date_of_string s) 0 0 0 0 in
        Date_lt dueDate (today now) && negb (truthyb (Todos.is_complete todo))
    end.

(** The callback of the ['dueToday'] case. *)
Definition isDueToday (now : Z) (todo : Todos.Row) : bool :=
  if negb (truthy (Todos.due_date todo)) then false
  else
    match Todos.due_date todo with
    | None => false
    | Some s =>
        let dueDate := setHours (Date_of_string s) 0 0 0 0 in
        getTime_eq dueDate (today now) && negb (truthyb (Todos.is_complete todo))
    end.

(** The value the effect passes to [setFilteredTodos]. [user] is the
    result of [useUser()], absent while nobody is signed in. *)
Definition filterTodos (user : option Auth.User) (todos : list Todos.Row)
           (currentFilter : FilterType) (now : Z) : list Todos.Row :=
  if (List.length todos =? 0)%nat then []
  else
    match currentFilter with
    | assignedToMe =>
        filter (fun todo => strict_eq (Todos.assigned_to todo)
                                      (option_map Auth.id user)) todos
    | createdByMe =>
        filter (fun todo => strict_eq (Some (Todos.user_id todo))
                                      (option_map Auth.id user)) todos
    | overdue => filter (isOverdue now) todos
    | dueToday => filter (isDueToday now) todos
    | all => todos
    end.

End WithRuntime.

End Filter.

(* ===================================================================== *)
(** ** The remote store as the program sees it                           *)
(* ===================================================================== *)

Module Supabase.

(** The [error] of a store reply. *)
Record PostgrestError := {
  message : string;
  code : string
}.

(** [{ data, error }] of a query that ends in [.select().single()]. *)
Record Single (T : Type) := {
  data : option T;
  error : option PostgrestError
}.
Arguments data {T} _.
Arguments error {T} _.

(** [{ data, error }] of a query that returns rows. *)
Record Many (T : Type) := {
  rows : option (list T);
  rows_error : option PostgrestError
}.
Arguments rows {T} _.
Arguments rows_error {T} _.

(** The calls the components make, with their arguments. *)
Inductive Request :=
| InsertTodo (row : Todos.Insert)
| UpdateTodoAssignedTo (id : Z) (assigned_to : option string)
| InsertNotification (row : Notifications.Insert)
| SelectNotifications (user_id : string)
| MarkNotificationRead (id : Z)
| MarkAllNotificationsRead (user_id : string).

(** The store: each call maps a store state to a reply and a new state.
    - [insert_todo]: [from('todos').insert(row).select().single()]
    - [update_todo_assigned_to]:
      [from('todos').update({assigned_to}).eq('id', id).select().single()]
    - [insert_notification]: [from('notifications').insert(row)]
    - [select_notifications]: [from('notifications').select('*')
      .eq('user_id', u).order('created_at', {ascending: false}).limit(20)]
    - [mark_notification_read]:
      [from('notifications').update({is_read: true}).eq('id', id)]
    - [mark_all_notifications_read]: the same update with
      [.eq('user_id', u).eq('is_read', false)]. *)
Class Client (DB : Type) := {
  insert_todo : Todos.Insert -> DB -> Single Todos.Row * DB;
  update_todo_assigned_to :
    Z -> option string -> DB -> Single Todos.Row * DB;
  insert_notification :
    Notifications.Insert -> DB -> option PostgrestError * DB;
  select_notifications : string -> DB -> Many Notifications.Row * DB;
  mark_notification_read : Z -> DB -> option PostgrestError * DB;
  mark_all_notifications_read : string -> DB -> option PostgrestError * DB
}.

End Supabase.

(* ===================================================================== *)
(** ** Asynchronous handlers                                             *)
(* ===================================================================== *)

Module Async.
Import Supabase.

Section Monad.
Context {DB : Type} {U : Type}.

(** What a handler runs against: the store, the calls made so far (oldest
    first) and the live state of the component. *)
Record World := {
  db : DB;
  log : list Request;
  ui : U
}.

Inductive Completion (A : Type) :=
| Normal (a : A)
| Throw (e : PostgrestError).

Definition M (A : Type) : Type := World -> Completion A * World.

Definition ret {A} (a : A) : M A := fun w => (Normal A a, w).

Definition bind {A B} (c : M A) (k : A -> M B) : M B :=
  fun w =>
    match c w with
    | (Normal _ a, w') => k a w'
    | (Throw _ e, w') => (Throw B e, w')
    end.

Definition throw {A} (e : PostgrestError) : M A := fun w => (Throw A e, w).

(** [try { c } catch (error) { h error }]. *)
Definition try_catch {A} (c : M A) (h : PostgrestError -> M A) : M A :=
  fun w =>
    match c w with
    | (Normal _ a, w') => (Normal A a, w')
    | (Throw _ e, w') => h e w'
    end.

(** A state setter with a functional update, [setX(prev => f prev)]. *)
Definition modify (f : U -> U) : M unit :=
  fun w => (Normal unit tt, {| db := db w; log := log w; ui := f (ui w) |}).

(** [await] of a store call: the call is logged and the reply returned. *)
Definition await {R} (q : Request) (run : DB -> R * DB) : M R :=
  fun w =>
    let (r, d) := run (db w) in
    (Normal R r, {| db := d; log := log w ++ [q]; ui := ui w |}).

(** An event handler created by the render of the current state: the
    state variables it mentions are those of that render. *)
Definition handler {A} (h : U -> M A) : M A := fun w => h (ui w) w.

(** A computation only appends to the call log. *)
Definition extends {A} (c : M A) : Prop :=
  forall w, exists rest, log (snd (c w)) = (log w ++ rest)%list.

(** A computation whose first store call is [q]. *)
Definition startsWith {A} (q : Request) (c : M A) : Prop :=
  forall w, exists rest, log (snd (c w)) = (log w ++ q :: rest)%list.

(** A computation that makes no store call. *)
Definition silent {A} (c : M A) : Prop :=
  forall w, log (snd (c w)) = log w.

End Monad.

Arguments World : clear implicits.
Arguments Normal {A} _.
Arguments Throw {A} _.

Declare Scope async_scope.
Delimit Scope async_scope with async.
Notation "x <- c ;; k" := (bind c (fun x => k))
  (at level 61, c at next level, right associativity) : async_scope.
Notation "c ;; k" := (bind c (fun _ => k))
  (at level 61, right associativity) : async_scope.

End Async.

(* ===================================================================== *)
(** ** lib/notificationUtils                                             *)
(* ===================================================================== *)

Module NotificationUtils.
Import Supabase Async.

Definition dquote : string := String (ascii_of_nat 34) EmptyString.

(** The template literal of [createTaskAssignmentNotification]. *)
Definition assignmentMessage (assignerEmail taskTitle : string) : string :=
  assignerEmail ++ " assigned you a task: " ++ dquote ++ taskTitle ++ dquote.

(** One insert into [notifications]; an error of the store is logged to
    the console and nothing is thrown. *)
Definition createTaskAssignmentNotification {DB U} `{Client DB}
           (taskId : Z) (assigneeId taskTitle assignerEmail : string)
  : M (DB := DB) (U := U) unit :=
  let row := {| Notifications.ins_user_id := assigneeId;
                Notifications.ins_task_id := taskId;
                Notifications.ins_message :=
                  assignmentMessage assignerEmail taskTitle;
                Notifications.ins_is_read := false |} in
  (_ <- await (InsertNotification row) (insert_notification row) ;;
   ret tt)%async.

End NotificationUtils.

(* ===================================================================== *)
(** ** components/TodoList                                               *)
(* ===================================================================== *)

Module TodoList.
Import JS Supabase Async NotificationUtils.

(** The state variables of the component. *)
Record State := {
  todos : list Todos.Row;
  filteredTodos : list Todos.Row;
  newTaskText : string;
  newTaskAssignedTo : option string;
  newTaskDueDate : option string;
  currentFilter : FilterType;
  errorText : string;
  loading : bool
}.

Definition initial : State :=
  {| todos := []; filteredTodos := []; newTaskText := "";
     newTaskAssignedTo := None; newTaskDueDate := None;
     currentFilter := all; errorText := ""; loading := true |}.

Definition with_todos (f : list Todos.Row -> list Todos.Row) (s : State) : State :=
  {| todos := f (todos s); filteredTodos := filteredTodos s;
     newTaskText := newTaskText s; newTaskAssignedTo := newTaskAssignedTo s;
     newTaskDueDate := newTaskDueDate s; currentFilter := currentFilter s;
     errorText := errorText s; loading := loading s |}.

Definition with_errorText (t : string) (s : State) : State :=
  {| todos := todos s; filteredTodos := filteredTodos s;
     newTaskText := newTaskText s; newTaskAssignedTo := newTaskAssignedTo s;
     newTaskDueDate := newTaskDueDate s; currentFilter := currentFilter s;
     errorText := t; loading := loading s |}.

(** [setNewTaskText(''); setNewTaskAssignedTo(null); setNewTaskDueDate(null)]. *)
Definition reset_form (s : State) : State :=
  {| todos := todos s; filteredTodos := filteredTodos s;
     newTaskText := ""; newTaskAssignedTo := None;
     newTaskDueDate := None; currentFilter := currentFilter s;
     errorText := errorText s; loading := loading s |}.

(** *** The change feed *)

(** A [postgres_changes] payload: [eventType] with [payload.new], or with
    [payload.old.id] for a deletion. *)
Inductive Payload :=
| INSERT (new : Todos.Row)
| UPDATE (new : Todos.Row)
| DELETE (old_id : Z).

(** The updater that a subscription callback passes to [setTodos]. The
    callbacks of the [user_id] scope and of the [assigned_to] scope have
    the same body. *)
Definition applyRemoteEvent (payload : Payload) (prev : list Todos.Row)
  : list Todos.Row :=
  match payload with
  | INSERT new => new :: prev
  | UPDATE new =>
      map (fun todo => if Todos.id todo =? Todos.id new then new else todo) prev
  | DELETE old_id =>
      filter (fun todo => negb (Todos.id todo =? old_id)) prev
  end.

(** The events of a feed applied in their order of arrival. *)
Definition applyRemoteEvents (events : list Payload) (prev : list Todos.Row)
  : list Todos.Row :=
  fold_left (fun acc e => applyRemoteEvent e acc) events prev.

(** The ids of a collection, in order. *)
Definition ids (l : list Todos.Row) : list Z := map Todos.id l.

(** No [INSERT] of the sequence carries an id that the collection holds
    when the event is applied. *)
Fixpoint insertsFresh (events : list Payload) (prev : list Todos.Row) : bool :=
  match events with
  | [] => true
  | e :: rest =>
      match e with
      | INSERT new => negb (existsb (Z.eqb (Todos.id new)) (ids prev))
      | _ => true
      end && insertsFresh rest (applyRemoteEvent e prev)
  end.

(** *** Creating and reassigning a task *)

Definition fkMarker : string := "violates foreign key constraint".

Definition fkWarning : string :=
  "Could not assign task: user not found in database".

Section Handlers.
Context {DB : Type} `{Client DB}.

Local Open Scope async_scope.

Definition T := M (DB := DB) (U := State).

(** The notification step shared by [addTodo] and
    [updateTodoAssignment]: the [if] on the row the store returned. *)
Definition notifyAssignee (user : Auth.User) (result : option Todos.Row) : T unit :=
  match result with
  | Some row =>
      match Todos.assigned_to row with
      | Some assignee =>
          if truthy (Some assignee)
             && negb (String.eqb assignee (Auth.id user))
          then createTaskAssignmentNotification
                 (Todos.id row) assignee
                 (or_else (Todos.task row) "Untitled task")
                 (or_else (Auth.email user) "A user")
          else ret tt
      | None => ret tt
      end
  | None => ret tt
  end.

(** The object [newTodo] that [addTodo] builds for the trimmed text [task]. *)
Definition newTodoOf (user : Auth.User) (r : State) (task : string) : Todos.Insert :=
  {| Todos.ins_task := task;
     Todos.ins_user_id := Auth.id user;
     Todos.ins_assigned_to := newTaskAssignedTo r;
     Todos.ins_due_date := newTaskDueDate r;
     Todos.ins_created_by := Auth.id user |}.

(** The row [createTaskAssignmentNotification] inserts for the task [row]
    when [user] assigns it to [assignee]. *)
Definition assignmentNotification (user : Auth.User) (row : Todos.Row)
           (assignee : string) : Notifications.Insert :=
  {| Notifications.ins_user_id := assignee;
     Notifications.ins_task_id := Todos.id row;
     Notifications.ins_message :=
       assignmentMessage (or_else (Auth.email user) "A user")
                         (or_else (Todos.task row) "Untitled task");
     Notifications.ins_is_read := false |}.

(** [addTodo(taskText)] of the render [r], with [user] signed in. *)
Definition addTodo (user : Auth.User) (r : State) (taskText : string) : T unit :=
  let task := trim taskText in
  if negb (String.length task =? 0)%nat then
    try_catch
      (let newTodo := newTodoOf user r task in
       todoResult <-
         (if truthy (newTaskAssignedTo r) then
            res <- await (InsertTodo newTodo) (insert_todo newTodo) ;;
            match error res with
            | Some e =>
                if includes (message e) fkMarker then
                  let fallbackTodo := Todos.ins_without_assignee newTodo in
                  fallbackResult <-
                    await (InsertTodo fallbackTodo) (insert_todo fallbackTodo) ;;
                  match error fallbackResult with
                  | Some e' => throw e'
                  | None =>
                      modify (with_errorText fkWarning) ;;
                      ret (data fallbackResult)
                  end
                else throw e
            | None => ret (data res)
            end
          else
            res <- await (InsertTodo newTodo) (insert_todo newTodo) ;;
            match error res with
            | Some e => throw e
            | None => ret (data res)
            end) ;;
       notifyAssignee user todoResult ;;
       modify reset_form)
      (fun e => modify (with_errorText (message e)))
  else ret tt.

(** [updateTodoAssignment(todo, assignedTo)] of the render [r]. *)
Definition updateTodoAssignment (user : Auth.User) (r : State)
           (todo : Todos.Row) (assignedTo : option string) : T unit :=
  try_catch
    (res <- await (UpdateTodoAssignedTo (Todos.id todo) assignedTo)
                  (update_todo_assigned_to (Todos.id todo) assignedTo) ;;
     match error res with
     | Some e =>
         if includes (message e) fkMarker
         then modify (with_errorText fkWarning)
         else throw e
     | None =>
         notifyAssignee user (data res) ;;
         modify (with_todos (fun _ =>
           map (fun t => if Todos.id t =? Todos.id todo
                         then Todos.with_assigned_to t assignedTo
                         else t)
               (todos r)))
     end)
    (fun e => modify (with_errorText (message e))).

End Handlers.

(** The notifications a run dispatched: the inserts into [notifications]
    among the calls it made. *)
Definition notificationsOf (calls : list Request) : list Notifications.Insert :=
  flat_map (fun q => match q with
                     | InsertNotification row => [row]
                     | _ => []
                     end) calls.

(** The task inserts among the calls of a run. *)
Definition todoInsertsOf (calls : list Request) : list Todos.Insert :=
  flat_map (fun q => match q with
                     | InsertTodo row => [row]
                     | _ => []
                     end) calls.

End TodoList.

(* ===================================================================== *)
(** ** components/Notification                                           *)
(* ===================================================================== *)

Module Notification.
Import Supabase Async.

Record State := {
  notifications : list Notifications.Row;
  showNotifications : bool;
  unreadCount : Z
}.

(** [useState([])], [useState(false)], [useState(0)]. *)
Definition initial : State :=
  {| notifications := []; showNotifications := false; unreadCount := 0 |}.

Definition setNotifications
           (f : list Notifications.Row -> list Notifications.Row) (s : State)
  : State :=
  {| notifications := f (notifications s);
     showNotifications := showNotifications s;
     unreadCount := unreadCount s |}.

Definition setUnreadCount (f : Z -> Z) (s : State) : State :=
  {| notifications := notifications s;
     showNotifications := showNotifications s;
     unreadCount := f (unreadCount s) |}.

(** [l.filter(n => !n.is_read).length]. *)
Definition unreadOf (l : list Notifications.Row) : Z :=
  Z.of_nat (List.length (filter (fun n => negb (Notifications.is_read n)) l)).

(** The unread entries of a view that carry the id [id]. *)
Definition unreadWithId (id : Z) (l : list Notifications.Row) : Z :=
  unreadOf (filter (fun n => Notifications.id n =? id) l).

(** The callback of the INSERT subscription. *)
Definition onInsert (newNotification : Notifications.Row) (s : State) : State :=
  setUnreadCount (fun prev => prev + 1)
    (setNotifications (fun prev => newNotification :: prev) s).

Section Handlers.
Context {DB : Type} `{Client DB}.

Local Open Scope async_scope.

Definition T := M (DB := DB) (U := State).

(** [fetchNotifications] for the recipient [userId]. *)
Definition fetchNotifications (userId : string) : T unit :=
  res <- await (SelectNotifications userId) (select_notifications userId) ;;
  match rows_error res with
  | Some _ => ret tt
  | None =>
      match rows res with
      | Some data =>
          modify (setNotifications (fun _ => data)) ;;
          modify (setUnreadCount (fun _ => unreadOf data))
      | None => ret tt
      end
  end.

(** [markAsRead(id)] of the render [r]. *)
Definition markAsRead (r : State) (id : Z) : T unit :=
  err <- await (MarkNotificationRead id) (mark_notification_read id) ;;
  match err with
  | Some _ => ret tt
  | None =>
      modify (setNotifications (fun _ =>
        map (fun n => if Notifications.id n =? id
                      then Notifications.with_read n else n)
            (notifications r))) ;;
      modify (setUnreadCount (fun prev => Z.max 0 (prev - 1)))
  end.

(** [markAllAsRead()] of the render [r], for the recipient [userId]. *)
Definition markAllAsRead (userId : string) (r : State) : T unit :=
  err <- await (MarkAllNotificationsRead userId)
               (mark_all_notifications_read userId) ;;
  match err with
  | Some _ => ret tt
  | None =>
      modify (setNotifications (fun _ =>
        map Notifications.with_read (notifications r))) ;;
      modify (setUnreadCount (fun _ => 0))
  end.

(** The operations of the feed. *)
Inductive Op :=
| Load
| RemoteInsert (newNotification : Notifications.Row)
| MarkRead (id : Z)
| MarkAllRead.

(** One operation, run to completion from the current render. *)
Definition run (userId : string) (op : Op) : T unit :=
  match op with
  | Load => fetchNotifications userId
  | RemoteInsert n => modify (onInsert n)
  | MarkRead id => handler (fun r => markAsRead r id)
  | MarkAllRead => handler (markAllAsRead userId)
  end.

(** A sequence of operations, each on the world the previous one left. *)
Fixpoint runAll (userId : string) (ops : list Op) (w : World DB State)
  : World DB State :=
  match ops with
  | [] => w
  | op :: rest => runAll userId rest (snd (run userId op w))
  end.

End Handlers.

(** The counter agrees with the flags. *)
Definition consistent (s : State) : Prop :=
  unreadCount s = unreadOf (notifications s).

(** Descending by creation time. *)
Definition descending (l : list Notifications.Row) : Prop :=
  Sorted (fun a b => Notifications.created_at b <= Notifications.created_at a) l.

(** Every row of [events] is, when it arrives, at least as recent as the
    head of the view. *)
Fixpoint arriveInOrder (events view : list Notifications.Row) : bool :=
  match events with
  | [] => true
  | n :: rest =>
      match view with
      | [] => true
      | m :: _ => Notifications.created_at m <=? Notifications.created_at n
      end && arriveInOrder rest (n :: view)
  end.

End Notification.

(* ===================================================================== *)
(** ** A reference store                                                 *)
(* ===================================================================== *)

(** Modelled from the spec: the remote store, whose tables are created by
    the migrations of [supabase/migrations] (not among the sources).  The
    schema is the one the README lists: a task of at least 4 characters,
    [user_id], [assigned_to] and [created_by] referencing [auth.users],
    [notifications.task_id] referencing [todos.id].  The handlers above are
    stated for every [Supabase.Client]; this one instantiates them. *)
Module RefStore.
Import Supabase.

Record DB := {
  online : bool;
  auth_users : list string;
  todos : list Todos.Row;
  notifications : list Notifications.Row;
  next_id : Z;
  clock : Z;
  stamp : string
}.

Definition unreachable : PostgrestError :=
  {| message := "TypeError: Failed to fetch"; code := "" |}.

Definition checkViolation : PostgrestError :=
  {| message := "new row for relation todos violates check constraint todos_task_check";
     code := "23514" |}.

Definition fkViolation (constraint : string) : PostgrestError :=
  {| message := "insert or update on table todos violates foreign key constraint "
                ++ constraint;
     code := "23503" |}.

Definition noRow : PostgrestError :=
  {| message := "JSON object requested, multiple (or no) rows returned";
     code := "PGRST116" |}.

Definition known (d : DB) (u : string) : bool :=
  existsb (String.eqb u) (auth_users d).

Definition knownOpt (d : DB) (u : option string) : bool :=
  match u with
  | Some x => known d x
  | None => true
  end.

Definition fail {T} (e : PostgrestError) : Single T :=
  {| data := None; error := Some e |}.

Definition insert_todo (r : Todos.Insert) (d : DB) : Single Todos.Row * DB :=
  if negb (online d) then (fail unreachable, d)
  else if (String.length (Todos.ins_task r) <? 4)%nat then (fail checkViolation, d)
  else if negb (known d (Todos.ins_user_id r)) then (fail (fkViolation "todos_user_id_fkey"), d)
  else if negb (knownOpt d (Todos.ins_assigned_to r)) then (fail (fkViolation "todos_assigned_to_fkey"), d)
  else if negb (known d (Todos.ins_created_by r)) then (fail (fkViolation "todos_created_by_fkey"), d)
  else
    let row := {| Todos.id := next_id d;
                  Todos.inserted_at := stamp d;
                  Todos.is_complete := Some false;
                  Todos.task := Some (Todos.ins_task r);
                  Todos.user_id := Todos.ins_user_id r;
                  Todos.assigned_to := Todos.ins_assigned_to r;
                  Todos.due_date := Todos.ins_due_date r;
                  Todos.created_by := Todos.ins_created_by r |} in
    ({| data := Some row; error := None |},
     {| online := online d; auth_users := auth_users d;
        todos := todos d ++ [row]; notifications := notifications d;
        next_id := next_id d + 1; clock := clock d + 1; stamp := stamp d |}).

Definition update_todo_assigned_to (id : Z) (a : option string) (d : DB)
  : Single Todos.Row * DB :=
  if negb (online d) then (fail unreachable, d)
  else if negb (knownOpt d a) then (fail (fkViolation "todos_assigned_to_fkey"), d)
  else
    match find (fun t => Todos.id t =? id) (todos d) with
    | None => (fail noRow, d)
    | Some t =>
        let row := Todos.with_assigned_to t a in
        ({| data := Some row; error := None |},
         {| online := online d; auth_users := auth_users d;
            todos := map (fun t => if Todos.id t =? id then row else t) (todos d);
            notifications := notifications d;
            next_id := next_id d; clock := clock d; stamp := stamp d |})
    end.

Definition insert_notification (r : Notifications.Insert) (d : DB)
  : option PostgrestError * DB :=
  if negb (online d) then (Some unreachable, d)
  else if negb (known d (Notifications.ins_user_id r))
  then (Some (fkViolation "notifications_user_id_fkey"), d)
  else if negb (existsb (fun t => Todos.id t =? Notifications.ins_task_id r) (todos d))
  then (Some (fkViolation "notifications_task_id_fkey"), d)
  else
    let row := {| Notifications.id := next_id d;
                  Notifications.user_id := Notifications.ins_user_id r;
                  Notifications.task_id := Notifications.ins_task_id r;
                  Notifications.message := Notifications.ins_message r;
                  Notifications.is_read := Notifications.ins_is_read r;
                  Notifications.created_at := clock d |} in
    (None,
     {| online := online d; auth_users := auth_users d; todos := todos d;
        notifications := notifications d ++ [row];
        next_id := next_id d + 1; clock := clock d + 1; stamp := stamp d |}).

(** [ORDER BY created_at DESC]: insertion into a descending list. *)
Fixpoint insertDesc (n : Notifications.Row) (l : list Notifications.Row)
  : list Notifications.Row :=
  match l with
  | [] => [n]
  | m :: l' =>
      if Notifications.created_at m <=? Notifications.created_at n
      then n :: l
      else m :: insertDesc n l'
  end.

Definition orderDesc (l : list Notifications.Row) : list Notifications.Row :=
  fold_right insertDesc [] l.

Definition select_notifications (u : string) (d : DB)
  : Many Notifications.Row * DB :=
  if negb (online d) then ({| rows := None; rows_error := Some unreachable |}, d)
  else
    ({| rows := Some (firstn 20 (orderDesc
                 (filter (fun n => String.eqb (Notifications.user_id n) u)
                         (notifications d))));
        rows_error := None |}, d).

Definition setNotifications (f : Notifications.Row -> Notifications.Row) (d : DB) : DB :=
  {| online := online d; auth_users := auth_users d; todos := todos d;
     notifications := map f (notifications d);
     next_id := next_id d; clock := clock d; stamp := stamp d |}.

Definition mark_notification_read (id : Z) (d : DB) : option PostgrestError * DB :=
  if negb (online d) then (Some unreachable, d)
  else (None, setNotifications
                (fun n => if Notifications.id n =? id
                          then Notifications.with_read n else n) d).

Definition mark_all_notifications_read (u : string) (d : DB)
  : option PostgrestError * DB :=
  if negb (online d) then (Some unreachable, d)
  else (None, setNotifications
                (fun n => if String.eqb (Notifications.user_id n) u
                             && negb (Notifications.is_read n)
                          then Notifications.with_read n else n) d).

#[export] Instance client : Client DB := {|
  Supabase.insert_todo := insert_todo;
  Supabase.update_todo_assigned_to := update_todo_assigned_to;
  Supabase.insert_notification := insert_notification;
  Supabase.select_notifications := select_notifications;
  Supabase.mark_notification_read := mark_notification_read;
  Supabase.mark_all_notifications_read := mark_all_notifications_read
|}.

(** A store with two users and no rows. *)
Definition empty (up : bool) : DB :=
  {| online := up; auth_users := ["alice"; "bob"]; todos := [];
     notifications := []; next_id := 1; clock := 1000;
     stamp := "2024-01-01T00:00:00+00:00" |}.

(** The notification the store holds under id [k], for the recipient bob
    and the task 100, created at the instant [k]. *)
Definition notificationNo (k : nat) : Notifications.Row :=
  {| Notifications.id := Z.of_nat k;
     Notifications.user_id := "bob";
     Notifications.task_id := 100;
     Notifications.message := "alice assigned you a task";
     Notifications.is_read := false;
     Notifications.created_at := Z.of_nat k |}.

Definition task100 : Todos.Row :=
  {| Todos.id := 100; Todos.inserted_at := "2024-01-01T00:00:00+00:00";
     Todos.is_complete := Some false; Todos.task := Some "Buy milk";
     Todos.user_id := "alice"; Todos.assigned_to := Some "bob";
     Todos.due_date := None; Todos.created_by := "alice" |}.

(** A store that holds the task 100 and the notifications 1 to [k]. *)
Definition seeded (k : nat) : DB :=
  {| online := true; auth_users := ["alice"; "bob"]; todos := [task100];
     notifications := map notificationNo (seq 1 k);
     next_id := 1000; clock := 1000;
     stamp := "2024-01-01T00:00:00+00:00" |}.

Definition alice : Auth.User :=
  {| Auth.id := "alice"; Auth.email := Some "alice@example.com" |}.

(** A runtime for the examples: [Date.parse] on the date-only form
    [YYYY-MM-DD] (midnight UTC of that day; every other string is an
    invalid date), and a local time of UTC+05:30 all year. *)
Fixpoint digits (s : string) (acc : Z) : option Z :=
  match s with
  | EmptyString => Some acc
  | String c s' =>
      let n := Z.of_nat (nat_of_ascii c) in
      if (48 <=? n) && (n <=? 57) then digits s' (10 * acc + (n - 48))
      else None
  end.

(** Days from the epoch to the civil date [y]-[m]-[d]. *)
Definition daysFromCivil (y m d : Z) : Z :=
  let y' := if m <=? 2 then y - 1 else y in
  let era := y' / 400 in
  let yoe := y' - era * 400 in
  let mp := (m + 9) mod 12 in
  let doy := (153 * mp + 2) / 5 + d - 1 in
  let doe := yoe * 365 + yoe / 4 - yoe / 100 + doy in
  era * 146097 + doe - 719468.

Definition parseDateOnly (s : string) : option Z :=
  if (String.length s =? 10)%nat
     && String.eqb (substring 4 1 s) "-" && String.eqb (substring 7 1 s) "-"
  then
    match digits (substring 0 4 s) 0, digits (substring 5 2 s) 0,
          digits (substring 8 2 s) 0 with
    | Some y, Some m, Some d =>
        if (1 <=? m) && (m <=? 12) && (1 <=? d) && (d <=? 31)
        then Some (daysFromCivil y m d * 86400000)
        else None
    | _, _, _ => None
    end
  else None.

#[export] Instance runtime : JS.Runtime := {|
  JS.Date_parse := parseDateOnly;
  JS.LocalTZA _ _ := 19800000
|}.

End RefStore.

(** Modelled from the spec: the same store behind a connection that
    carries a number of calls and is then lost; every later call fails the
    way a call to a store out of reach does, and changes nothing. *)
Module FlakyStore.
Import Supabase.

Record DB := {
  calls_left : nat;
  store : RefStore.DB
}.

Definition call {R : Type} (lost : R) (run : RefStore.DB -> R * RefStore.DB)
           (d : DB) : R * DB :=
  match calls_left d with
  | O => (lost, d)
  | S n => let (reply, d') := run (store d) in
           (reply, {| calls_left := n; store := d' |})
  end.

#[export] Instance client : Client DB := {|
  Supabase.insert_todo r :=
    call (RefStore.fail RefStore.unreachable) (RefStore.insert_todo r);
  Supabase.update_todo_assigned_to id a :=
    call (RefStore.fail RefStore.unreachable) (RefStore.update_todo_assigned_to id a);
  Supabase.insert_notification r :=
    call (Some RefStore.unreachable) (RefStore.insert_notification r);
  Supabase.select_notifications u :=
    call {| rows := None; rows_error := Some RefStore.unreachable |}
         (RefStore.select_notifications u);
  Supabase.mark_notification_read id :=
    call (Some RefStore.unreachable) (RefStore.mark_notification_read id);
  Supabase.mark_all_notifications_read u :=
    call (Some RefStore.unreachable) (RefStore.mark_all_notifications_read u)
|}.

End FlakyStore.

(* ===================================================================== *)
(** ** Values for the scenarios                                          *)
(* ===================================================================== *)

Module Examples.
Import Supabase Async.

Definition bob : Auth.User :=
  {| Auth.id := "bob"; Auth.email := Some "bob@example.com" |}.

(** The form of [TodoList] filled in for an assignee the store does not know. *)
Definition ghostForm : TodoList.State :=
  {| TodoList.todos := []; TodoList.filteredTodos := [];
     TodoList.newTaskText := "Buy milk";
     TodoList.newTaskAssignedTo := Some "ghost-user";
     TodoList.newTaskDueDate := None;
     TodoList.currentFilter := all; TodoList.errorText := "";
     TodoList.loading := false |}.

Definition ghostWorld : World RefStore.DB TodoList.State :=
  {| db := RefStore.empty true; log := []; ui := ghostForm |}.

(** The same form in front of a store whose connection is lost after one
    call. *)
Definition ghostWorldOneCall : World FlakyStore.DB TodoList.State :=
  {| db := {| FlakyStore.calls_left := 1; FlakyStore.store := RefStore.empty true |};
     log := []; ui := ghostForm |}.

(** The list of alice, who created the task 100 and assigned it to bob. *)
Definition aliceList : TodoList.State :=
  {| TodoList.todos := [RefStore.task100]; TodoList.filteredTodos := [RefStore.task100];
     TodoList.newTaskText := ""; TodoList.newTaskAssignedTo := None;
     TodoList.newTaskDueDate := None;
     TodoList.currentFilter := all; TodoList.errorText := "";
     TodoList.loading := false |}.

Definition aliceWorld : World RefStore.DB TodoList.State :=
  {| db := RefStore.seeded 0; log := []; ui := aliceList |}.

(** The feed of bob before its first load, on a store that holds [k]
    notifications for him. *)
Definition bobFeed (k : nat) : World RefStore.DB Notification.State :=
  {| db := RefStore.seeded k; log := []; ui := Notification.initial |}.

(** The same feed while the store cannot be reached. *)
Definition bobFeedOffline : World RefStore.DB Notification.State :=
  {| db := RefStore.empty false; log := [];
     ui := {| Notification.notifications :=
                [RefStore.notificationNo 2; RefStore.notificationNo 1];
              Notification.showNotifications := true;
              Notification.unreadCount := 2 |} |}.

Definition taskDue (id : Z) (due : option string) (complete : option bool)
  : Todos.Row :=
  {| Todos.id := id; Todos.inserted_at := "2024-01-01T00:00:00+00:00";
     Todos.is_complete := complete; Todos.task := Some "Buy milk";
     Todos.user_id := "alice"; Todos.assigned_to := None;
     Todos.due_date := due; Todos.created_by := "alice" |}.

(** Noon UTC of 2024-01-02. *)
Definition noon_2024_01_02 : Z := 1704196800000.

Definition dated : list Todos.Row :=
  [ taskDue 1 (Some "2024-01-01") (Some false);
    taskDue 2 (Some "2024-01-02") (Some false);
    taskDue 3 (Some "2024-01-01") (Some true);
    taskDue 4 None (Some false);
    taskDue 5 (Some "2024-01-03") None ].

End Examples.

(* ===================================================================== *)
(** ** components/TodoList: loading, deleting, due dates                 *)
(* ===================================================================== *)

(** The handlers of this part make one store call each and go on with its
    answer: they take the answer as an argument. *)
Module TodoListOps.
Import JS Supabase TodoList.

(** [{ ...t, due_date: dueDate }]. *)
Definition with_due_date (t : Todos.Row) (dueDate : option string) : Todos.Row :=
  {| Todos.id := Todos.id t; Todos.inserted_at := Todos.inserted_at t;
     Todos.is_complete := Todos.is_complete t; Todos.task := Todos.task t;
     Todos.user_id := Todos.user_id t; Todos.assigned_to := Todos.assigned_to t;
     Todos.due_date := dueDate; Todos.created_by := Todos.created_by t |}.

Definition with_loading (b : bool) (s : State) : State :=
  {| todos := todos s; filteredTodos := filteredTodos s;
     newTaskText := newTaskText s; newTaskAssignedTo := newTaskAssignedTo s;
     newTaskDueDate := newTaskDueDate s; currentFilter := currentFilter s;
     errorText := errorText s; loading := b |}.

(** [fetchTodos]: [reply] answers the select of the tasks the user created
    or is assigned, most recent first. An error is thrown, caught and
    logged; the [finally] clears [loading]. *)
Definition fetchTodos (reply : Many Todos.Row) (s : State) : State :=
  let s1 := with_loading true s in
  let s2 :=
    match rows_error reply with
    | Some _ => s1
    | None =>
        match rows reply with
        | Some data => with_todos (fun _ => data) s1
        | None => s1
        end
    end in
  with_loading false s2.

(** [deleteTodo(id)] of the render [r]: [reply] is the error of
    [from('todos').delete().eq('id', id).throwOnError()], absent when the
    store deleted the row. *)
Definition deleteTodo (r : State) (id : Z) (reply : option PostgrestError)
           (s : State) : State :=
  match reply with
  | Some _ => s
  | None =>
      with_todos (fun _ => filter (fun x => negb (Todos.id x =? id)) (todos r)) s
  end.

(** [updateTodoDueDate(todo, dueDate)] of the render [r]: [reply] is the
    error of the update, thrown by [throwOnError()] and only logged. *)
Definition updateTodoDueDate (r : State) (todo : Todos.Row)
           (dueDate : option string) (reply : option PostgrestError)
           (s : State) : State :=
  match reply with
  | Some _ => s
  | None =>
      with_todos (fun _ =>
        map (fun t => if Todos.id t =? Todos.id todo
                      then with_due_date t dueDate else t)
            (todos r)) s
  end.

End TodoListOps.

(* ===================================================================== *)
(** ** components/TodoList: the Todo row                                 *)
(* ===================================================================== *)

Module TodoItem.
Import JS Supabase.

(** [{ id, email }] of the creator and of the assignee. *)
Record Person := {
  id : string;
  email : string
}.

Record State := {
  isCompleted : option bool;
  expanded : bool;
  assignee : option Person;
  creator : option Person
}.

(** [useState(todo.is_complete)], [useState(false)], [useState(null)] twice. *)
Definition initial (todo : Todos.Row) : State :=
  {| isCompleted := Todos.is_complete todo; expanded := false;
     assignee := None; creator := None |}.

(** The value [toggle] asks the store to write: [!isCompleted]. *)
Definition toggleValue (s : State) : bool := negb (truthyb (isCompleted s)).

(** [toggle]: [reply] answers the update of [is_complete]; an error is
    thrown by [throwOnError()] and logged. *)
Definition toggle (reply : Single Todos.Row) (s : State) : State :=
  match error reply with
  | Some _ => s
  | None =>
      match data reply with
      | Some row =>
          {| isCompleted := Todos.is_complete row; expanded := expanded s;
             assignee := assignee s; creator := creator s |}
      | None => s
      end
  end.

(** [users.find(u => u.id === id)]. *)
Definition findUser (users : list UserSelector.UserProfile) (id : string)
  : option UserSelector.UserProfile :=
  find (fun u => String.eqb (UserSelector.id u) id) users.

Definition person (u : UserSelector.UserProfile) : Person :=
  {| id := UserSelector.id u; email := UserSelector.email u |}.

(** One run of [fetchUserDetailsFromAPI] for [todo]. *)
Definition fetchUserDetailsFromAPI (todo : Todos.Row)
           (r : UserSelector.FetchResult) (s : State) : State :=
  match r with
  | UserSelector.Response true (Some users) =>
      let creator' :=
        if truthy (Some (Todos.user_id todo)) then
          match findUser users (Todos.user_id todo) with
          | Some c => Some (person c)
          | None => creator s
          end
        else creator s in
      let assignee' :=
        match Todos.assigned_to todo with
        | Some a =>
            if truthy (Some a) then
              match findUser users a with
              | Some u => Some (person u)
              | None => assignee s
              end
            else assignee s
        | None => assignee s
        end in
      {| isCompleted := isCompleted s; expanded := expanded s;
         assignee := assignee'; creator := creator' |}
  | _ => s
  end.

Section WithRuntime.
Context {rt : Runtime}.

(** [isOverdue()] of the row, rendered at the time value [now]. *)
Definition isOverdue (now : Z) (todo : Todos.Row) (s : State) : bool :=
  if negb (truthy (Todos.due_date todo)) || truthyb (isCompleted s) then false
  else
    match Todos.due_date todo with
    | None => false
    | Some d =>
        let today := setHours (Some now) 0 0 0 0 in
        let dueDate := setHours (Date_of_string d) 0 0 0 0 in
        Date_lt dueDate today
    end.

(** [isDueToday()] of the row. *)
Definition isDueToday (now : Z) (todo : Todos.Row) (s : State) : bool :=
  if negb (truthy (Todos.due_date todo)) || truthyb (isCompleted s) then false
  else
    match Todos.due_date todo with
    | None => false
    | Some d =>
        let today := setHours (Some now) 0 0 0 0 in
        let dueDate := setHours (Date_of_string d) 0 0 0 0 in
        getTime_eq dueDate today
    end.

(** The border classes of the [<li>].  Each of the two calls makes its own
    [new Date()]: [isOverdue()] reads the clock at [now1], and when it
    answers false [isDueToday()] reads it again, at [now2]. *)
Definition borderClass (now1 now2 : Z) (todo : Todos.Row) (s : State) : string :=
  if isOverdue now1 todo s then "border-l-4 border-red-500"
  else if isDueToday now2 todo s then "border-l-4 border-yellow-500"
  else "".

End WithRuntime.

(** Whether the badge ["Created by"] is rendered. *)
Definition showsCreator (currentUserId : string) (s : State) : bool :=
  match creator s with
  | Some c => negb (String.eqb (id c) currentUserId)
  | None => false
  end.

End TodoItem.

(* ===================================================================== *)
(** ** components/UserSelector: what is rendered                         *)
(* ===================================================================== *)

Module UserSelectorView.
Import UserSelector.

(** The [value] of each [<option>]: ["Unassigned"] has the empty value. *)
Definition optionValues (s : State) : list string :=
  "" :: map id (users s).

(** [user.name ?? user.email]. *)
Definition optionLabel (u : UserProfile) : string :=
  match name u with
  | Some n => n
  | None => email u
  end.

(** What [onChange] passes to [onSelect]: [e.target.value || null]. *)
Definition onChange (value : string) : option string :=
  if (String.length value =? 0)%nat then None else Some value.

(** [disabled={loading || users.length === 0}]. *)
Definition disabled (s : State) : bool :=
  loading s || (List.length (users s) =? 0)%nat.

(** Whether ["No users available"] is rendered. *)
Definition showsNoUsers (s : State) : bool :=
  negb (loading s) && (List.length (users s) =? 0)%nat.

End UserSelectorView.

(* ===================================================================== *)
(** ** components/Notification: guarded runs                             *)
(* ===================================================================== *)

Module FeedRuns.
Import Supabase Async Notification.

Section WithClient.
Context {DB : Type} `{Client DB}.

(** A run in which every row the feed inserts is unread and every
    [markAsRead] names an id that exactly one unread entry of the view
    carries when the handler runs. *)
Fixpoint tame (userId : string) (ops : list Op) (w : World DB State) : bool :=
  match ops with
  | [] => true
  | op :: rest =>
      match op with
      | RemoteInsert n => negb (Notifications.is_read n)
      | MarkRead id => unreadWithId id (notifications (ui w)) =? 1
      | _ => true
      end && tame userId rest (snd (run userId op w))
  end.

End WithClient.

(** Whether the badge with the counter is rendered on the bell:
    [{unreadCount > 0 && ...}]. *)
Definition showsBadge (s : State) : bool := unreadCount s >? 0.

(** Whether the button ["Mark all as read"] is rendered: it stands inside
    the panel, [{showNotifications && ...}], under [{unreadCount > 0 && ...}]. *)
Definition showsMarkAll (s : State) : bool :=
  showNotifications s && (unreadCount s >? 0).

(** The ids of the entries rendered with a button ["Mark as read"]: the
    entries of the open panel with [!notification.is_read]. *)
Definition markAsReadButtons (s : State) : list Z :=
  if showNotifications s
  then map Notifications.id
           (filter (fun n => negb (Notifications.is_read n)) (notifications s))
  else [].

End FeedRuns.

(* ===================================================================== *)
(** ** pages/api/users                                                   *)
(* ===================================================================== *)

Module UsersApi.

(** A user as [supabase.auth.admin.listUsers()] lists it: [email] may be
    undefined, and [user_metadata?.name] may be missing. *)
Record AuthUser := {
  id : string;
  email : option string;
  metadata_name : option string
}.

(** What the [try] block gets from the admin client: a throw (of
    [createClient] or of the call), or [{ data, error }] with the message
    of the error. *)
Inductive AdminReply :=
| AdminThrows
| AdminListing (users : list AuthUser) (error : option string).

(** An entry of the response: [name] is [null] when the metadata has none. *)
Record ApiUser := {
  api_id : string;
  api_email : option string;
  api_name : option string
}.

Inductive Body :=
| Users (users : list ApiUser)
| Error (error : string).

(** [handler]: the status and the JSON body of the response, for the value
    of [SUPABASE_SERVICE_ROLE_KEY] (empty when it is not set). *)
Definition handler (supabaseServiceKey : string) (admin : AdminReply) : Z * Body :=
  if (String.length supabaseServiceKey =? 0)%nat then (200, Users [])
  else
    match admin with
    | AdminThrows => (500, Error "Failed to fetch users")
    | AdminListing _ (Some message) => (500, Error message)
    | AdminListing users None =>
        (200, Users (map (fun user => {| api_id := id user;
                                         api_email := email user;
                                         api_name := metadata_name user |})
                         users))
    end.

(** The entry as [UserSelector] reads it from the JSON body. The type
    [UserProfile] has a string for [email]: the reading is that of the
    component only for an entry that has one. *)
Definition profileOf (u : ApiUser) : UserSelector.UserProfile :=
  {| UserSelector.id := api_id u;
     UserSelector.email := match api_email u with Some e => e | None => "" end;
     UserSelector.name := api_name u |}.

(** What [fetch('/api/users')] and [response.json()] give the component
    for a response of the handler: [response.ok] is a status from 200 to
    299, and [data.users] exists in a body that lists users. *)
Definition asFetchResult (response : Z * Body) : UserSelector.FetchResult :=
  UserSelector.Response
    ((200 <=? fst response) && (fst response <=? 299))
    (match snd response with
     | Users users => Some (map profileOf users)
     | Error _ => None
     end).

End UsersApi.

(* ===================================================================== *)
(** ** Vocabulary for the properties of handlers                         *)
(* ===================================================================== *)

Module Events.
Import TodoList.

(** The id an event is about. *)
Definition eventId (e : Payload) : Z :=
  match e with
  | INSERT new => Todos.id new
  | UPDATE new => Todos.id new
  | DELETE old_id => old_id
  end.

Definition isInsert (e : Payload) : bool :=
  match e with
  | INSERT _ => true
  | _ => false
  end.

End Events.

Module Calls.
Import Supabase Async.

Section WithWorld.
Context {DB U : Type}.

(** The calls of [c] that satisfy [f] are at most [k], whatever the world. *)
Definition atMost {A} (f : Request -> bool) (k : nat)
           (c : M (DB := DB) (U := U) A) : Prop :=
  forall w, exists calls,
    log (snd (c w)) = (log w ++ calls)%list
    /\ (List.length (filter f calls) <= k)%nat.

(** Every call of [c] satisfies [P]. *)
Definition only {A} (P : Request -> Prop)
           (c : M (DB := DB) (U := U) A) : Prop :=
  forall w, exists calls,
    log (snd (c w)) = (log w ++ calls)%list /\ Forall P calls.

(** [c] leaves the part [g] of the component state as it was. *)
Definition keeps {A X} (g : U -> X) (c : M (DB := DB) (U := U) A) : Prop :=
  forall w, g (ui (snd (c w))) = g (ui w).

(** [c] never completes by a throw. *)
Definition total {A} (c : M (DB := DB) (U := U) A) : Prop :=
  forall w, exists a, fst (c w) = Normal a.

End WithWorld.

Definition isInsertTodo (q : Request) : bool :=
  match q with
  | InsertTodo _ => true
  | _ => false
  end.

Definition isInsertNotification (q : Request) : bool :=
  match q with
  | InsertNotification _ => true
  | _ => false
  end.

Definition anyCall (q : Request) : bool := true.

(** A call that creating or reassigning a task may make on behalf of
    [actor]: a write of the task, or a notification for someone else. *)
Definition assignmentCall (actor : string) (q : Request) : Prop :=
  match q with
  | InsertTodo _ => True
  | UpdateTodoAssignedTo _ _ => True
  | InsertNotification n =>
      Notifications.ins_user_id n <> actor
      /\ Notifications.ins_user_id n <> ""
      /\ Notifications.ins_is_read n = false
  | _ => False
  end.

End Calls.

Module Calendar.
Import JS.

(** A time value far enough from the ends of the range of [Date] for the
    start of its day to be a time value too. *)
Definition inRange (t : Z) : Prop := Z.abs t <= 8640000000000000 - msPerDay.

End Calendar.

(* ===================================================================== *)
(** ** Further values for the scenarios                                  *)
(* ===================================================================== *)

Module MoreExamples.
Import Supabase Async Examples.

(** The form filled in for bob, whom the store knows. *)
Definition bobForm : TodoList.State :=
  {| TodoList.todos := []; TodoList.filteredTodos := [];
     TodoList.newTaskText := "Buy milk";
     TodoList.newTaskAssignedTo := Some "bob";
     TodoList.newTaskDueDate := None;
     TodoList.currentFilter := all; TodoList.errorText := "";
     TodoList.loading := false |}.

Definition bobFormWorld : World RefStore.DB TodoList.State :=
  {| db := RefStore.empty true; log := []; ui := bobForm |}.

(** The same form while the store cannot be reached. *)
Definition offlineWorld : World RefStore.DB TodoList.State :=
  {| db := RefStore.empty false; log := []; ui := bobForm |}.

(** The row the reference store returns for the task of [bobForm]. *)
Definition milkForBob : Todos.Row :=
  {| Todos.id := 1; Todos.inserted_at := "2024-01-01T00:00:00+00:00";
     Todos.is_complete := Some false; Todos.task := Some "Buy milk";
     Todos.user_id := "alice"; Todos.assigned_to := Some "bob";
     Todos.due_date := None; Todos.created_by := "alice" |}.

(** A list that holds the dated tasks. *)
Definition datedList : TodoList.State :=
  {| TodoList.todos := dated; TodoList.filteredTodos := dated;
     TodoList.newTaskText := ""; TodoList.newTaskAssignedTo := None;
     TodoList.newTaskDueDate := None;
     TodoList.currentFilter := all; TodoList.errorText := "";
     TodoList.loading := false |}.

Definition profile (i : string) : UserSelector.UserProfile :=
  {| UserSelector.id := i; UserSelector.email := i ++ "@example.com";
     UserSelector.name := None |}.

(** A feed whose view lists the notifications 2 and 1, the first of them
    read, with the counter at 1. *)
Definition oneUnread : Notification.State :=
  {| Notification.notifications :=
       [Notifications.with_read (RefStore.notificationNo 2);
        RefStore.notificationNo 1];
     Notification.showNotifications := true;
     Notification.unreadCount := 1 |}.

End MoreExamples.

(* ===================================================================== *)
(** * Properties                                                         *)
(* ===================================================================== *)

(** ** The filter engine *)

Module FilterFacts.
Import JS Filter.

Section WithRuntime.
Context {rt : Runtime}.

Lemma isOverdue_inv now t :
  isOverdue now t = true ->
  exists s d n,
    Todos.due_date t = Some s /\ s <> "" /\
    setHours (Date_of_string s) 0 0 0 0 = Some d /\
    today now = Some n /\ d < n /\
    truthyb (Todos.is_complete t) = false.
Proof.
  unfold isOverdue.
  destruct (Todos.due_date t) as [s|]; simpl; [|discriminate].
  destruct (String.length s =? 0)%nat eqn:E; simpl; [discriminate|].
  destruct (setHours (Date_of_string s) 0 0 0 0) as [d|] eqn:Ed; simpl;
    [|discriminate].
  destruct (today now) as [n|] eqn:En; simpl; [|discriminate].
  intros H. apply andb_prop in H. destruct H as [Hlt Hc].
  exists s, d, n. repeat split; auto.
  - intros ->. discriminate.
  - now apply Z.ltb_lt.
  - now apply negb_true_iff.
Qed.

Lemma isDueToday_inv now t :
  isDueToday now t = true ->
  exists s d,
    Todos.due_date t = Some s /\
    setHours (Date_of_string s) 0 0 0 0 = Some d /\
    today now = Some d /\
    truthyb (Todos.is_complete t) = false.
Proof.
  unfold isDueToday.
  destruct (Todos.due_date t) as [s|]; simpl; [|discriminate].
  destruct (String.length s =? 0)%nat; simpl; [discriminate|].
  destruct (setHours (Date_of_string s) 0 0 0 0) as [d|] eqn:Ed; simpl;
    [|discriminate].
  destruct (today now) as [n|] eqn:En; simpl; [|discriminate].
  intros H. apply andb_prop in H. destruct H as [Heq Hc].
  apply Z.eqb_eq in Heq. subst n.
  exists s, d. repeat split; auto. now apply negb_true_iff.
Qed.

(** The two date predicates exclude each other on every task. *)
Lemma isDueToday_not_isOverdue now t :
  isDueToday now t = true -> isOverdue now t = false.
Proof.
  intros Hd. destruct (isOverdue now t) eqn:Ho; [|reflexivity].
  apply isDueToday_inv in Hd. destruct Hd as (s & d & Hs & Hd & Hn & _).
  apply isOverdue_inv in Ho.
  destruct Ho as (s' & d' & n' & Hs' & _ & Hd' & Hn' & Hlt & _).
  rewrite Hs in Hs'. injection Hs' as <-.
  rewrite Hd in Hd'. injection Hd' as <-.
  rewrite Hn in Hn'. injection Hn' as <-. lia.
Qed.

Lemma In_filterTodos_overdue user todos now t :
  In t (filterTodos user todos overdue now) <->
  In t todos /\ isOverdue now t = true.
Proof.
  unfold filterTodos. destruct todos as [|a l]; simpl (_ =? _)%nat; cbv iota.
  - simpl. tauto.
  - apply filter_In.
Qed.

Lemma In_filterTodos_dueToday user todos now t :
  In t (filterTodos user todos dueToday now) <->
  In t todos /\ isDueToday now t = true.
Proof.
  unfold filterTodos. destruct todos as [|a l]; simpl (_ =? _)%nat; cbv iota.
  - simpl. tauto.
  - apply filter_In.
Qed.

(** C8. For every task collection and every reference time [now], a task
    returned by the ['dueToday'] filter is not returned by the
    ['overdue'] filter: the two results are disjoint. *)
Theorem dueToday_overdue_disjoint user todos now t :
  In t (filterTodos user todos dueToday now) ->
  ~ In t (filterTodos user todos overdue now).
Proof.
  intros Hd Ho.
  apply In_filterTodos_dueToday in Hd. apply In_filterTodos_overdue in Ho.
  destruct Hd as [_ Hd]. destruct Ho as [_ Ho].
  rewrite (isDueToday_not_isOverdue _ _ Hd) in Ho. discriminate.
Qed.

(** C9. For every task collection and every reference time [now], the
    ['overdue'] filter returns no task whose due date is null and no
    task whose completion flag is true. *)
Theorem overdue_excludes_undated_and_completed user todos now t :
  Todos.due_date t = None \/ Todos.is_complete t = Some true ->
  ~ In t (filterTodos user todos overdue now).
Proof.
  intros H Ho. apply In_filterTodos_overdue in Ho. destruct Ho as [_ Ho].
  apply isOverdue_inv in Ho.
  destruct Ho as (s & d & n & Hs & _ & _ & _ & _ & Hc).
  destruct H as [H|H]; rewrite H in *; discriminate.
Qed.

(** The filter never invents a task. *)
Lemma filterTodos_incl user todos mode now :
  incl (filterTodos user todos mode now) todos.
Proof.
  unfold filterTodos. destruct (_ =? _)%nat; [intros x []|].
  destruct mode; try apply incl_filter. apply incl_refl.
Qed.

End WithRuntime.

End FilterFacts.


(** ** The user selector *)

Module UserSelectorFacts.
Import UserSelector.

Lemma formattedUsers_excludes currentUserId data :
  Forall (fun u => id u <> currentUserId) (formattedUsers currentUserId data).
Proof.
  unfold formattedUsers. apply Forall_forall. intros u Hu.
  apply in_map_iff in Hu. destruct Hu as (v & <- & Hv).
  apply filter_In in Hv. destruct Hv as [_ Hv]. simpl.
  apply negb_true_iff in Hv. now apply String.eqb_neq.
Qed.

(** A run of the effect keeps the current user out of the candidates. *)
Lemma fetchUsers_excludes currentUserId r s :
  Forall (fun u => id u <> currentUserId) (users s) ->
  Forall (fun u => id u <> currentUserId) (users (fetchUsers currentUserId r s)).
Proof.
  intros Hs. destruct r as [|[|] [data|]]; simpl; auto.
  apply formattedUsers_excludes.
Qed.

(** The candidates are entries of the directory reply, in its order. *)
Lemma formattedUsers_ids currentUserId data :
  map id (formattedUsers currentUserId data) =
  filter (fun i => negb (String.eqb i currentUserId)) (map id data).
Proof.
  unfold formattedUsers. induction data as [|u data IH]; simpl; [reflexivity|].
  destruct (String.eqb (id u) currentUserId); simpl; now rewrite IH.
Qed.

(** While every run of the effect was started for the same user, that
    user is not among the candidates. *)
Lemma runEffects_excludes currentUserId runs :
  Forall (fun run => fst run = currentUserId) runs ->
  Forall (fun u => id u <> currentUserId) (users (runEffects runs)).
Proof.
  unfold runEffects.
  assert (G : forall s, Forall (fun run => fst run = currentUserId) runs ->
            Forall (fun u => id u <> currentUserId) (users s) ->
            Forall (fun u => id u <> currentUserId)
                   (users (fold_left (fun s run => fetchUsers (fst run) (snd run) s)
                                     runs s))).
  { induction runs as [|run rs IH]; intros s Hr Hs; simpl; [exact Hs|].
    apply Forall_cons_iff in Hr. destruct Hr as [Hx Hl].
    apply IH; [exact Hl|]. rewrite Hx. now apply fetchUsers_excludes. }
  intros Hr. apply G; [exact Hr|constructor].
Qed.

(** An empty directory leaves no candidate, and it is no error. *)
Lemma empty_directory_no_candidates currentUserId s :
  fetchUsers currentUserId (Response true (Some [])) s
  = {| users := []; loading := false |}.
Proof. reflexivity. Qed.

End UserSelectorFacts.

(** ** The task collection under the change feed *)

Module SyncFacts.
Import TodoList.

Lemma ids_UPDATE new prev :
  ids (applyRemoteEvent (UPDATE new) prev) = ids prev.
Proof.
  unfold ids. simpl. rewrite map_map. apply map_ext_in. intros t _.
  destruct (Todos.id t =? Todos.id new) eqn:E; [|reflexivity].
  apply Z.eqb_eq in E. now rewrite E.
Qed.

Lemma ids_DELETE old_id prev :
  ids (applyRemoteEvent (DELETE old_id) prev)
  = filter (fun i => negb (i =? old_id)) (ids prev).
Proof.
  unfold ids. simpl. induction prev as [|t prev IH]; simpl; [reflexivity|].
  destruct (Todos.id t =? old_id); simpl; now rewrite IH.
Qed.

(** An [INSERT] adds an entry whatever the collection holds. *)
Lemma length_INSERT new prev :
  List.length (applyRemoteEvent (INSERT new) prev) = S (List.length prev).
Proof. reflexivity. Qed.

Lemma existsb_eqb_In (x : Z) (l : list Z) :
  existsb (Z.eqb x) l = true <-> In x l.
Proof.
  rewrite existsb_exists. split.
  - intros (y & Hy & E). apply Z.eqb_eq in E. now subst.
  - intros H. exists x. split; [assumption|apply Z.eqb_refl].
Qed.

Lemma insertsFresh_cons e rest prev :
  insertsFresh (e :: rest) prev
  = insertsFresh [e] prev && insertsFresh rest (applyRemoteEvent e prev).
Proof. simpl. now rewrite andb_true_r. Qed.

(** One event keeps the ids distinct, unless it inserts an id already there. *)
Lemma applyRemoteEvent_NoDup e prev :
  NoDup (ids prev) -> insertsFresh [e] prev = true ->
  NoDup (ids (applyRemoteEvent e prev)).
Proof.
  intros Hnd Hf. destruct e as [new|new|old_id].
  - simpl in Hf. rewrite andb_true_r in Hf. apply negb_true_iff in Hf.
    simpl. constructor; [|exact Hnd].
    intros Hin. apply existsb_eqb_In in Hin. fold (ids prev) in Hin. congruence.
  - now rewrite ids_UPDATE.
  - rewrite ids_DELETE. now apply NoDup_filter.
Qed.

(** C1 (amended). An [INSERT] puts its row in front of the collection
    whatever the collection holds: it replaces nothing.  A sequence of
    change-feed events leaves the ids of the collection pairwise distinct
    when they were so before and no [INSERT] of the sequence carries an id
    that the collection holds at the moment the event is applied. *)
Theorem applyRemoteEvents_NoDup events prev :
  (forall new, applyRemoteEvent (INSERT new) prev = new :: prev)
  /\ (NoDup (ids prev) -> insertsFresh events prev = true ->
      NoDup (ids (applyRemoteEvents events prev))).
Proof.
  split; [reflexivity|].
  revert prev. induction events as [|e rest IH]; intros prev Hnd Hf; [exact Hnd|].
  rewrite insertsFresh_cons in Hf. apply andb_prop in Hf. destruct Hf as [H1 H2].
  unfold applyRemoteEvents. simpl fold_left.
  apply IH; [|exact H2]. now apply applyRemoteEvent_NoDup.
Qed.

(** Replaying a sequence of events gives the same collection. *)
Lemma applyRemoteEvents_app events1 events2 prev :
  applyRemoteEvents (events1 ++ events2) prev
  = applyRemoteEvents events2 (applyRemoteEvents events1 prev).
Proof. unfold applyRemoteEvents. apply fold_left_app. Qed.

(** An [UPDATE] or a [DELETE] for an id the collection does not hold
    changes nothing. *)
Lemma absent_id_noop prev new old_id :
  ~ In (Todos.id new) (ids prev) -> ~ In old_id (ids prev) ->
  applyRemoteEvent (UPDATE new) prev = prev
  /\ applyRemoteEvent (DELETE old_id) prev = prev.
Proof.
  intros Hn Ho. split; simpl.
  - rewrite <- (map_id prev) at 2. apply map_ext_in. intros t Ht.
    destruct (Todos.id t =? Todos.id new) eqn:E; [|reflexivity].
    apply Z.eqb_eq in E. exfalso. apply Hn. rewrite <- E. now apply in_map.
  - apply forallb_filter_id. apply forallb_forall. intros t Ht.
    apply negb_true_iff. apply Z.eqb_neq. intros E. apply Ho.
    rewrite <- E. now apply in_map.
Qed.

End SyncFacts.

(** ** The call log of a handler *)

Module AsyncFacts.
Import Supabase Async.

Create HintDb async.

Section WithWorld.
Context {DB U : Type}.

Local Abbreviation M := (M (DB := DB) (U := U)).
Local Abbreviation extends := (@Async.extends DB U _).
Local Abbreviation startsWith := (@Async.startsWith DB U _).
Local Abbreviation silent := (@Async.silent DB U _).

Lemma silent_extends {A} (c : M A) : silent c -> extends c.
Proof. intros Hc w. exists []. now rewrite app_nil_r. Qed.

Lemma silent_ret {A} (a : A) : silent (ret a).
Proof. intros w. reflexivity. Qed.

Lemma silent_throw {A} e : silent (throw (A := A) e).
Proof. intros w. reflexivity. Qed.

Lemma silent_modify f : silent (modify (DB := DB) (U := U) f).
Proof. intros w. reflexivity. Qed.

Lemma extends_await {R} q (run : DB -> R * DB) : extends (await q run).
Proof.
  intros w. exists [q]. unfold await. now destruct (run (db w)).
Qed.

Lemma extends_bind {A B} (c : M A) (k : A -> M B) :
  extends c -> (forall a, extends (k a)) -> extends (bind c k).
Proof.
  intros Hc Hk w. unfold bind. destruct (Hc w) as [r1 H1].
  destruct (c w) as [[a|e] w1]; simpl in *.
  - destruct (Hk a w1) as [r2 H2]. exists (r1 ++ r2)%list.
    now rewrite H2, H1, app_assoc.
  - now exists r1.
Qed.

Lemma extends_try_catch {A} (c : M A) h :
  extends c -> (forall e, extends (h e)) -> extends (try_catch c h).
Proof.
  intros Hc Hh w. unfold try_catch. destruct (Hc w) as [r1 H1].
  destruct (c w) as [[a|e] w1]; simpl in *.
  - now exists r1.
  - destruct (Hh e w1) as [r2 H2]. exists (r1 ++ r2)%list.
    now rewrite H2, H1, app_assoc.
Qed.

Lemma startsWith_await_bind {R B} q (run : DB -> R * DB) (k : R -> M B) :
  (forall a, extends (k a)) -> startsWith q (bind (await q run) k).
Proof.
  intros Hk w. unfold bind, await. destruct (run (db w)) as [a d].
  match goal with |- context [k a ?w1] => destruct (Hk a w1) as [r H] end.
  exists r. rewrite H. simpl. now rewrite <- app_assoc.
Qed.

Lemma startsWith_bind {A B} q (c : M A) (k : A -> M B) :
  startsWith q c -> (forall a, extends (k a)) -> startsWith q (bind c k).
Proof.
  intros Hc Hk w. unfold bind. destruct (Hc w) as [r1 H1].
  destruct (c w) as [[a|e] w1]; simpl in *.
  - destruct (Hk a w1) as [r2 H2]. exists (r1 ++ r2)%list.
    rewrite H2, H1, <- app_assoc. reflexivity.
  - now exists r1.
Qed.

Lemma startsWith_try_catch {A} q (c : M A) h :
  startsWith q c -> (forall e, extends (h e)) -> startsWith q (try_catch c h).
Proof.
  intros Hc Hh w. unfold try_catch. destruct (Hc w) as [r1 H1].
  destruct (c w) as [[a|e] w1]; simpl in *.
  - now exists r1.
  - destruct (Hh e w1) as [r2 H2]. exists (r1 ++ r2)%list.
    rewrite H2, H1, <- app_assoc. reflexivity.
Qed.

(** The two steps a proof about a handler takes: past a store call whose
    reply is known, and past a sequencing. *)
Lemma bind_await {R B} q (run : DB -> R * DB) (k : R -> M B) w a d :
  run (db w) = (a, d) ->
  bind (await q run) k w
  = k a {| db := d; log := (log w ++ [q])%list; ui := ui w |}.
Proof. intros E. unfold bind, await. now rewrite E. Qed.

Lemma bind_normal {A B} (c : M A) (k : A -> M B) w a w' :
  c w = (Normal a, w') -> bind c k w = k a w'.
Proof. intros E. unfold bind. now rewrite E. Qed.

Lemma bind_throw {A B} (c : M A) (k : A -> M B) w e w' :
  c w = (Throw e, w') -> bind c k w = (Throw e, w').
Proof. intros E. unfold bind. now rewrite E. Qed.

Lemma try_catch_normal {A} (c : M A) h w a w' :
  c w = (Normal a, w') -> try_catch c h w = (Normal a, w').
Proof. intros E. unfold try_catch. now rewrite E. Qed.

Lemma try_catch_throw {A} (c : M A) h w e w' :
  c w = (Throw e, w') -> try_catch c h w = h e w'.
Proof. intros E. unfold try_catch. now rewrite E. Qed.

End WithWorld.

#[export] Hint Resolve silent_extends silent_ret silent_throw silent_modify
  extends_await extends_bind extends_try_catch : async.

End AsyncFacts.

(** ** Creating and reassigning a task *)

Module AssignmentFacts.
Import JS Supabase Async NotificationUtils TodoList AsyncFacts.

Section WithClient.
Context {DB : Type} `{Client DB}.

(** What [notifyAssignee] does when the row it is given names an assignee
    other than the acting user. *)
Lemma notifyAssignee_dispatch user row assignee (w : World DB State) :
  Todos.assigned_to row = Some assignee ->
  assignee <> "" ->
  assignee <> Auth.id user ->
  notifyAssignee user (Some row) w
  = (Normal tt,
     {| db := snd (insert_notification (assignmentNotification user row assignee) (db w));
        log := (log w ++ [InsertNotification (assignmentNotification user row assignee)])%list;
        ui := ui w |}).
Proof.
  intros Ha He Hu. unfold notifyAssignee. rewrite Ha.
  assert (Ht : truthy (Some assignee) = true).
  { destruct assignee; [congruence|reflexivity]. }
  rewrite Ht. apply String.eqb_neq in Hu. rewrite Hu. simpl.
  unfold createTaskAssignmentNotification, bind, await, ret,
    assignmentNotification. simpl.
  destruct (insert_notification _ (db w)) as [e d]. reflexivity.
Qed.

(** What it does otherwise: nothing. *)
Lemma notifyAssignee_skip user result (w : World DB State) :
  (forall row, result = Some row ->
     truthy (Todos.assigned_to row) = false
     \/ Todos.assigned_to row = Some (Auth.id user)) ->
  notifyAssignee user result w = (Normal tt, w).
Proof.
  intros Hr. unfold notifyAssignee. destruct result as [row|]; [|reflexivity].
  destruct (Hr row eq_refl) as [Hf|Hs].
  - destruct (Todos.assigned_to row) as [a|]; [|reflexivity].
    rewrite Hf. reflexivity.
  - rewrite Hs. rewrite String.eqb_refl, andb_false_r. reflexivity.
Qed.

Lemma extends_notifyAssignee user result :
  extends (notifyAssignee (DB := DB) user result).
Proof.
  unfold notifyAssignee. destruct result as [row|]; auto with async.
  destruct (Todos.assigned_to row) as [a|]; auto with async.
  destruct (_ && _); auto with async.
  unfold createTaskAssignmentNotification. auto with async.
Qed.

(** *** [addTodo] *)

(** An input that is blank after trimming: [addTodo] returns at once. *)
Lemma addTodo_blank user r taskText (w : World DB State) :
  String.length (trim taskText) = 0%nat ->
  addTodo user r taskText w = (Normal tt, w).
Proof.
  intros Hl. unfold addTodo. rewrite Hl. reflexivity.
Qed.

(** Any other input reaches the store: the first call is the insert of
    [newTodo]. *)
Lemma addTodo_nonblank user r taskText :
  String.length (trim taskText) <> 0%nat ->
  startsWith (InsertTodo (newTodoOf user r (trim taskText)))
             (addTodo (DB := DB) user r taskText).
Proof.
  intros Hl. unfold addTodo.
  apply Nat.eqb_neq in Hl. rewrite Hl. cbn [negb].
  apply startsWith_try_catch; [|auto with async].
  apply startsWith_bind.
  - destruct (truthy (newTaskAssignedTo r)); apply startsWith_await_bind;
      intros res; destruct (error res) as [e|]; auto with async.
    destruct (includes (message e) fkMarker); auto with async.
    apply extends_bind; auto with async.
    intros fres. destruct (error fres); auto 6 with async.
  - intros res. apply extends_bind; auto with async.
    apply extends_notifyAssignee.
Qed.

(** The run of [addTodo] when the store refuses the assignee and accepts
    the task without it. *)
Lemma addTodo_fallback_run user r taskText (w : World DB State)
      dat e d1 fres d2 :
  let newTodo := newTodoOf user r (trim taskText) in
  String.length (trim taskText) <> 0%nat ->
  truthy (newTaskAssignedTo r) = true ->
  insert_todo newTodo (db w) = ({| data := dat; error := Some e |}, d1) ->
  includes (message e) fkMarker = true ->
  insert_todo (Todos.ins_without_assignee newTodo) d1 = (fres, d2) ->
  error fres = None ->
  (forall row, data fres = Some row -> Todos.assigned_to row = None) ->
  addTodo user r taskText w
  = (Normal tt,
     {| db := d2;
        log := (log w ++ [InsertTodo newTodo;
                          InsertTodo (Todos.ins_without_assignee newTodo)])%list;
        ui := reset_form (with_errorText fkWarning (ui w)) |}).
Proof.
  intros newTodo Hl Ht H1 Hfk H2 Herr Hrow. unfold addTodo.
  apply Nat.eqb_neq in Hl. rewrite Hl. cbn [negb].
  fold newTodo. rewrite Ht.
  apply try_catch_normal.
  erewrite bind_normal.
  2:{ erewrite bind_await by exact H1. cbn [error]. rewrite Hfk.
      erewrite bind_await by exact H2. rewrite Herr.
      unfold bind, modify, ret. simpl. reflexivity. }
  erewrite bind_normal.
  2:{ apply notifyAssignee_skip. intros row E. left.
      now rewrite (Hrow row E). }
  unfold modify. simpl. rewrite <- app_assoc. reflexivity.
Qed.

(** The run when the store refuses the second insert as well: there is no
    third one, and the error text is the message of the store. *)
Lemma addTodo_fallback_refused_run user r taskText (w : World DB State)
      dat e d1 fres d2 e' :
  let newTodo := newTodoOf user r (trim taskText) in
  String.length (trim taskText) <> 0%nat ->
  truthy (newTaskAssignedTo r) = true ->
  insert_todo newTodo (db w) = ({| data := dat; error := Some e |}, d1) ->
  includes (message e) fkMarker = true ->
  insert_todo (Todos.ins_without_assignee newTodo) d1 = (fres, d2) ->
  error fres = Some e' ->
  addTodo user r taskText w
  = (Normal tt,
     {| db := d2;
        log := (log w ++ [InsertTodo newTodo;
                          InsertTodo (Todos.ins_without_assignee newTodo)])%list;
        ui := with_errorText (message e') (ui w) |}).
Proof.
  intros newTodo Hl Ht H1 Hfk H2 Herr. unfold addTodo.
  apply Nat.eqb_neq in Hl. rewrite Hl. cbn [negb].
  fold newTodo. rewrite Ht.
  rewrite (try_catch_throw _ _ _ e'
             {| db := d2;
                log := ((log w ++ [InsertTodo newTodo])
                        ++ [InsertTodo (Todos.ins_without_assignee newTodo)])%list;
                ui := ui w |}).
  - unfold modify. simpl. rewrite <- app_assoc. reflexivity.
  - apply bind_throw.
    erewrite bind_await by exact H1. cbn [error]. rewrite Hfk.
    erewrite bind_await by exact H2. rewrite Herr. reflexivity.
Qed.

(** The run of [addTodo] when the store refuses the task for any other
    reason: the error text is the message of the store and the form keeps
    its content. *)
Lemma addTodo_other_failure_run user r taskText (w : World DB State) dat e d1 :
  let newTodo := newTodoOf user r (trim taskText) in
  String.length (trim taskText) <> 0%nat ->
  insert_todo newTodo (db w) = ({| data := dat; error := Some e |}, d1) ->
  includes (message e) fkMarker = false ->
  addTodo user r taskText w
  = (Normal tt,
     {| db := d1; log := (log w ++ [InsertTodo newTodo])%list;
        ui := with_errorText (message e) (ui w) |}).
Proof.
  intros newTodo Hl H1 Hfk. unfold addTodo.
  apply Nat.eqb_neq in Hl. rewrite Hl. cbn [negb]. fold newTodo.
  rewrite (try_catch_throw _ _ _ e
             {| db := d1; log := (log w ++ [InsertTodo newTodo])%list; ui := ui w |});
    [reflexivity|].
  apply bind_throw.
  destruct (truthy (newTaskAssignedTo r));
    erewrite bind_await by exact H1; cbn [error]; rewrite ?Hfk; reflexivity.
Qed.

(** C3 (amended). When the form names an assignee and the store refuses
    the insert with an error whose message holds the foreign-key marker,
    [addTodo] inserts a second time with the assignee absent, and never a
    third time; it completes normally, dispatches no notification, and
    leaves the store as the second insert left it. The reply to the second
    insert decides what the user sees: when the store accepts it, the task
    is the one that insert created, without assignee, the warning is shown
    and the form is reset; when the store refuses it, the message of the
    store is shown in place of the warning and the form keeps its content.
    (The store is taken to return the row as it was inserted.) *)
Theorem addTodo_foreign_key_fallback user r taskText (w : World DB State)
        dat e d1 fres d2 :
  let newTodo := newTodoOf user r (trim taskText) in
  let fallbackTodo := Todos.ins_without_assignee newTodo in
  let out := addTodo user r taskText w in
  String.length (trim taskText) <> 0%nat ->
  truthy (newTaskAssignedTo r) = true ->
  insert_todo newTodo (db w) = ({| data := dat; error := Some e |}, d1) ->
  includes (message e) fkMarker = true ->
  insert_todo fallbackTodo d1 = (fres, d2) ->
  (forall row, data fres = Some row ->
     Todos.assigned_to row = Todos.ins_assigned_to fallbackTodo) ->
  fst out = Normal tt
  /\ log (snd out) = (log w ++ [InsertTodo newTodo; InsertTodo fallbackTodo])%list
  /\ Todos.ins_assigned_to fallbackTodo = None
  /\ Todos.ins_task fallbackTodo = trim taskText
  /\ notificationsOf (log (snd out)) = notificationsOf (log w)
  /\ db (snd out) = d2
  /\ ui (snd out)
     = match error fres with
       | None => reset_form (with_errorText fkWarning (ui w))
       | Some e' => with_errorText (message e') (ui w)
       end.
Proof.
  intros newTodo fallbackTodo out Hl Ht H1 Hfk H2 Hrow.
  assert (Hn : forall l : list Request,
             notificationsOf (l ++ [InsertTodo newTodo; InsertTodo fallbackTodo])
             = notificationsOf l).
  { intros l. unfold notificationsOf. rewrite flat_map_app. simpl.
    apply app_nil_r. }
  subst out. destruct (error fres) as [e'|] eqn:Herr.
  - rewrite (addTodo_fallback_refused_run user r taskText w dat e d1 fres d2 e'
               Hl Ht H1 Hfk H2 Herr).
    cbn [fst snd log db ui]. repeat split. apply Hn.
  - rewrite (addTodo_fallback_run user r taskText w dat e d1 fres d2
               Hl Ht H1 Hfk H2 Herr Hrow).
    cbn [fst snd log db ui]. repeat split. apply Hn.
Qed.

(** C6 (amended). A description that is empty after trimming stops
    [addTodo] before any store call: no call is made and the state of the
    component is unchanged. Every other description, whatever its length,
    is sent to the store as the first call. *)
Theorem addTodo_validation user r taskText (w : World DB State) :
  (String.length (trim taskText) = 0%nat ->
   addTodo user r taskText w = (Normal tt, w))
  /\ (String.length (trim taskText) <> 0%nat ->
      exists rest,
        log (snd (addTodo user r taskText w))
        = (log w ++ InsertTodo (newTodoOf user r (trim taskText)) :: rest)%list).
Proof.
  split.
  - apply addTodo_blank.
  - intros Hl. now apply addTodo_nonblank.
Qed.

(** *** [updateTodoAssignment] *)

(** The run of [updateTodoAssignment] when the store accepts the update and
    returns the row [row]. *)
Lemma updateTodoAssignment_accepted_run user r todo assignedTo
      (w : World DB State) row d1 :
  update_todo_assigned_to (Todos.id todo) assignedTo (db w)
  = ({| data := Some row; error := None |}, d1) ->
  let w1 := {| db := d1;
               log := (log w ++ [UpdateTodoAssignedTo (Todos.id todo) assignedTo])%list;
               ui := ui w |} in
  let w2 := snd (notifyAssignee user (Some row) w1) in
  updateTodoAssignment user r todo assignedTo w
  = (Normal tt,
     {| db := db w2; log := log w2;
        ui := with_todos (fun _ =>
                map (fun t => if Todos.id t =? Todos.id todo
                              then Todos.with_assigned_to t assignedTo else t)
                    (todos r)) (ui w2) |}).
Proof.
  intros H1 w1 w2. unfold updateTodoAssignment.
  apply try_catch_normal.
  erewrite bind_await by exact H1. cbn [error data]. fold w1.
  assert (E : notifyAssignee user (Some row) w1 = (Normal tt, w2)).
  { subst w2. unfold notifyAssignee.
    destruct (Todos.assigned_to row) as [a|]; [|reflexivity].
    destruct (_ && _); [|reflexivity].
    unfold createTaskAssignmentNotification, bind, await, ret.
    destruct (insert_notification _ _). reflexivity. }
  erewrite bind_normal by exact E. reflexivity.
Qed.

(** The store refuses the new assignee: the warning is shown, the
    collection is unchanged and nothing is dispatched. *)
Lemma updateTodoAssignment_refused_run user r todo assignedTo
      (w : World DB State) dat e d1 :
  update_todo_assigned_to (Todos.id todo) assignedTo (db w)
  = ({| data := dat; error := Some e |}, d1) ->
  includes (message e) fkMarker = true ->
  updateTodoAssignment user r todo assignedTo w
  = (Normal tt,
     {| db := d1;
        log := (log w ++ [UpdateTodoAssignedTo (Todos.id todo) assignedTo])%list;
        ui := with_errorText fkWarning (ui w) |}).
Proof.
  intros H1 Hfk. unfold updateTodoAssignment.
  apply try_catch_normal.
  erewrite bind_await by exact H1. cbn [error]. rewrite Hfk. reflexivity.
Qed.

(** Reassigning to absent dispatches nothing. *)
Lemma updateTodoAssignment_cleared user r todo (w : World DB State) row d1 :
  update_todo_assigned_to (Todos.id todo) None (db w)
  = ({| data := Some row; error := None |}, d1) ->
  Todos.assigned_to row = None ->
  notificationsOf (log (snd (updateTodoAssignment user r todo None w)))
  = notificationsOf (log w).
Proof.
  intros H1 Hrow.
  rewrite (updateTodoAssignment_accepted_run user r todo None w row d1 H1).
  cbn [snd log].
  rewrite notifyAssignee_skip.
  - cbn [snd log]. unfold notificationsOf. rewrite flat_map_app. simpl.
    apply app_nil_r.
  - intros row' E. injection E as <-. left. now rewrite Hrow.
Qed.

(** Reassigning to a user other than the acting one dispatches exactly one
    notification, addressed to that user, whoever the task was assigned to
    before. *)
Lemma updateTodoAssignment_notifies user r todo assignee
      (w : World DB State) row d1 :
  update_todo_assigned_to (Todos.id todo) (Some assignee) (db w)
  = ({| data := Some row; error := None |}, d1) ->
  Todos.assigned_to row = Some assignee ->
  assignee <> "" ->
  assignee <> Auth.id user ->
  notificationsOf (log (snd (updateTodoAssignment user r todo (Some assignee) w)))
  = (notificationsOf (log w) ++ [assignmentNotification user row assignee])%list
  /\ Notifications.ins_user_id (assignmentNotification user row assignee) = assignee.
Proof.
  intros H1 Hrow He Hu. split; [|reflexivity].
  rewrite (updateTodoAssignment_accepted_run user r todo (Some assignee) w row d1 H1).
  cbn [snd log].
  rewrite (notifyAssignee_dispatch user row assignee _ Hrow He Hu).
  cbn [snd log]. unfold notificationsOf. rewrite !flat_map_app. simpl.
  now rewrite app_nil_r.
Qed.

End WithClient.

End AssignmentFacts.

(** ** The notification feed *)

Module FeedFacts.
Import Supabase Async Notification AsyncFacts.

Lemma unreadOf_cons n l :
  unreadOf (n :: l)
  = (if Notifications.is_read n then 0 else 1) + unreadOf l.
Proof.
  unfold unreadOf. simpl filter. destruct (Notifications.is_read n); cbn [negb].
  - lia.
  - cbn [List.length]. rewrite Nat2Z.inj_succ. lia.
Qed.

Lemma unreadOf_nonneg l : 0 <= unreadOf l.
Proof. unfold unreadOf. lia. Qed.

Lemma unreadOf_all_read l :
  unreadOf (map Notifications.with_read l) = 0.
Proof.
  induction l as [|n l IH]; [reflexivity|].
  simpl map. rewrite unreadOf_cons. simpl. exact IH.
Qed.

Lemma all_read_Forall l :
  Forall (fun n => Notifications.is_read n = true) (map Notifications.with_read l).
Proof.
  induction l as [|n l IH]; simpl; constructor; auto.
Qed.

Lemma unreadOf_mark id l :
  unreadOf (map (fun n => if Notifications.id n =? id
                          then Notifications.with_read n else n) l)
  = unreadOf l - unreadWithId id l.
Proof.
  unfold unreadWithId. induction l as [|n l IH]; [reflexivity|].
  simpl map. simpl filter. destruct (Notifications.id n =? id).
  - rewrite !unreadOf_cons. simpl Notifications.is_read. rewrite IH.
    destruct (Notifications.is_read n); lia.
  - rewrite !unreadOf_cons. rewrite IH. lia.
Qed.

(** *** The counter and the flags *)

(** A remote insert keeps them in agreement exactly when its row is unread. *)
Lemma onInsert_consistent_iff n s :
  consistent s ->
  (consistent (onInsert n s) <-> Notifications.is_read n = false).
Proof.
  unfold consistent, onInsert. simpl. intros Hs.
  rewrite unreadOf_cons, Hs. destruct (Notifications.is_read n); split;
    intros; try reflexivity; try discriminate; lia.
Qed.

Lemma onInsert_consistent n s :
  Notifications.is_read n = false ->
  consistent s -> consistent (onInsert n s).
Proof. intros Hn Hs. now apply onInsert_consistent_iff. Qed.

Lemma unreadWithId_le id l : 0 <= unreadWithId id l <= unreadOf l.
Proof.
  unfold unreadWithId. split; [apply unreadOf_nonneg|].
  induction l as [|n l IH]; simpl filter; [lia|].
  destruct (Notifications.id n =? id); rewrite ?unreadOf_cons;
    destruct (Notifications.is_read n); lia.
Qed.

Section WithClient.
Context {DB : Type} `{Client DB}.

(** The initial load puts them in agreement, or changes nothing. *)
Lemma fetchNotifications_consistent userId (w : World DB State) :
  consistent (ui w) ->
  consistent (ui (snd (fetchNotifications userId w))).
Proof.
  intros Hw. unfold fetchNotifications, bind, await, modify, ret.
  destruct (select_notifications userId (db w)) as [res d]. simpl.
  destruct (rows_error res); [exact Hw|].
  destruct (rows res); [|exact Hw]. reflexivity.
Qed.

(** [markAllAsRead] from the current render keeps them in agreement. *)
Lemma markAllAsRead_consistent userId (w : World DB State) :
  consistent (ui w) ->
  consistent (ui (snd (run userId MarkAllRead w))).
Proof.
  intros Hw. unfold run, handler, markAllAsRead, bind, await, modify, ret.
  destruct (mark_all_notifications_read userId (db w)) as [[e|] d]; simpl;
    [exact Hw|].
  unfold consistent. simpl. now rewrite unreadOf_all_read.
Qed.

(** [markAsRead] from the current render keeps them in agreement when
    exactly one unread entry of the view carries the id. *)
Lemma markAsRead_consistent userId id (w : World DB State) :
  unreadWithId id (notifications (ui w)) = 1 ->
  consistent (ui w) ->
  consistent (ui (snd (run userId (MarkRead id) w))).
Proof.
  intros H1 Hw. unfold run, handler, markAsRead, bind, await, modify, ret.
  destruct (mark_notification_read id (db w)) as [[e|] d]; simpl; [exact Hw|].
  unfold consistent in *. simpl. rewrite unreadOf_mark, H1, Hw.
  pose proof (unreadOf_mark id (notifications (ui w))) as Hm.
  pose proof (unreadOf_nonneg
                (map (fun n => if Notifications.id n =? id
                               then Notifications.with_read n else n)
                     (notifications (ui w)))) as Hp.
  lia.
Qed.

(** When the store accepts the update, [markAsRead] keeps them in agreement
    in those cases only: exactly one unread entry carries the id, or
    nothing was unread. *)
Lemma markAsRead_consistent_iff userId id (w : World DB State) :
  fst (mark_notification_read id (db w)) = None ->
  consistent (ui w) ->
  (consistent (ui (snd (run userId (MarkRead id) w)))
   <-> unreadWithId id (notifications (ui w)) = 1
       \/ unreadOf (notifications (ui w)) = 0).
Proof.
  intros Hok Hw. unfold run, handler, markAsRead, bind, await, modify, ret.
  destruct (mark_notification_read id (db w)) as [[e|] d]; simpl in *;
    [discriminate|].
  unfold consistent in *. simpl. rewrite unreadOf_mark, Hw.
  pose proof (unreadWithId_le id (notifications (ui w))) as Hk.
  lia.
Qed.

(** C5. [markAllAsRead] is all or nothing, from the current render and
    from an older one alike: when the store accepts the update the counter
    is 0 and the view is the rendered one with every flag set to read;
    when the store fails, the view, its flags and the counter are left as
    they were. *)
Theorem markAllAsRead_atomic userId (r : State) (w : World DB State) :
  let s' := ui (snd (markAllAsRead userId r w)) in
  match fst (mark_all_notifications_read userId (db w)) with
  | None =>
      unreadCount s' = 0
      /\ notifications s' = map Notifications.with_read (notifications r)
      /\ Forall (fun n => Notifications.is_read n = true) (notifications s')
      /\ unreadOf (notifications s') = 0
  | Some _ => s' = ui w
  end.
Proof.
  unfold markAllAsRead, bind, await, modify, ret.
  destruct (mark_all_notifications_read userId (db w)) as [[e|] d]; simpl.
  - reflexivity.
  - repeat split.
    + apply all_read_Forall.
    + apply unreadOf_all_read.
Qed.

(** *** The shape of the view *)

Lemma runAll_app userId ops1 ops2 (w : World DB State) :
  runAll userId (ops1 ++ ops2) w = runAll userId ops2 (runAll userId ops1 w).
Proof.
  revert w. induction ops1 as [|op ops1 IH]; intros w; simpl; auto.
Qed.

(** Remote inserts pile up in front of the view, the latest first. *)
Lemma runAll_inserts userId events (w : World DB State) :
  notifications (ui (runAll userId (map RemoteInsert events) w))
  = (rev events ++ notifications (ui w))%list.
Proof.
  revert w. induction events as [|n events IH]; intros w; [reflexivity|].
  simpl map. simpl runAll. rewrite IH. simpl.
  now rewrite <- app_assoc.
Qed.

End WithClient.

Lemma descending_arrivals events view :
  arriveInOrder events view = true ->
  descending view -> descending (rev events ++ view).
Proof.
  revert view. induction events as [|n events IH]; intros view Ha Hv; [exact Hv|].
  simpl in Ha. apply andb_prop in Ha. destruct Ha as [Hn Hrest].
  simpl rev. rewrite <- app_assoc. simpl app. apply IH; [exact Hrest|].
  constructor; [exact Hv|].
  destruct view as [|m view]; constructor. now apply Z.leb_le.
Qed.

Section ViewWithClient.
Context {DB : Type} `{Client DB}.

(** C7 (amended). After the initial load the view is the list the store
    returned for the query. Every INSERT event then puts its row in front
    and removes nothing: after a load of m rows and k events the view has
    m + k rows. It is descending by creation time when the loaded list is
    and each row was, on arrival, at least as recent as the head of the
    view. *)
Theorem view_after_load_and_inserts userId (w : World DB State) data d events :
  select_notifications userId (db w)
  = ({| rows := Some data; rows_error := None |}, d) ->
  let loaded := notifications (ui (runAll userId [Load] w)) in
  let view := notifications (ui (runAll userId (Load :: map RemoteInsert events) w)) in
  loaded = data
  /\ view = (rev events ++ loaded)%list
  /\ List.length view = (List.length loaded + List.length events)%nat
  /\ (descending loaded -> arriveInOrder events loaded = true -> descending view).
Proof.
  intros Hsel loaded view.
  assert (El : loaded = data).
  { subst loaded. simpl runAll.
    unfold run, fetchNotifications, bind, await, modify, ret.
    rewrite Hsel. reflexivity. }
  assert (E : view = (rev events ++ loaded)%list).
  { subst view loaded. simpl runAll. now rewrite runAll_inserts. }
  split; [exact El|]. split; [exact E|]. split.
  - rewrite E, length_app, length_rev. lia.
  - intros Hd Ha. rewrite E. now apply descending_arrivals.
Qed.

End ViewWithClient.

End FeedFacts.

(** ** The reference store honours the query of the feed *)

Module RefStoreFacts.
Import Supabase Notification.

Lemma HdRel_insertDesc m n l :
  HdRel (fun a b => Notifications.created_at b <= Notifications.created_at a) m l ->
  Notifications.created_at n <= Notifications.created_at m ->
  HdRel (fun a b => Notifications.created_at b <= Notifications.created_at a)
        m (RefStore.insertDesc n l).
Proof.
  intros Hm Hn. destruct l as [|x l]; simpl.
  - now constructor.
  - destruct (Notifications.created_at x <=? Notifications.created_at n);
      constructor; [assumption|]. now inversion Hm.
Qed.

Lemma insertDesc_descending n l :
  descending l -> descending (RefStore.insertDesc n l).
Proof.
  unfold descending. induction l as [|m l IH]; intros Hl; simpl.
  - repeat constructor.
  - destruct (Notifications.created_at m <=? Notifications.created_at n) eqn:E.
    + constructor; [assumption|]. constructor. now apply Z.leb_le.
    + inversion Hl as [|? ? Hs Hh]; subst. constructor; [now apply IH|].
      apply HdRel_insertDesc; [assumption|]. apply Z.leb_gt in E. lia.
Qed.

Lemma orderDesc_descending l : descending (RefStore.orderDesc l).
Proof.
  induction l as [|n l IH]; simpl.
  - constructor.
  - now apply insertDesc_descending.
Qed.

Lemma firstn_descending k l : descending l -> descending (firstn k l).
Proof.
  unfold descending. revert l. induction k as [|k IH]; intros l Hl; simpl.
  - constructor.
  - destruct l as [|m l]; [constructor|].
    inversion Hl as [|? ? Hs Hh]; subst. constructor; [now apply IH|].
    destruct l as [|x l]; [destruct k; constructor|].
    destruct k; simpl; constructor. now inversion Hh.
Qed.

Lemma In_insertDesc x n l :
  In x (RefStore.insertDesc n l) -> x = n \/ In x l.
Proof.
  induction l as [|m l IH]; simpl.
  - intros [<-|[]]. now left.
  - destruct (_ <=? _); simpl.
    + intros [<-|H]; auto.
    + intros [<-|H]; auto. destruct (IH H); auto.
Qed.

Lemma In_orderDesc x l : In x (RefStore.orderDesc l) -> In x l.
Proof.
  induction l as [|n l IH]; simpl; [auto|].
  intros H. apply In_insertDesc in H. destruct H as [->|H]; auto.
Qed.

Lemma In_firstn {A} (x : A) k l : In x (firstn k l) -> In x l.
Proof.
  revert l. induction k as [|k IH]; intros [|a l]; simpl; try tauto.
  intros [->|Hx]; auto.
Qed.

(** What the reference store returns for the query of [fetchNotifications]:
    rows of the recipient, descending by creation time, at most 20. *)
Lemma select_notifications_contract u d data d' :
  RefStore.select_notifications u d
  = ({| rows := Some data; rows_error := None |}, d') ->
  descending data
  /\ (List.length data <= 20)%nat
  /\ Forall (fun n => Notifications.user_id n = u) data
  /\ d' = d.
Proof.
  unfold RefStore.select_notifications.
  destruct (negb (RefStore.online d)); [discriminate|].
  set (l := firstn 20 _). intros E.
  assert (El : data = l) by congruence.
  assert (Ed : d' = d) by congruence.
  subst data d' l. repeat split.
  - apply firstn_descending, orderDesc_descending.
  - apply firstn_le_length.
  - apply Forall_forall. intros n Hn. apply In_firstn in Hn.
    apply In_orderDesc in Hn. apply filter_In in Hn.
    now apply String.eqb_eq.
Qed.

End RefStoreFacts.

(* ===================================================================== *)
(** * Scenarios                                                          *)
(* ===================================================================== *)

Module Scenarios.
Import JS Supabase Async Examples.

#[local] Existing Instance RefStore.runtime.
#[local] Existing Instance RefStore.client.
#[local] Existing Instance FlakyStore.client.

(** *** The filter engine *)

(** The scenario of the specification: a task due on 2024-01-01, seen on
    2024-01-02, is overdue unless it is complete. *)
Example overdue_scenario :
  Filter.filterTodos (Some RefStore.alice)
    [taskDue 1 (Some "2024-01-01") (Some false)] overdue noon_2024_01_02
  = [taskDue 1 (Some "2024-01-01") (Some false)]
  /\ Filter.filterTodos (Some RefStore.alice)
       [taskDue 1 (Some "2024-01-01") (Some true)] overdue noon_2024_01_02
     = [].
Proof. split; reflexivity. Qed.

Example filters_on_dated :
  map Todos.id (Filter.filterTodos (Some RefStore.alice) dated overdue noon_2024_01_02) = [1]
  /\ map Todos.id (Filter.filterTodos (Some RefStore.alice) dated dueToday noon_2024_01_02) = [2].
Proof. split; reflexivity. Qed.

(** The task due on 2024-01-02 is due today and is not overdue. *)
Lemma dueToday_overdue_disjoint_witness :
  In (taskDue 2 (Some "2024-01-02") (Some false))
     (Filter.filterTodos (Some RefStore.alice) dated dueToday noon_2024_01_02)
  /\ ~ In (taskDue 2 (Some "2024-01-02") (Some false))
          (Filter.filterTodos (Some RefStore.alice) dated overdue noon_2024_01_02).
Proof.
  assert (Hin : In (taskDue 2 (Some "2024-01-02") (Some false))
                   (Filter.filterTodos (Some RefStore.alice) dated dueToday
                                       noon_2024_01_02)).
  { vm_compute. left. reflexivity. }
  split; [exact Hin|].
  exact (FilterFacts.dueToday_overdue_disjoint
           (Some RefStore.alice) dated noon_2024_01_02 _ Hin).
Defined.

(** The undated task and the completed one are not overdue. *)
Lemma overdue_excludes_witness :
  Todos.due_date (taskDue 4 None (Some false)) = None
  /\ Todos.is_complete (taskDue 3 (Some "2024-01-01") (Some true)) = Some true
  /\ ~ In (taskDue 4 None (Some false))
          (Filter.filterTodos (Some RefStore.alice) dated overdue noon_2024_01_02)
  /\ ~ In (taskDue 3 (Some "2024-01-01") (Some true))
          (Filter.filterTodos (Some RefStore.alice) dated overdue noon_2024_01_02).
Proof.
  split; [reflexivity|]. split; [reflexivity|]. split.
  - apply (FilterFacts.overdue_excludes_undated_and_completed
             (Some RefStore.alice) dated noon_2024_01_02
             (taskDue 4 None (Some false))).
    left. reflexivity.
  - apply (FilterFacts.overdue_excludes_undated_and_completed
             (Some RefStore.alice) dated noon_2024_01_02
             (taskDue 3 (Some "2024-01-01") (Some true))).
    right. reflexivity.
Defined.

(** *** The runtime *)

Example trim_examples :
  trim "  Buy milk " = "Buy milk"
  /\ trim (String (ascii_of_nat 9) (String (ascii_of_nat 10) " ")) = ""
  /\ trim "a b" = "a b".
Proof. repeat split. Qed.

Example includes_examples :
  includes (message (RefStore.fkViolation "todos_assigned_to_fkey"))
           TodoList.fkMarker = true
  /\ includes "TypeError: Failed to fetch" TodoList.fkMarker = false
  /\ includes "abc" "" = true.
Proof. repeat split. Qed.

(** Midnight of the local day (UTC+05:30) that holds noon UTC of
    2024-01-02 is 18:30 UTC of 2024-01-01. *)
Example today_example :
  Filter.today noon_2024_01_02 = Some 1704133800000
  /\ setHours (Date_of_string "2024-01-02") 0 0 0 0 = Some 1704133800000
  /\ setHours (Date_of_string "someday") 0 0 0 0 = None.
Proof. repeat split. Qed.

(** *** The user selector *)

Example selector_scenario :
  let u i := {| UserSelector.id := i; UserSelector.email := i ++ "@example.com";
                UserSelector.name := None |} in
  map UserSelector.id
      (UserSelector.users
         (UserSelector.runEffects
            [ ("alice", UserSelector.Response true (Some [u "alice"; u "bob"; u "carol"])) ]))
  = ["bob"; "carol"]
  /\ UserSelector.users
       (UserSelector.runEffects [ ("alice", UserSelector.NetworkError) ]) = []
  /\ UserSelector.users
       (UserSelector.runEffects [ ("alice", UserSelector.Response false None) ]) = [].
Proof. repeat split. Qed.

(** C10 (the code departs from the claim). The selector is mounted for
    alice and lists bob and carol; then the signed-in user becomes bob and
    the fetch that the change starts fails.  The [catch] leaves the list
    that was filtered for alice, the [finally] clears [loading], and the
    enabled selector offers bob, the current user, whose choice is passed
    to [onSelect]. *)
Theorem stale_candidates_offer_current_user :
  let u i := {| UserSelector.id := i; UserSelector.email := i ++ "@example.com";
                UserSelector.name := None |} in
  let currentUserId := "bob" in
  let s := UserSelector.runEffects
             [ ("alice", UserSelector.Response true (Some [u "alice"; u "bob"; u "carol"]));
               (currentUserId, UserSelector.NetworkError) ] in
  map UserSelector.id (UserSelector.users s) = ["bob"; "carol"]
  /\ In currentUserId (map UserSelector.id (UserSelector.users s))
  /\ UserSelectorView.disabled s = false
  /\ In currentUserId (UserSelectorView.optionValues s)
  /\ UserSelectorView.onChange currentUserId = Some currentUserId.
Proof.
  cbv zeta. split; [reflexivity|]. split; [left; reflexivity|].
  split; [reflexivity|]. split; [right; left; reflexivity|reflexivity].
Qed.

(** *** The task collection *)

(** C1 (as stated, refuted). An [INSERT] whose id the collection already
    holds does not replace the entry: the collection then lists the id
    twice. *)
Lemma insert_of_present_id_duplicates :
  In 100 (TodoList.ids [RefStore.task100])
  /\ TodoList.applyRemoteEvent (TodoList.INSERT RefStore.task100) [RefStore.task100]
     = [RefStore.task100; RefStore.task100]
  /\ TodoList.ids (TodoList.applyRemoteEvent (TodoList.INSERT RefStore.task100)
                                             [RefStore.task100])
     = [100; 100]
  /\ ~ NoDup (TodoList.ids (TodoList.applyRemoteEvent
                              (TodoList.INSERT RefStore.task100) [RefStore.task100])).
Proof.
  split; [left; reflexivity|]. split; [reflexivity|]. split; [reflexivity|].
  simpl. intros Hnd. inversion Hnd as [|x l Hx _]. apply Hx. left. reflexivity.
Qed.

(** A sequence whose inserts are fresh: the ids stay distinct. *)
Lemma applyRemoteEvents_NoDup_witness :
  NoDup (TodoList.ids (TodoList.applyRemoteEvents
           [ TodoList.INSERT (taskDue 1 None None);
             TodoList.UPDATE (taskDue 100 None (Some true));
             TodoList.DELETE 100;
             TodoList.INSERT RefStore.task100 ]
           [RefStore.task100])).
Proof.
  apply (proj2 (SyncFacts.applyRemoteEvents_NoDup _ _)).
  - simpl. constructor; [intros []|constructor].
  - reflexivity.
Defined.

(** *** Creating a task *)

(** C3 (as stated, refuted). ["Buy milk"] for an assignee the store does
    not know, over a connection that is lost after the first call: the
    store refuses the insert with a foreign-key violation, the second
    insert, without assignee, fails, and [addTodo] ends with no task in the
    store and the message of the failure shown in place of the warning. *)
Lemma retry_refused_creates_no_task :
  let newTodo := TodoList.newTodoOf RefStore.alice ghostForm (trim "Buy milk") in
  let first := insert_todo newTodo (db ghostWorldOneCall) in
  let out := TodoList.addTodo RefStore.alice ghostForm "Buy milk" ghostWorldOneCall in
  Todos.ins_assigned_to newTodo = Some "ghost-user"
  /\ RefStore.known (FlakyStore.store (db ghostWorldOneCall)) "ghost-user" = false
  /\ error (fst first) = Some (RefStore.fkViolation "todos_assigned_to_fkey")
  /\ includes (message (RefStore.fkViolation "todos_assigned_to_fkey"))
              TodoList.fkMarker = true
  /\ fst out = Normal tt
  /\ map Todos.ins_assigned_to (TodoList.todoInsertsOf (log (snd out)))
     = [Some "ghost-user"; None]
  /\ RefStore.todos (FlakyStore.store (db (snd out))) = []
  /\ TodoList.errorText (ui (snd out)) = "TypeError: Failed to fetch"
  /\ TodoList.errorText (ui (snd out)) <> TodoList.fkWarning
  /\ TodoList.newTaskText (ui (snd out)) = "Buy milk".
Proof.
  cbv zeta. repeat split. discriminate.
Qed.

(** The scenario of the specification: ["Buy milk"] for an assignee the
    store does not know, on a store that stays in reach. *)
Lemma addTodo_foreign_key_fallback_witness :
  let out := TodoList.addTodo RefStore.alice ghostForm "Buy milk" ghostWorld in
  fst out = Normal tt
  /\ map Todos.ins_assigned_to (TodoList.todoInsertsOf (log (snd out)))
     = [Some "ghost-user"; None]
  /\ List.length (log (snd out)) = 2%nat
  /\ map Todos.assigned_to (RefStore.todos (db (snd out))) = [None]
  /\ map Todos.task (RefStore.todos (db (snd out))) = [Some "Buy milk"]
  /\ TodoList.errorText (ui (snd out)) = TodoList.fkWarning
  /\ TodoList.newTaskText (ui (snd out)) = ""
  /\ TodoList.notificationsOf (log (snd out)) = [].
Proof.
  intros out.
  set (newTodo := TodoList.newTodoOf RefStore.alice ghostForm (trim "Buy milk")).
  set (reply := RefStore.insert_todo (Todos.ins_without_assignee newTodo)
                                     (RefStore.empty true)).
  destruct (AssignmentFacts.addTodo_foreign_key_fallback
              RefStore.alice ghostForm "Buy milk" ghostWorld
              None (RefStore.fkViolation "todos_assigned_to_fkey")
              (RefStore.empty true) (fst reply) (snd reply))
    as (Hc & Hlog & _ & _ & Hn & Hdb & Hui).
  - discriminate.
  - reflexivity.
  - reflexivity.
  - reflexivity.
  - reflexivity.
  - intros row E. injection E as <-. reflexivity.
  - fold out in Hc, Hlog, Hn, Hdb, Hui.
    split; [exact Hc|]. split; [rewrite Hlog; reflexivity|].
    split; [rewrite Hlog; reflexivity|].
    split; [rewrite Hdb; reflexivity|].
    split; [rewrite Hdb; reflexivity|].
    split; [rewrite Hui; reflexivity|].
    split; [rewrite Hui; reflexivity|exact Hn].
Defined.

(** A known assignee is notified once; assigning to oneself notifies
    nobody. *)
Example addTodo_known_assignee :
  let run a :=
    snd (TodoList.addTodo RefStore.alice
           {| TodoList.todos := []; TodoList.filteredTodos := [];
              TodoList.newTaskText := "Buy milk";
              TodoList.newTaskAssignedTo := Some a;
              TodoList.newTaskDueDate := None;
              TodoList.currentFilter := all; TodoList.errorText := "";
              TodoList.loading := false |}
           "Buy milk" ghostWorld) in
  map Notifications.ins_user_id (TodoList.notificationsOf (log (run "bob"))) = ["bob"]
  /\ map Notifications.ins_message (TodoList.notificationsOf (log (run "bob")))
     = [NotificationUtils.assignmentMessage "alice@example.com" "Buy milk"]
  /\ TodoList.notificationsOf (log (run "alice")) = []
  /\ List.length (TodoList.todoInsertsOf (log (run "bob"))) = 1%nat.
Proof. repeat split. Qed.

(** C6 (as stated, refuted). A description of three characters is not
    rejected before the remote call: the insert is sent to the store. *)
Lemma short_description_reaches_store :
  String.length (trim "abc") = 3%nat
  /\ log (snd (TodoList.addTodo RefStore.alice TodoList.initial "abc"
                 {| db := RefStore.empty true; log := []; ui := TodoList.initial |}))
     = [InsertTodo {| Todos.ins_task := "abc"; Todos.ins_user_id := "alice";
                      Todos.ins_assigned_to := None; Todos.ins_due_date := None;
                      Todos.ins_created_by := "alice" |}].
Proof. split; reflexivity. Qed.

(** A blank input makes no call; a padded one is sent trimmed. *)
Lemma addTodo_validation_witness :
  String.length (trim "   ") = 0%nat
  /\ TodoList.addTodo RefStore.alice ghostForm "   " ghostWorld = (Normal tt, ghostWorld)
  /\ String.length (trim " Buy milk ") <> 0%nat
  /\ exists rest,
       log (snd (TodoList.addTodo RefStore.alice ghostForm " Buy milk " ghostWorld))
       = (log ghostWorld
          ++ InsertTodo (TodoList.newTodoOf RefStore.alice ghostForm "Buy milk") :: rest)%list.
Proof.
  destruct (AssignmentFacts.addTodo_validation
              RefStore.alice ghostForm "   " ghostWorld) as [Hblank _].
  destruct (AssignmentFacts.addTodo_validation
              RefStore.alice ghostForm " Buy milk " ghostWorld) as [_ Hsent].
  split; [reflexivity|]. split; [apply Hblank; reflexivity|].
  split; [discriminate|]. apply Hsent. discriminate.
Defined.

(** *** Reassigning a task *)

(** C2 (the code departs from it). Alice reassigns the task 100 to bob, who
    is its assignee already: a notification addressed to bob is dispatched. *)
Theorem reassign_to_current_assignee_notifies :
  Todos.assigned_to RefStore.task100 = Some "bob"
  /\ TodoList.notificationsOf
       (log (snd (TodoList.updateTodoAssignment
                    RefStore.alice aliceList RefStore.task100 (Some "bob") aliceWorld)))
     = [TodoList.assignmentNotification RefStore.alice RefStore.task100 "bob"]
  /\ Notifications.ins_user_id
       (TodoList.assignmentNotification RefStore.alice RefStore.task100 "bob")
     = "bob".
Proof. repeat split. Qed.

(** Clearing the assignee, and assigning the task to oneself, dispatch
    nothing. *)
Example reassign_to_absent_or_self_is_silent :
  TodoList.notificationsOf
    (log (snd (TodoList.updateTodoAssignment
                 RefStore.alice aliceList RefStore.task100 None aliceWorld)))
  = []
  /\ TodoList.notificationsOf
       (log (snd (TodoList.updateTodoAssignment
                    RefStore.alice aliceList RefStore.task100 (Some "alice") aliceWorld)))
     = [].
Proof. split; reflexivity. Qed.

(** *** The notification feed *)

(** C4 (the code departs from it). Bob's feed loads the notification 1,
    the change feed delivers its INSERT once more, and bob marks it as
    read: both entries are read and the counter still says 1. *)
Theorem counter_diverges_from_flags :
  let s := ui (Notification.runAll "bob"
                 [ Notification.Load;
                   Notification.RemoteInsert (RefStore.notificationNo 1);
                   Notification.MarkRead 1 ]
                 (bobFeed 1)) in
  map Notifications.is_read (Notification.notifications s) = [true; true]
  /\ Notification.unreadOf (Notification.notifications s) = 0
  /\ Notification.unreadCount s = 1.
Proof. repeat split. Qed.

(** The same happens when [markAsRead] runs twice from one render (a
    second click before the component has rendered again): one flag is
    flipped and the counter loses two. *)
Example markAsRead_twice_from_one_render :
  let r := ui bobFeedOffline in
  let w := {| db := RefStore.seeded 2; log := []; ui := r |} in
  let s := ui (snd (bind (Notification.markAsRead r 1)
                         (fun _ => Notification.markAsRead r 1) w)) in
  map Notifications.is_read (Notification.notifications s) = [false; true]
  /\ Notification.unreadOf (Notification.notifications s) = 1
  /\ Notification.unreadCount s = 0.
Proof. repeat split. Qed.

(** And when an INSERT event arrives while [markAsRead] waits for the
    store: the handler resumes with the list of its render, the new row
    leaves the view and the counter keeps counting it. *)
Example insert_during_markAsRead :
  let rendered := ui (Notification.runAll "bob" [Notification.Load] (bobFeed 1)) in
  let w := Notification.runAll "bob"
             [Notification.Load;
              Notification.RemoteInsert (RefStore.notificationNo 2)] (bobFeed 1) in
  let s := ui (snd (Notification.markAsRead rendered 1 w)) in
  map Notifications.id (Notification.notifications s) = [1]
  /\ Notification.unreadOf (Notification.notifications s) = 0
  /\ Notification.unreadCount s = 1.
Proof. repeat split. Qed.

(** [markAllAsRead] on a store that answers, and on one that does not. *)
Example markAllAsRead_both_ways :
  let s := ui (Notification.runAll "bob"
                 [Notification.Load; Notification.MarkAllRead] (bobFeed 3)) in
  (map Notifications.is_read (Notification.notifications s) = [true; true; true]
   /\ Notification.unreadCount s = 0)
  /\ ui (snd (Notification.run "bob" Notification.MarkAllRead bobFeedOffline))
     = ui bobFeedOffline.
Proof. repeat split. Qed.

(** C7 (as stated, refuted). The store holds 25 notifications: the load
    keeps the 20 most recent, and one INSERT event later the view has 21. *)
Lemma view_exceeds_twenty :
  List.length (Notification.notifications
                 (ui (Notification.runAll "bob" [Notification.Load] (bobFeed 25))))
  = 20%nat
  /\ List.length (Notification.notifications
                    (ui (Notification.runAll "bob"
                           [ Notification.Load;
                             Notification.RemoteInsert (RefStore.notificationNo 26) ]
                           (bobFeed 25))))
     = 21%nat.
Proof. split; vm_compute; reflexivity. Qed.

(** Three rows loaded, two events in order: five rows, still descending. *)
Lemma view_after_load_and_inserts_witness :
  let events := [RefStore.notificationNo 4; RefStore.notificationNo 5] in
  let data := [RefStore.notificationNo 3; RefStore.notificationNo 2;
               RefStore.notificationNo 1] in
  let view := Notification.notifications
                (ui (Notification.runAll "bob"
                       (Notification.Load :: map Notification.RemoteInsert events)
                       (bobFeed 3))) in
  view = (rev events ++ data)%list
  /\ List.length view = 5%nat
  /\ Notification.descending view.
Proof.
  intros events data view.
  assert (Hsel : select_notifications "bob" (db (bobFeed 3))
                 = ({| rows := Some data; rows_error := None |}, RefStore.seeded 3))
    by reflexivity.
  destruct (FeedFacts.view_after_load_and_inserts
              "bob" (bobFeed 3) data (RefStore.seeded 3) events Hsel)
    as (Hl & Hv & Hn & Hd).
  split; [rewrite <- Hl; exact Hv|]. split; [exact Hn|].
  apply Hd; [|reflexivity].
  rewrite Hl. repeat constructor; simpl; lia.
Defined.

End Scenarios.

(* ===================================================================== *)
(** * Further properties of the code                                     *)
(* ===================================================================== *)

(** ** The change feed, event by event *)

Module EventFacts.
Import TodoList Events.

Lemma filter_all {A} (f : A -> bool) (l : list A) :
  (forall x, In x l -> f x = true) -> filter f l = l.
Proof.
  induction l as [|a l IH]; intros Hf; simpl; [reflexivity|].
  rewrite (Hf a (or_introl eq_refl)). f_equal. apply IH.
  intros x Hx. apply Hf. now right.
Qed.

Lemma filter_map_comm {A} (f : A -> bool) (g : A -> A) (l : list A) :
  (forall x, f (g x) = f x) -> filter f (map g l) = map g (filter f l).
Proof.
  intros Hfg. induction l as [|a l IH]; simpl; [reflexivity|].
  rewrite Hfg. destruct (f a); simpl; now rewrite IH.
Qed.

Lemma filter_comm {A} (f g : A -> bool) (l : list A) :
  filter f (filter g l) = filter g (filter f l).
Proof.
  induction l as [|a l IH]; simpl; [reflexivity|].
  destruct (f a) eqn:Ef, (g a) eqn:Eg; simpl; rewrite ?Ef, ?Eg, IH; reflexivity.
Qed.

(** X1. Inserting a row whose id the collection does not hold and then
    deleting that id gives back the collection as it was. *)
Theorem delete_undoes_fresh_insert new prev :
  ~ In (Todos.id new) (ids prev) ->
  applyRemoteEvent (DELETE (Todos.id new)) (applyRemoteEvent (INSERT new) prev)
  = prev.
Proof.
  intros Hn. simpl. rewrite Z.eqb_refl. simpl.
  apply filter_all. intros t Ht. apply negb_true_iff, Z.eqb_neq.
  intros E. apply Hn. rewrite <- E. unfold ids. now apply in_map.
Qed.

(** X2. Of two [UPDATE]s for the same id the later one wins: the collection
    is the one the later event alone would give. *)
Theorem update_last_write_wins n1 n2 prev :
  Todos.id n1 = Todos.id n2 ->
  applyRemoteEvent (UPDATE n2) (applyRemoteEvent (UPDATE n1) prev)
  = applyRemoteEvent (UPDATE n2) prev.
Proof.
  intros E. simpl. rewrite map_map. apply map_ext. intros t.
  rewrite E. destruct (Todos.id t =? Todos.id n2) eqn:Et.
  - now rewrite E, Z.eqb_refl.
  - now rewrite Et.
Qed.

(** X3. Two events about different ids can be applied in either order,
    unless both are [INSERT]s (whose order is the order of the list). *)
Theorem events_on_different_ids_commute e1 e2 prev :
  eventId e1 <> eventId e2 ->
  isInsert e1 && isInsert e2 = false ->
  applyRemoteEvent e1 (applyRemoteEvent e2 prev)
  = applyRemoteEvent e2 (applyRemoteEvent e1 prev).
Proof.
  intros Hne Hins.
  assert (Hupd : forall a b l,
             Todos.id a <> Todos.id b ->
             map (fun t => if Todos.id t =? Todos.id a then a else t)
                 (map (fun t => if Todos.id t =? Todos.id b then b else t) l)
             = map (fun t => if Todos.id t =? Todos.id b then b else t)
                   (map (fun t => if Todos.id t =? Todos.id a then a else t) l)).
  { intros a b l Hab. rewrite !map_map. apply map_ext. intros t.
    assert (Hab1 : (Todos.id a =? Todos.id b) = false) by now apply Z.eqb_neq.
    assert (Hab2 : (Todos.id b =? Todos.id a) = false)
      by (apply Z.eqb_neq; congruence).
    destruct (Todos.id t =? Todos.id a) eqn:Ea, (Todos.id t =? Todos.id b) eqn:Eb;
      rewrite ?Ea, ?Eb, ?Hab1, ?Hab2; try reflexivity.
    apply Z.eqb_eq in Ea, Eb. congruence. }
  assert (Hud : forall a d l,
             Todos.id a <> d ->
             filter (fun t => negb (Todos.id t =? d))
                    (map (fun t => if Todos.id t =? Todos.id a then a else t) l)
             = map (fun t => if Todos.id t =? Todos.id a then a else t)
                   (filter (fun t => negb (Todos.id t =? d)) l)).
  { intros a d l Had. apply filter_map_comm. intros t.
    destruct (Todos.id t =? Todos.id a) eqn:Ea; [|reflexivity].
    apply Z.eqb_eq in Ea. now rewrite Ea. }
  destruct e1 as [n1|n1|d1], e2 as [n2|n2|d2]; simpl in *; try discriminate.
  - apply Z.eqb_neq in Hne. now rewrite Hne.
  - apply Z.eqb_neq in Hne. now rewrite Hne.
  - assert (H' : Todos.id n2 <> Todos.id n1) by congruence.
    apply Z.eqb_neq in H'. now rewrite H'.
  - now apply Hupd.
  - symmetry. apply Hud. congruence.
  - assert (H' : Todos.id n2 <> d1) by congruence.
    apply Z.eqb_neq in H'. now rewrite H'.
  - now apply Hud.
  - apply filter_comm.
Qed.

(** X4. An [UPDATE] replaces in place: the ids of the collection, and so its
    length and order, are unchanged; afterwards every entry that carries
    the id is the new row, and every entry with another id is still there. *)
Theorem update_replaces_in_place new prev :
  ids (applyRemoteEvent (UPDATE new) prev) = ids prev
  /\ (forall t, In t (applyRemoteEvent (UPDATE new) prev) ->
                Todos.id t = Todos.id new -> t = new)
  /\ (forall t, In t prev -> Todos.id t <> Todos.id new ->
                In t (applyRemoteEvent (UPDATE new) prev)).
Proof.
  split; [apply SyncFacts.ids_UPDATE|]. split.
  - intros t Ht E. simpl in Ht. apply in_map_iff in Ht.
    destruct Ht as (u & Hu & _).
    destruct (Todos.id u =? Todos.id new) eqn:Eu; [congruence|].
    subst u. apply Z.eqb_neq in Eu. contradiction.
  - intros t Ht Hne. simpl. apply in_map_iff. exists t. split; [|exact Ht].
    apply Z.eqb_neq in Hne. now rewrite Hne.
Qed.

(** X5. An [UPDATE] or a [DELETE] for an id the collection does not hold
    leaves the collection as it is. *)
Theorem update_delete_of_absent_id e prev :
  isInsert e = false ->
  ~ In (eventId e) (ids prev) ->
  applyRemoteEvent e prev = prev.
Proof.
  intros Hi Hn. destruct e as [n|n|d]; [discriminate| |]; simpl in *.
  - rewrite <- (map_id prev) at 2. apply map_ext_in. intros t Ht.
    destruct (Todos.id t =? Todos.id n) eqn:E; [|reflexivity].
    apply Z.eqb_eq in E. exfalso. apply Hn. rewrite <- E.
    unfold ids. now apply in_map.
  - apply filter_all. intros t Ht. apply negb_true_iff, Z.eqb_neq.
    intros E. apply Hn. rewrite <- E. unfold ids. now apply in_map.
Qed.

End EventFacts.

(** ** Counting and classifying the calls of a handler *)

Module CallFacts.
Import Supabase Async Calls.

Create HintDb calls.

Section WithWorld.
Context {DB U : Type}.

Local Abbreviation M := (M (DB := DB) (U := U)).
Local Abbreviation atMost := (@Calls.atMost DB U _).
Local Abbreviation only := (@Calls.only DB U _).
Local Abbreviation keeps := (@Calls.keeps DB U _ _).
Local Abbreviation total := (@Calls.total DB U _).
Local Abbreviation silent := (@Async.silent DB U _).

Lemma atMost_silent {A} f k (c : M A) : silent c -> atMost f k c.
Proof.
  intros Hc w. exists []. rewrite app_nil_r. split; [apply Hc|simpl; lia].
Qed.

Lemma atMost_le {A} f k k' (c : M A) :
  atMost f k c -> (k <= k')%nat -> atMost f k' c.
Proof.
  intros Hc Hk w. destruct (Hc w) as (calls & E & L). exists calls. split; [exact E|lia].
Qed.

Lemma atMost_await {R} f q (run : DB -> R * DB) :
  atMost f (if f q then 1 else 0) (await q run).
Proof.
  intros w. exists [q]. unfold await. destruct (run (db w)). simpl.
  split; [reflexivity|]. destruct (f q); simpl; lia.
Qed.

Lemma atMost_bind {A B} f k1 k2 (c : M A) (k : A -> M B) :
  atMost f k1 c -> (forall a, atMost f k2 (k a)) -> atMost f (k1 + k2) (bind c k).
Proof.
  intros Hc Hk w. unfold bind. destruct (Hc w) as (c1 & E1 & L1).
  destruct (c w) as [[a|e] w1]; simpl in *.
  - destruct (Hk a w1) as (c2 & E2 & L2). exists (c1 ++ c2)%list.
    rewrite E2, E1, app_assoc, filter_app, length_app. split; [reflexivity|lia].
  - exists c1. split; [exact E1|lia].
Qed.

Lemma atMost_try_catch {A} f k1 k2 (c : M A) h :
  atMost f k1 c -> (forall e, atMost f k2 (h e)) ->
  atMost f (k1 + k2) (try_catch c h).
Proof.
  intros Hc Hh w. unfold try_catch. destruct (Hc w) as (c1 & E1 & L1).
  destruct (c w) as [[a|e] w1]; simpl in *.
  - exists c1. split; [exact E1|lia].
  - destruct (Hh e w1) as (c2 & E2 & L2). exists (c1 ++ c2)%list.
    rewrite E2, E1, app_assoc, filter_app, length_app. split; [reflexivity|lia].
Qed.

Lemma only_silent {A} P (c : M A) : silent c -> only P c.
Proof.
  intros Hc w. exists []. rewrite app_nil_r. split; [apply Hc|constructor].
Qed.

Lemma only_await {R} (P : Request -> Prop) q (run : DB -> R * DB) :
  P q -> only P (await q run).
Proof.
  intros Hq w. exists [q]. unfold await. destruct (run (db w)). simpl.
  split; [reflexivity|]. now repeat constructor.
Qed.

Lemma only_bind {A B} P (c : M A) (k : A -> M B) :
  only P c -> (forall a, only P (k a)) -> only P (bind c k).
Proof.
  intros Hc Hk w. unfold bind. destruct (Hc w) as (c1 & E1 & F1).
  destruct (c w) as [[a|e] w1]; simpl in *.
  - destruct (Hk a w1) as (c2 & E2 & F2). exists (c1 ++ c2)%list.
    rewrite E2, E1, app_assoc. split; [reflexivity|now apply Forall_app].
  - now exists c1.
Qed.

Lemma only_try_catch {A} P (c : M A) h :
  only P c -> (forall e, only P (h e)) -> only P (try_catch c h).
Proof.
  intros Hc Hh w. unfold try_catch. destruct (Hc w) as (c1 & E1 & F1).
  destruct (c w) as [[a|e] w1]; simpl in *.
  - now exists c1.
  - destruct (Hh e w1) as (c2 & E2 & F2). exists (c1 ++ c2)%list.
    rewrite E2, E1, app_assoc. split; [reflexivity|now apply Forall_app].
Qed.

Lemma keeps_ret {A X} (g : U -> X) (a : A) : keeps g (ret a).
Proof. intros w. reflexivity. Qed.

Lemma keeps_throw {A X} (g : U -> X) e : keeps g (throw (A := A) e).
Proof. intros w. reflexivity. Qed.

Lemma keeps_await {R X} (g : U -> X) q (run : DB -> R * DB) :
  keeps g (await q run).
Proof. intros w. unfold await. now destruct (run (db w)). Qed.

Lemma keeps_modify {X} (g : U -> X) f :
  (forall u, g (f u) = g u) -> keeps g (modify (DB := DB) f).
Proof. intros Hf w. simpl. apply Hf. Qed.

Lemma keeps_bind {A B X} (g : U -> X) (c : M A) (k : A -> M B) :
  keeps g c -> (forall a, keeps g (k a)) -> keeps g (bind c k).
Proof.
  intros Hc Hk w. unfold bind. specialize (Hc w).
  destruct (c w) as [[a|e] w1]; simpl in *; [|exact Hc].
  now rewrite Hk.
Qed.

Lemma keeps_try_catch {A X} (g : U -> X) (c : M A) h :
  keeps g c -> (forall e, keeps g (h e)) -> keeps g (try_catch c h).
Proof.
  intros Hc Hh w. unfold try_catch. specialize (Hc w).
  destruct (c w) as [[a|e] w1]; simpl in *; [exact Hc|].
  now rewrite Hh.
Qed.

Lemma total_ret {A} (a : A) : total (ret a).
Proof. intros w. now exists a. Qed.

Lemma total_modify f : total (modify (DB := DB) (U := U) f).
Proof. intros w. now exists tt. Qed.

Lemma total_await {R} q (run : DB -> R * DB) : total (await q run).
Proof. intros w. unfold await. destruct (run (db w)) as [r d]. now exists r. Qed.

Lemma total_bind {A B} (c : M A) (k : A -> M B) :
  total c -> (forall a, total (k a)) -> total (bind c k).
Proof.
  intros Hc Hk w. unfold bind. destruct (Hc w) as [a Ha].
  destruct (c w) as [[a'|e] w1]; simpl in *; [|discriminate].
  apply Hk.
Qed.

(** A [try] whose [catch] does not throw does not throw. *)
Lemma total_try_catch {A} (c : M A) h :
  (forall e, total (h e)) -> total (try_catch c h).
Proof.
  intros Hh w. unfold try_catch.
  destruct (c w) as [[a|e] w1]; simpl; [now exists a|apply Hh].
Qed.

End WithWorld.

#[export] Hint Resolve AsyncFacts.silent_ret AsyncFacts.silent_throw AsyncFacts.silent_modify : calls.
#[export] Hint Resolve atMost_silent only_silent only_bind only_try_catch
  keeps_ret keeps_throw keeps_await keeps_bind keeps_try_catch
  total_ret total_modify total_await total_bind total_try_catch : calls.

End CallFacts.

(** ** What creating and reassigning a task always and never do *)

Module HandlerFacts.
Import JS Supabase Async NotificationUtils TodoList Calls AsyncFacts CallFacts.

Section WithClient.
Context {DB : Type} `{Client DB}.

Lemma atMost_await_1 {U R} f q (run : DB -> R * DB) :
  atMost (U := U) f 1 (await q run).
Proof.
  eapply atMost_le; [apply atMost_await|]. destruct (f q); lia.
Qed.

Lemma atMost_await_0 {U R} f q (run : DB -> R * DB) :
  f q = false -> atMost (U := U) f 0 (await q run).
Proof.
  intros Hq. eapply atMost_le; [apply atMost_await|]. rewrite Hq. lia.
Qed.

(** [notifyAssignee] makes no call, or the one insert of a notification for
    a non-empty recipient other than the acting user; it changes nothing of
    the component and does not throw. *)
Lemma notifyAssignee_outcome user result (w : World DB State) :
  exists calls,
    notifyAssignee user result w
    = (Normal tt,
       {| db := db (snd (notifyAssignee user result w));
          log := (log w ++ calls)%list; ui := ui w |})
    /\ (calls = []
        \/ exists n, calls = [InsertNotification n]
                     /\ assignmentCall (Auth.id user) (InsertNotification n)).
Proof.
  unfold notifyAssignee.
  destruct result as [row|];
    [|exists []; rewrite app_nil_r; destruct w; auto].
  destruct (Todos.assigned_to row) as [a|];
    [|exists []; rewrite app_nil_r; destruct w; auto].
  destruct (truthy (Some a)) eqn:Ht; simpl;
    [|exists []; rewrite app_nil_r; destruct w; auto].
  destruct (String.eqb a (Auth.id user)) eqn:Ha; simpl;
    [exists []; rewrite app_nil_r; destruct w; auto|].
  unfold createTaskAssignmentNotification, bind, await, ret.
  destruct (insert_notification _ (db w)) as [e d]. simpl.
  eexists. split; [reflexivity|]. right. eexists. split; [reflexivity|].
  simpl. repeat split.
  - now apply String.eqb_neq.
  - intros ->. discriminate.
Qed.

Lemma notifyAssignee_total user result :
  total (notifyAssignee (DB := DB) user result).
Proof.
  intros w. destruct (notifyAssignee_outcome user result w) as (calls & E & _).
  exists tt. now rewrite E.
Qed.

Lemma notifyAssignee_keeps {X} (g : State -> X) user result :
  keeps (DB := DB) g (notifyAssignee user result).
Proof.
  intros w. destruct (notifyAssignee_outcome user result w) as (calls & E & _).
  now rewrite E.
Qed.

Lemma notifyAssignee_atMost_1 f user result :
  atMost (DB := DB) f 1 (notifyAssignee user result).
Proof.
  intros w. destruct (notifyAssignee_outcome user result w) as (calls & E & Hc).
  exists calls. rewrite E. split; [reflexivity|].
  destruct Hc as [->|(n & -> & _)]; simpl; [lia|].
  destruct (f _); simpl; lia.
Qed.

Lemma notifyAssignee_atMost_0 f user result :
  (forall n, f (InsertNotification n) = false) ->
  atMost (DB := DB) f 0 (notifyAssignee user result).
Proof.
  intros Hf w. destruct (notifyAssignee_outcome user result w) as (calls & E & Hc).
  exists calls. rewrite E. split; [reflexivity|].
  destruct Hc as [->|(n & -> & _)]; simpl; [lia|].
  rewrite Hf. simpl. lia.
Qed.

Lemma notifyAssignee_only user result :
  only (DB := DB) (assignmentCall (Auth.id user)) (notifyAssignee user result).
Proof.
  intros w. destruct (notifyAssignee_outcome user result w) as (calls & E & Hc).
  exists calls. rewrite E. split; [reflexivity|].
  destruct Hc as [->|(n & -> & Hn)]; [constructor|].
  constructor; [exact Hn|constructor].
Qed.

(** One step of a proof about the calls of a handler. *)
Ltac calls_step :=
  match goal with
  | |- Calls.atMost _ _ (bind _ _) => eapply atMost_bind; [|intros ?]
  | |- Calls.atMost _ _ (try_catch _ _) => eapply atMost_try_catch; [|intros ?]
  | |- Calls.atMost _ _ (await _ _) =>
      first [apply atMost_await_0; reflexivity | apply atMost_await_1]
  | |- Calls.atMost _ _ (notifyAssignee _ _) =>
      first [apply notifyAssignee_atMost_0; reflexivity
            | apply notifyAssignee_atMost_1]
  | |- Calls.atMost _ _ (if ?b then _ else _) => destruct b
  | |- Calls.atMost _ _ (match ?x with Some _ => _ | None => _ end) => destruct x
  | |- Calls.atMost _ _ _ => apply atMost_silent; auto with calls
  | |- Calls.only _ (bind _ _) => apply only_bind; [|intros ?]
  | |- Calls.only _ (try_catch _ _) => apply only_try_catch; [|intros ?]
  | |- Calls.only _ (await _ _) => apply only_await; exact I
  | |- Calls.only _ (notifyAssignee _ _) => apply notifyAssignee_only
  | |- Calls.only _ (if ?b then _ else _) => destruct b
  | |- Calls.only _ (match ?x with Some _ => _ | None => _ end) => destruct x
  | |- Calls.only _ _ => apply only_silent; auto with calls
  | |- Calls.keeps _ (bind _ _) => apply keeps_bind; [|intros ?]
  | |- Calls.keeps _ (try_catch _ _) => apply keeps_try_catch; [|intros ?]
  | |- Calls.keeps _ (notifyAssignee _ _) => apply notifyAssignee_keeps
  | |- Calls.keeps _ (modify _) => apply keeps_modify; intros ?; reflexivity
  | |- Calls.keeps _ (if ?b then _ else _) => destruct b
  | |- Calls.keeps _ (match ?x with Some _ => _ | None => _ end) => destruct x
  | |- Calls.keeps _ _ => auto with calls
  end.

(** The bounds that no branch fixed are 0. *)
Ltac zero_bounds :=
  repeat match goal with
         | |- context [?k] => is_evar k; unify k 0%nat
         end;
  simpl; lia.

(** X6. Whatever the input and whatever the store answers, [addTodo] never
    throws and never touches the task collection (it changes only through
    the change feed); it makes at most three store calls, at most two of
    them inserts of the task and at most one a notification, and a
    notification is never addressed to the acting user or to nobody. *)
Theorem addTodo_always user r taskText :
  total (addTodo (DB := DB) user r taskText)
  /\ keeps todos (addTodo (DB := DB) user r taskText)
  /\ atMost anyCall 3 (addTodo (DB := DB) user r taskText)
  /\ atMost isInsertTodo 2 (addTodo (DB := DB) user r taskText)
  /\ atMost isInsertNotification 1 (addTodo (DB := DB) user r taskText)
  /\ only (assignmentCall (Auth.id user)) (addTodo (DB := DB) user r taskText).
Proof.
  unfold addTodo. destruct (negb _).
  2:{ repeat split; try (apply atMost_silent; auto with calls);
        auto with calls. }
  split; [apply total_try_catch; auto with calls|].
  split; [repeat calls_step|].
  split; [eapply atMost_le; [repeat calls_step|zero_bounds]|].
  split; [eapply atMost_le; [repeat calls_step|zero_bounds]|].
  split; [eapply atMost_le; [repeat calls_step|zero_bounds]|].
  repeat calls_step.
Qed.

(** X7. Whatever the store answers, [updateTodoAssignment] never throws,
    and the calls it makes are exactly these: the update of the assignee of
    the task, followed by nothing or by one insert of a notification, which
    is unread and addressed neither to the acting user nor to nobody. *)
Theorem updateTodoAssignment_calls user r todo assignedTo (w : World DB State) :
  let out := updateTodoAssignment user r todo assignedTo w in
  fst out = Normal tt
  /\ exists rest,
       log (snd out)
       = (log w ++ UpdateTodoAssignedTo (Todos.id todo) assignedTo :: rest)%list
       /\ (rest = []
           \/ exists n, rest = [InsertNotification n]
                        /\ Notifications.ins_user_id n <> Auth.id user
                        /\ Notifications.ins_user_id n <> ""
                        /\ Notifications.ins_is_read n = false).
Proof.
  cbv zeta. unfold updateTodoAssignment, try_catch.
  destruct (update_todo_assigned_to (Todos.id todo) assignedTo (db w))
    as [res d1] eqn:H1.
  erewrite bind_await by exact H1.
  destruct (error res) as [e|].
  - destruct (includes (message e) fkMarker); unfold modify, throw; simpl;
      (split; [reflexivity|]); exists []; split; auto.
  - unfold bind.
    destruct (notifyAssignee_outcome user (data res)
                {| db := d1;
                   log := (log w ++ [UpdateTodoAssignedTo (Todos.id todo) assignedTo])%list;
                   ui := ui w |}) as (calls & E & Hc).
    rewrite E. unfold modify. simpl. split; [reflexivity|].
    exists calls. split; [rewrite <- app_assoc; reflexivity|].
    destruct Hc as [->|(n & -> & Hn)]; [left; reflexivity|].
    right. exists n. split; [reflexivity|exact Hn].
Qed.

End WithClient.

End HandlerFacts.

(** ** The outcomes of creating and reassigning a task *)

Module OutcomeFacts.
Import JS Supabase Async NotificationUtils TodoList AsyncFacts AssignmentFacts.

Section WithClient.
Context {DB : Type} `{Client DB}.

(** X8. When the store refuses the insert for a reason other than a
    foreign-key violation, [addTodo] stops after that one call: nothing is
    retried, nobody is notified, the error text is the message of the store
    and the form keeps what the user typed. *)
Theorem addTodo_other_failure user r taskText (w : World DB State) dat e d1 :
  let out := addTodo user r taskText w in
  String.length (trim taskText) <> 0%nat ->
  insert_todo (newTodoOf user r (trim taskText)) (db w)
  = ({| data := dat; error := Some e |}, d1) ->
  includes (message e) fkMarker = false ->
  fst out = Normal tt
  /\ log (snd out)
     = (log w ++ [InsertTodo (newTodoOf user r (trim taskText))])%list
  /\ errorText (ui (snd out)) = message e
  /\ newTaskText (ui (snd out)) = newTaskText (ui w)
  /\ newTaskAssignedTo (ui (snd out)) = newTaskAssignedTo (ui w)
  /\ newTaskDueDate (ui (snd out)) = newTaskDueDate (ui w)
  /\ todos (ui (snd out)) = todos (ui w).
Proof.
  intros out Hl H1 Hfk. subst out.
  rewrite (addTodo_other_failure_run user r taskText w dat e d1 Hl H1 Hfk).
  repeat split.
Qed.

(** The run of [addTodo] when the store accepts the task and returns it
    with an assignee other than the acting user. *)
Lemma addTodo_accepted_run user r taskText (w : World DB State) row d1 assignee :
  let newTodo := newTodoOf user r (trim taskText) in
  let n := assignmentNotification user row assignee in
  String.length (trim taskText) <> 0%nat ->
  insert_todo newTodo (db w) = ({| data := Some row; error := None |}, d1) ->
  Todos.assigned_to row = Some assignee ->
  assignee <> "" ->
  assignee <> Auth.id user ->
  addTodo user r taskText w
  = (Normal tt,
     {| db := snd (insert_notification n d1);
        log := (log w ++ [InsertTodo newTodo; InsertNotification n])%list;
        ui := reset_form (ui w) |}).
Proof.
  intros newTodo n Hl H1 Ha He Hu. unfold addTodo.
  apply Nat.eqb_neq in Hl. rewrite Hl. cbn [negb]. fold newTodo.
  apply try_catch_normal.
  erewrite bind_normal.
  2:{ destruct (truthy (newTaskAssignedTo r));
        erewrite bind_await by exact H1; cbn [error data]; reflexivity. }
  erewrite bind_normal.
  2:{ apply (notifyAssignee_dispatch user row assignee _ Ha He Hu). }
  unfold modify. cbn [db log ui]. rewrite <- app_assoc. reflexivity.
Qed.

(** X9. When the store accepts the task and returns it with an assignee
    other than the acting user, [addTodo] dispatches exactly one
    notification, for that assignee and that task, and resets the form.
    The outcome does not depend on what the store answers to the
    notification: a failed dispatch is not an error of [addTodo]. *)
Theorem addTodo_notifies_assignee user r taskText (w : World DB State)
        row d1 assignee :
  let out := addTodo user r taskText w in
  let n := assignmentNotification user row assignee in
  String.length (trim taskText) <> 0%nat ->
  insert_todo (newTodoOf user r (trim taskText)) (db w)
  = ({| data := Some row; error := None |}, d1) ->
  Todos.assigned_to row = Some assignee ->
  assignee <> "" ->
  assignee <> Auth.id user ->
  fst out = Normal tt
  /\ notificationsOf (log (snd out)) = (notificationsOf (log w) ++ [n])%list
  /\ Notifications.ins_user_id n = assignee
  /\ Notifications.ins_task_id n = Todos.id row
  /\ Notifications.ins_is_read n = false
  /\ todoInsertsOf (log (snd out))
     = (todoInsertsOf (log w) ++ [newTodoOf user r (trim taskText)])%list
  /\ ui (snd out) = reset_form (ui w).
Proof.
  intros out n Hl H1 Ha He Hu. subst out.
  rewrite (addTodo_accepted_run user r taskText w row d1 assignee Hl H1 Ha He Hu).
  cbn [fst snd log ui]. unfold notificationsOf, todoInsertsOf.
  rewrite !flat_map_app. simpl. repeat split.
Qed.

(** X10. When the store refuses the update, [updateTodoAssignment] leaves
    the task collection as it was and notifies nobody; it shows the
    assignment warning after a foreign-key violation and the message of the
    store after any other error. *)
Theorem updateTodoAssignment_refused user r todo assignedTo
        (w : World DB State) dat e d1 :
  let out := updateTodoAssignment user r todo assignedTo w in
  update_todo_assigned_to (Todos.id todo) assignedTo (db w)
  = ({| data := dat; error := Some e |}, d1) ->
  fst out = Normal tt
  /\ todos (ui (snd out)) = todos (ui w)
  /\ log (snd out)
     = (log w ++ [UpdateTodoAssignedTo (Todos.id todo) assignedTo])%list
  /\ errorText (ui (snd out))
     = (if includes (message e) fkMarker then fkWarning else message e).
Proof.
  intros out H1. subst out. unfold updateTodoAssignment.
  destruct (includes (message e) fkMarker) eqn:Hfk.
  - erewrite try_catch_normal.
    2:{ erewrite bind_await by exact H1. cbn [error]. rewrite Hfk. reflexivity. }
    repeat split.
  - rewrite (try_catch_throw _ _ _ e
               {| db := d1;
                  log := (log w ++ [UpdateTodoAssignedTo (Todos.id todo) assignedTo])%list;
                  ui := ui w |}).
    + repeat split.
    + erewrite bind_await by exact H1. cbn [error]. rewrite Hfk. reflexivity.
Qed.

(** X11. When the store accepts the update, the handler of the current
    render keeps the ids of the collection, in their order, sets the
    requested assignee on every entry that carries the id of the task and
    leaves the other entries and the error text as they were. *)
Theorem updateTodoAssignment_accepted_locally user todo assignedTo
        (w : World DB State) row d1 :
  let out := handler (fun r => updateTodoAssignment user r todo assignedTo) w in
  update_todo_assigned_to (Todos.id todo) assignedTo (db w)
  = ({| data := Some row; error := None |}, d1) ->
  ids (todos (ui (snd out))) = ids (todos (ui w))
  /\ (forall t, In t (todos (ui (snd out))) -> Todos.id t = Todos.id todo ->
                Todos.assigned_to t = assignedTo)
  /\ (forall t, In t (todos (ui w)) -> Todos.id t <> Todos.id todo ->
                In t (todos (ui (snd out))))
  /\ errorText (ui (snd out)) = errorText (ui w).
Proof.
  intros out H1. subst out. unfold handler.
  rewrite (updateTodoAssignment_accepted_run user (ui w) todo assignedTo w row d1 H1).
  cbn [snd ui todos with_todos errorText].
  set (w1 := {| db := d1; log := _; ui := ui w |}).
  assert (Eui : ui (snd (notifyAssignee user (Some row) w1)) = ui w).
  { destruct (HandlerFacts.notifyAssignee_outcome user (Some row) w1)
      as (calls & E & _). now rewrite E. }
  rewrite Eui. repeat split.
  - unfold ids. rewrite map_map. apply map_ext. intros t.
    now destruct (Todos.id t =? Todos.id todo).
  - intros t Ht E. apply in_map_iff in Ht. destruct Ht as (u & Hu & _).
    destruct (Todos.id u =? Todos.id todo) eqn:Eu; subst t; [reflexivity|].
    apply Z.eqb_neq in Eu. contradiction.
  - intros t Ht Hne. apply in_map_iff. exists t. split; [|exact Ht].
    apply Z.eqb_neq in Hne. now rewrite Hne.
Qed.

End WithClient.

End OutcomeFacts.

(** ** Deleting a task and changing its due date *)

Module TodoListOpsFacts.
Import JS Supabase TodoList TodoListOps.

(** X12. When the store has deleted the row, [deleteTodo] of the current
    render removes every entry with that id and keeps the others in their
    order; the DELETE event that the change feed delivers afterwards
    changes nothing more. When the store fails, nothing changes. *)
Theorem deleteTodo_removes_the_id s id e :
  let s' := deleteTodo s id None s in
  ~ In id (ids (todos s'))
  /\ todos s' = filter (fun t => negb (Todos.id t =? id)) (todos s)
  /\ (forall t, In t (todos s) -> Todos.id t <> id -> In t (todos s'))
  /\ applyRemoteEvent (DELETE id) (todos s') = todos s'
  /\ deleteTodo s id (Some e) s = s.
Proof.
  simpl. split; [|split; [reflexivity|split; [|split; [|reflexivity]]]].
  - intros Hin. unfold ids in Hin. apply in_map_iff in Hin.
    destruct Hin as (t & E & Ht). apply filter_In in Ht. destruct Ht as [_ Ht].
    apply negb_true_iff, Z.eqb_neq in Ht. contradiction.
  - intros t Ht Hne. apply filter_In. split; [exact Ht|].
    now apply negb_true_iff, Z.eqb_neq.
  - apply EventFacts.filter_all. intros t Ht. apply filter_In in Ht. tauto.
Qed.

(** X13. When the store accepts the update, [updateTodoDueDate] of the
    current render keeps the ids of the collection in their order, gives
    the new due date to every entry with the id of the task and changes no
    other field of any entry; when the store fails, the state, error text
    included, is unchanged. *)
Theorem updateTodoDueDate_sets_the_date s todo dueDate e :
  let s' := updateTodoDueDate s todo dueDate None s in
  ids (todos s') = ids (todos s)
  /\ Forall2 (fun t t' =>
                t' = (if Todos.id t =? Todos.id todo
                      then with_due_date t dueDate else t))
             (todos s) (todos s')
  /\ (forall t', In t' (todos s') -> Todos.id t' = Todos.id todo ->
                 Todos.due_date t' = dueDate)
  /\ updateTodoDueDate s todo dueDate (Some e) s = s.
Proof.
  simpl. repeat split.
  - unfold ids. rewrite map_map. apply map_ext. intros t.
    now destruct (Todos.id t =? Todos.id todo).
  - induction (todos s) as [|t l IH]; simpl; constructor; auto.
  - intros t' Ht E'. apply in_map_iff in Ht. destruct Ht as (u & Hu & _).
    destruct (Todos.id u =? Todos.id todo) eqn:Eu; subst t'; [reflexivity|].
    apply Z.eqb_neq in Eu. contradiction.
Qed.

Section WithRuntime.
Context {rt : Runtime}.

(** X14. After the due date of a task was cleared, the task is shown neither
    by the ['overdue'] filter nor by the ['dueToday'] filter, at any time. *)
Theorem cleared_due_date_leaves_date_filters user s todo now t :
  let s' := updateTodoDueDate s todo None None s in
  In t (Filter.filterTodos user (todos s') overdue now)
  \/ In t (Filter.filterTodos user (todos s') dueToday now) ->
  Todos.id t <> Todos.id todo.
Proof.
  intros s' Hin E.
  assert (Ht : In t (todos s') /\ Todos.due_date t <> None).
  { destruct Hin as [Hin|Hin].
    - apply FilterFacts.In_filterTodos_overdue in Hin. destruct Hin as [Ht Ho].
      split; [exact Ht|]. apply FilterFacts.isOverdue_inv in Ho.
      destruct Ho as (d & _ & _ & Hd & _). congruence.
    - apply FilterFacts.In_filterTodos_dueToday in Hin. destruct Hin as [Ht Ho].
      split; [exact Ht|]. apply FilterFacts.isDueToday_inv in Ho.
      destruct Ho as (d & _ & Hd & _). congruence. }
  destruct Ht as [Ht Hd]. apply Hd.
  subst s'. simpl in Ht. apply in_map_iff in Ht. destruct Ht as (u & Hu & _).
  destruct (Todos.id u =? Todos.id todo) eqn:Eu; subst t; [reflexivity|].
  apply Z.eqb_neq in Eu. contradiction.
Qed.

End WithRuntime.

End TodoListOpsFacts.

(** ** More of the filter engine *)

Module FilterMore.
Import JS Filter.

Section WithRuntime.
Context {rt : Runtime}.

Lemma filter_true {A} (l : list A) : filter (fun _ => true) l = l.
Proof. induction l as [|a l IH]; simpl; congruence. Qed.

(** X15. Whatever the mode, the filter returns the tasks of the collection
    that pass a test, in the order of the collection: it never reorders,
    repeats or invents a task. *)
Theorem filterTodos_selects user todos mode now :
  exists p, filterTodos user todos mode now = filter p todos.
Proof.
  unfold filterTodos. destruct todos as [|t l].
  - exists (fun _ => true). reflexivity.
  - cbn [List.length Nat.eqb].
    destruct mode; try (eexists; reflexivity).
    exists (fun _ => true). now rewrite filter_true.
Qed.

(** X16. The ['dueToday'] filter returns no task whose due date is null and
    no task whose completion flag is true. *)
Theorem dueToday_excludes_undated_and_completed user todos now t :
  Todos.due_date t = None \/ Todos.is_complete t = Some true ->
  ~ In t (filterTodos user todos dueToday now).
Proof.
  intros H Hin. apply FilterFacts.In_filterTodos_dueToday in Hin.
  destruct Hin as [_ Hd]. apply FilterFacts.isDueToday_inv in Hd.
  destruct Hd as (s & d & Hs & _ & _ & Hc).
  destruct H as [H|H]; rewrite H in *; discriminate.
Qed.

(** X17. ['assignedToMe'] returns exactly the tasks whose assignee is the
    signed-in user and ['createdByMe'] exactly those whose owner is; while
    nobody is signed in both return nothing. *)
Theorem ownership_filters user todos now t :
  (In t (filterTodos (Some user) todos assignedToMe now)
   <-> In t todos /\ Todos.assigned_to t = Some (Auth.id user))
  /\ (In t (filterTodos (Some user) todos createdByMe now)
      <-> In t todos /\ Todos.user_id t = Auth.id user)
  /\ filterTodos None todos assignedToMe now = []
  /\ filterTodos None todos createdByMe now = [].
Proof.
  assert (Hnone : forall (f : Todos.Row -> option string) (l : list Todos.Row),
             filter (fun todo => strict_eq (f todo) None) l = []).
  { intros f l. induction l as [|x l IH]; simpl; [reflexivity|].
    destruct (f x); simpl; exact IH. }
  unfold filterTodos. destruct todos as [|a l].
  - simpl. tauto.
  - cbn [List.length Nat.eqb option_map].
    split; [|split; [|split; [apply Hnone|apply (Hnone (fun x => Some (Todos.user_id x)))]]].
    + rewrite filter_In. split; intros [Hin E]; (split; [exact Hin|]).
      * destruct (Todos.assigned_to t) as [x|]; [|discriminate].
        simpl in E. apply String.eqb_eq in E. now subst.
      * rewrite E. simpl. apply String.eqb_refl.
    + rewrite filter_In. split; intros [Hin E]; (split; [exact Hin|]).
      * simpl in E. now apply String.eqb_eq.
      * simpl. now apply String.eqb_eq.
Qed.

End WithRuntime.

End FilterMore.

(** ** The date filters in a time zone with a fixed offset *)

Module CalendarFacts.
Import JS Filter Calendar.

Section WithRuntime.
Context {rt : Runtime}.

(** [d.setHours(0, 0, 0, 0)] where local time is UTC plus [off]
    milliseconds: the start of the local day of [d]. *)
Lemma setHours_midnight off t :
  (forall x b, LocalTZA x b = off) ->
  inRange t ->
  setHours (Some t) 0 0 0 0 = Some (Day (t + off) * msPerDay - off).
Proof.
  intros Htz Ht. unfold setHours, LocalTime, UTC, MakeDate, MakeTime, TimeClip.
  rewrite !Htz. unfold inRange, Day, msPerDay in *.
  pose proof (Z.mul_div_le (t + off) 86400000 ltac:(lia)) as Hle.
  pose proof (Z.mul_succ_div_gt (t + off) 86400000 ltac:(lia)) as Hgt.
  replace ((t + off) / 86400000 * 86400000 + (0 * 3600000 + 0 * 60000 + 0 * 1000 + 0) - off)
    with ((t + off) / 86400000 * 86400000 - off) by lia.
  destruct (Z.abs ((t + off) / 86400000 * 86400000 - off) >? 8640000000000000) eqn:E;
    [|reflexivity].
  apply Z.gtb_lt in E. lia.
Qed.

(** X18. Where local time is UTC plus a fixed offset, a dated, incomplete
    task is overdue exactly when the local calendar day of its due date is
    before the local calendar day of [now], and due today exactly when the
    two days are the same. *)
Theorem date_filters_compare_local_days off now todo s due :
  (forall x b, LocalTZA x b = off) ->
  Todos.due_date todo = Some s ->
  s <> "" ->
  Date_of_string s = Some due ->
  inRange due ->
  inRange now ->
  isOverdue now todo
  = (Day (due + off) <? Day (now + off)) && negb (truthyb (Todos.is_complete todo))
  /\ isDueToday now todo
     = (Day (due + off) =? Day (now + off)) && negb (truthyb (Todos.is_complete todo)).
Proof.
  intros Htz Hs Hne Hdue Hrd Hrn.
  assert (Ht : truthy (Some s) = true) by (destruct s; [congruence|reflexivity]).
  unfold isOverdue, isDueToday, today. rewrite Hs, Ht, Hdue. cbn [negb].
  rewrite (setHours_midnight off due Htz Hrd), (setHours_midnight off now Htz Hrn).
  cbn [Date_lt getTime_eq]. unfold msPerDay. split; f_equal.
  - destruct (Z.ltb_spec (Day (due + off)) (Day (now + off)));
      [apply Z.ltb_lt|apply Z.ltb_ge]; lia.
  - destruct (Z.eqb_spec (Day (due + off)) (Day (now + off)));
      [apply Z.eqb_eq|apply Z.eqb_neq]; lia.
Qed.

End WithRuntime.

End CalendarFacts.

(** ** The Todo row *)

Module TodoItemFacts.
Import JS Supabase.

Section WithRuntime.
Context {rt : Runtime}.

Lemma isOverdue_agrees now todo s :
  truthyb (TodoItem.isCompleted s) = truthyb (Todos.is_complete todo) ->
  TodoItem.isOverdue now todo s = Filter.isOverdue now todo.
Proof.
  intros Hc. unfold TodoItem.isOverdue, Filter.isOverdue, Filter.today. rewrite Hc.
  destruct (Todos.due_date todo) as [d|]; [|reflexivity].
  destruct (truthy (Some d)); simpl; [|reflexivity].
  destruct (truthyb (Todos.is_complete todo)); simpl;
    [now rewrite andb_false_r|now rewrite andb_true_r].
Qed.

Lemma isDueToday_agrees now todo s :
  truthyb (TodoItem.isCompleted s) = truthyb (Todos.is_complete todo) ->
  TodoItem.isDueToday now todo s = Filter.isDueToday now todo.
Proof.
  intros Hc. unfold TodoItem.isDueToday, Filter.isDueToday, Filter.today. rewrite Hc.
  destruct (Todos.due_date todo) as [d|]; [|reflexivity].
  destruct (truthy (Some d)); simpl; [|reflexivity].
  destruct (truthyb (Todos.is_complete todo)); simpl;
    [now rewrite andb_false_r|now rewrite andb_true_r].
Qed.

(** X19. While the row shows the completion flag the collection holds, its
    border follows the filters, each taken at the instant of the clock read
    of the call that decides: the border is red exactly when the
    ['overdue'] filter at the read of [isOverdue()] selects the task;
    yellow exactly when that filter does not and the ['dueToday'] filter at
    the read of [isDueToday()] selects it; absent exactly when neither
    does.  When the two reads fall on the same local day, the border is
    yellow exactly when the ['dueToday'] filter selects the task. *)
Theorem row_markers_agree_with_filters now1 now2 todo s :
  truthyb (TodoItem.isCompleted s) = truthyb (Todos.is_complete todo) ->
  (TodoItem.borderClass now1 now2 todo s = "border-l-4 border-red-500"
   <-> Filter.isOverdue now1 todo = true)
  /\ (TodoItem.borderClass now1 now2 todo s = "border-l-4 border-yellow-500"
      <-> Filter.isOverdue now1 todo = false /\ Filter.isDueToday now2 todo = true)
  /\ (TodoItem.borderClass now1 now2 todo s = ""
      <-> Filter.isOverdue now1 todo = false /\ Filter.isDueToday now2 todo = false)
  /\ (Filter.today now1 = Filter.today now2 ->
      (TodoItem.borderClass now1 now2 todo s = "border-l-4 border-yellow-500"
       <-> Filter.isDueToday now2 todo = true)).
Proof.
  intros Hc. unfold TodoItem.borderClass.
  rewrite (isOverdue_agrees now1 todo s Hc), (isDueToday_agrees now2 todo s Hc).
  split; [|split; [|split]].
  - destruct (Filter.isOverdue now1 todo), (Filter.isDueToday now2 todo);
      intuition (try reflexivity; try discriminate).
  - destruct (Filter.isOverdue now1 todo), (Filter.isDueToday now2 todo);
      intuition (try reflexivity; try discriminate).
  - destruct (Filter.isOverdue now1 todo), (Filter.isDueToday now2 todo);
      intuition (try reflexivity; try discriminate).
  - intros Hday.
    assert (Ho : Filter.isOverdue now1 todo = Filter.isOverdue now2 todo).
    { unfold Filter.isOverdue. now rewrite Hday. }
    rewrite Ho. destruct (Filter.isDueToday now2 todo) eqn:Ed.
    + rewrite (FilterFacts.isDueToday_not_isOverdue now2 todo Ed).
      split; reflexivity.
    + destruct (Filter.isOverdue now2 todo); split; discriminate.
Qed.

(** X20. Once the task was toggled to complete and the store has confirmed
    it, the row carries no marker any more, whatever its due date and
    whenever the clock is read. *)
Theorem completed_row_has_no_marker now1 now2 todo reply row s :
  Supabase.error reply = None ->
  Supabase.data reply = Some row ->
  Todos.is_complete row = Some true ->
  TodoItem.borderClass now1 now2 todo (TodoItem.toggle reply s) = "".
Proof.
  intros He Hd Hc. unfold TodoItem.toggle. rewrite He, Hd.
  unfold TodoItem.borderClass, TodoItem.isOverdue, TodoItem.isDueToday.
  cbn [TodoItem.isCompleted]. rewrite Hc. cbn [truthyb].
  now rewrite orb_true_r.
Qed.

End WithRuntime.

Lemma findUser_spec users i u :
  TodoItem.findUser users i = Some u -> In u users /\ UserSelector.id u = i.
Proof.
  unfold TodoItem.findUser. intros Hf. apply find_some in Hf.
  destruct Hf as [Hin E]. split; [exact Hin|]. now apply String.eqb_eq.
Qed.

(** X21. After the first run of [fetchUserDetailsFromAPI] the assignee shown
    on the row, if any, is the entry of the directory whose id is the
    assignee of the task, and the creator shown, if any, is the entry whose
    id is its owner: the row never names another user. *)
Theorem row_names_the_right_users todo r :
  let s := TodoItem.fetchUserDetailsFromAPI todo r (TodoItem.initial todo) in
  (forall p, TodoItem.assignee s = Some p ->
     Todos.assigned_to todo = Some (TodoItem.id p)
     /\ exists users u, r = UserSelector.Response true (Some users)
                        /\ In u users /\ TodoItem.person u = p)
  /\ (forall c, TodoItem.creator s = Some c ->
        Todos.user_id todo = TodoItem.id c
        /\ exists users u, r = UserSelector.Response true (Some users)
                           /\ In u users /\ TodoItem.person u = c).
Proof.
  destruct r as [|[|] [users|]]; simpl; try (split; intros ? ?; discriminate).
  split.
  - intros p. destruct (Todos.assigned_to todo) as [a|]; [|intros; discriminate].
    destruct (negb _); [|intros; discriminate].
    destruct (TodoItem.findUser users a) as [u|] eqn:Ef; [|intros; discriminate].
    intros E. injection E as <-. apply findUser_spec in Ef. destruct Ef as [Hin Hid].
    split; [simpl; now rewrite Hid|]. exists users, u. auto.
  - intros c. destruct (negb _); [|intros; discriminate].
    destruct (TodoItem.findUser users (Todos.user_id todo)) as [u|] eqn:Ef;
      [|intros; discriminate].
    intros E. injection E as <-. apply findUser_spec in Ef. destruct Ef as [Hin Hid].
    split; [simpl; now rewrite Hid|]. exists users, u. auto.
Qed.

End TodoItemFacts.

(** ** What the user selector offers and reports *)

Module UserSelectorViewFacts.
Import UserSelector UserSelectorView.

(** X23. In the state the first run of [fetchUsers] after the mount
    leaves, whatever the reply, and in the state any run of [fetchUsers]
    leaves whose reply was a successful listing, with [currentUserId] the
    user that run was started for: whichever option of the rendered
    selector is chosen, [onSelect] receives null or the non-empty id of a
    listed candidate, which is not [currentUserId]; the option
    ["Unassigned"] gives null. *)
Theorem selection_is_null_or_another_user currentUserId s value :
  (exists r, s = fetchUsers currentUserId r initial)
  \/ (exists data s0, s = fetchUsers currentUserId (Response true (Some data)) s0) ->
  In value (optionValues s) ->
  onChange "" = None
  /\ (onChange value = None
      \/ (onChange value = Some value
          /\ value <> "" /\ value <> currentUserId
          /\ exists u, In u (users s) /\ id u = value)).
Proof.
  intros Hs Hin. split; [reflexivity|].
  destruct value as [|c v]; [left; reflexivity|right].
  split; [reflexivity|]. split; [discriminate|].
  destruct Hin as [Hin|Hin]; [discriminate|].
  apply in_map_iff in Hin. destruct Hin as (u & Hu & Hin).
  assert (Hall : Forall (fun u => id u <> currentUserId) (users s)).
  { destruct Hs as [[r ->]|(data & s0 & ->)].
    - apply UserSelectorFacts.fetchUsers_excludes. constructor.
    - apply UserSelectorFacts.formattedUsers_excludes. }
  rewrite Forall_forall in Hall. split.
  - rewrite <- Hu. now apply Hall.
  - exists u. auto.
Qed.

End UserSelectorViewFacts.

(** ** More of the notification feed *)

Module FeedMore.
Import Supabase Async Notification FeedRuns FeedFacts.

Lemma with_read_of_read n :
  Notifications.is_read n = true -> Notifications.with_read n = n.
Proof. destruct n. simpl. now intros ->. Qed.

Lemma unreadOf_positive l :
  0 < unreadOf l <-> exists n, In n l /\ Notifications.is_read n = false.
Proof.
  induction l as [|m l IH].
  - split; [unfold unreadOf; simpl; lia|intros (n & [] & _)].
  - rewrite unreadOf_cons. destruct (Notifications.is_read m) eqn:Em.
    + rewrite Z.add_0_l, IH. split.
      * intros (n & Hn & Hr). exists n. split; [now right|exact Hr].
      * intros (n & [->|Hn] & Hr); [congruence|]. now exists n.
    + split; [|pose proof (unreadOf_nonneg l); lia].
      intros _. exists m. split; [now left|exact Em].
Qed.

Lemma unread_buttons l :
  map Notifications.id (filter (fun n => negb (Notifications.is_read n)) l) <> []
  <-> exists n, In n l /\ Notifications.is_read n = false.
Proof.
  split.
  - destruct (filter _ l) as [|n f] eqn:Ef; [intros E; now elim E|]. intros _.
    assert (Hn : In n (filter (fun n => negb (Notifications.is_read n)) l))
      by (rewrite Ef; now left).
    apply filter_In in Hn. destruct Hn as [Hn Hr].
    exists n. split; [exact Hn|]. now apply negb_true_iff.
  - intros (n & Hn & Hr) E. apply map_eq_nil in E.
    assert (Hin : In n (filter (fun n => negb (Notifications.is_read n)) l)).
    { apply filter_In. split; [exact Hn|]. now rewrite Hr. }
    rewrite E in Hin. exact Hin.
Qed.

(** X27. While the counter agrees with the flags, the badge on the bell is
    rendered exactly when the view lists an unread notification; the button
    ["Mark all as read"] is rendered exactly when, in addition, the panel
    is open, that is exactly when some entry is rendered with its button
    ["Mark as read"]. *)
Theorem badge_means_unread s :
  consistent s ->
  (showsBadge s = true
   <-> exists n, In n (notifications s) /\ Notifications.is_read n = false)
  /\ (showsMarkAll s = true
      <-> showNotifications s = true
          /\ exists n, In n (notifications s) /\ Notifications.is_read n = false)
  /\ (showsMarkAll s = true <-> markAsReadButtons s <> []).
Proof.
  unfold consistent, showsMarkAll, markAsReadButtons, showsBadge. intros Hs.
  assert (Hb : (unreadCount s >? 0) = true
               <-> exists n, In n (notifications s) /\ Notifications.is_read n = false).
  { rewrite <- unreadOf_positive, Hs.
    split; [intros E; apply Z.gtb_lt in E; lia|intros E; apply Z.gtb_lt; lia]. }
  split; [exact Hb|]. split.
  - rewrite andb_true_iff, Hb. reflexivity.
  - rewrite andb_true_iff, Hb. destruct (showNotifications s).
    + rewrite unread_buttons. intuition.
    + split; [intros [E _]; discriminate|intros E; now elim E].
Qed.

Section WithClient.
Context {DB : Type} `{Client DB}.

Lemma run_nonnegative userId op (w : World DB State) :
  0 <= unreadCount (ui w) -> 0 <= unreadCount (ui (snd (run userId op w))).
Proof.
  intros Hw. destruct op as [|n|id|]; simpl.
  - unfold fetchNotifications, bind, await, modify, ret.
    destruct (select_notifications userId (db w)) as [res d]. simpl.
    destruct (rows_error res); [exact Hw|].
    destruct (rows res); [|exact Hw]. simpl. apply unreadOf_nonneg.
  - lia.
  - unfold handler, markAsRead, bind, await, modify, ret.
    destruct (mark_notification_read id (db w)) as [[e|] d]; simpl; [exact Hw|lia].
  - unfold handler, markAllAsRead, bind, await, modify, ret.
    destruct (mark_all_notifications_read userId (db w)) as [[e|] d]; simpl;
      [exact Hw|lia].
Qed.

(** X24. The counter is never negative: no sequence of loads, remote
    inserts, [markAsRead] and [markAllAsRead], against any store, takes a
    counter that is not negative below zero. *)
Theorem unreadCount_never_negative userId ops (w : World DB State) :
  0 <= unreadCount (ui w) ->
  0 <= unreadCount (ui (runAll userId ops w)).
Proof.
  revert w. induction ops as [|op ops IH]; intros w Hw; simpl; [exact Hw|].
  apply IH. now apply run_nonnegative.
Qed.

(** X25. When the counter agrees with the flags and the store accepts the
    update, [markAsRead] of the current render keeps the agreement in these
    cases and in no other: exactly one unread entry of the view carries the
    id, or no entry of the view is unread. *)
Theorem markAsRead_keeps_agreement_exactly userId id (w : World DB State) :
  fst (mark_notification_read id (db w)) = None ->
  consistent (ui w) ->
  (consistent (ui (snd (run userId (MarkRead id) w)))
   <-> unreadWithId id (notifications (ui w)) = 1
       \/ unreadOf (notifications (ui w)) = 0).
Proof. exact (markAsRead_consistent_iff userId id w). Qed.

(** X26. Along a run of [runAll], in which every operation runs to its end
    before the next one starts and every handler is the one of the render
    that is current when it starts (no event lands while a handler awaits
    the store): when every row the feed inserts is unread and every
    [markAsRead] names an id carried by exactly one unread entry of the
    view, a counter that agrees with the flags at the start agrees with
    them at the end, whatever the store answers. *)
Theorem tame_run_keeps_agreement userId ops (w : World DB State) :
  consistent (ui w) ->
  tame userId ops w = true ->
  consistent (ui (runAll userId ops w)).
Proof.
  revert w. induction ops as [|op ops IH]; intros w Hw Ht; simpl; [exact Hw|].
  simpl in Ht. apply andb_prop in Ht. destruct Ht as [Hop Hrest].
  apply IH; [|exact Hrest].
  destruct op as [|n|id|].
  - now apply fetchNotifications_consistent.
  - simpl. apply negb_true_iff in Hop. now apply onInsert_consistent.
  - apply Z.eqb_eq in Hop. now apply markAsRead_consistent.
  - now apply markAllAsRead_consistent.
Qed.

(** X28. When the store accepts the update, [markAsRead] of the current
    render keeps the ids of the view in their order, changes no entry but
    to set the flag of those that carry the id, and leaves read what was
    read; the counter goes down by one at most and never up. When the store
    fails, nothing changes. *)
Theorem markAsRead_only_reads userId id (w : World DB State) :
  let s := ui w in
  let s' := ui (snd (run userId (MarkRead id) w)) in
  match fst (mark_notification_read id (db w)) with
  | Some _ => s' = s
  | None =>
      map Notifications.id (notifications s') = map Notifications.id (notifications s)
      /\ Forall2 (fun n n' =>
                    n' = n \/ (Notifications.id n = id
                               /\ n' = Notifications.with_read n))
                 (notifications s) (notifications s')
      /\ (forall n, In n (notifications s) -> Notifications.is_read n = true ->
                    In n (notifications s'))
      /\ (0 <= unreadCount s -> unreadCount s - 1 <= unreadCount s' <= unreadCount s)
  end.
Proof.
  unfold run, handler, markAsRead, bind, await, modify, ret.
  destruct (mark_notification_read id (db w)) as [[e|] d]; simpl; [reflexivity|].
  repeat split.
  - rewrite map_map. apply map_ext. intros n.
    now destruct (Notifications.id n =? id).
  - induction (notifications (ui w)) as [|n l IH]; simpl; constructor; [|exact IH].
    destruct (Notifications.id n =? id) eqn:E; [right|now left].
    apply Z.eqb_eq in E. auto.
  - intros n Hn Hr. apply in_map_iff. exists n. split; [|exact Hn].
    destruct (Notifications.id n =? id); [now apply with_read_of_read|reflexivity].
  - lia.
  - lia.
Qed.

End WithClient.

End FeedMore.

(** ** The directory endpoint and the selector *)

Module UsersApiFacts.
Import UsersApi UserSelector UserSelectorView.

(** X29. Without a service-role key the endpoint answers 200 with an empty
    list, whatever the admin API would have said, and a selector mounted on
    that answer has no candidate, is disabled and shows ["No users
    available"]: an empty directory is not an error. *)
Theorem no_key_means_no_candidates admin currentUserId :
  let s := fetchUsers currentUserId (asFetchResult (handler "" admin)) initial in
  handler "" admin = (200, Users [])
  /\ users s = []
  /\ loading s = false
  /\ disabled s = true
  /\ showsNoUsers s = true
  /\ optionValues s = [""].
Proof. repeat split. Qed.

Lemma map_id_profileOf l :
  map UserSelector.id
      (map profileOf
           (map (fun user => {| api_id := UsersApi.id user;
                                api_email := UsersApi.email user;
                                api_name := metadata_name user |}) l))
  = map UsersApi.id l.
Proof. rewrite !map_map. reflexivity. Qed.

(** X30. With a service-role key, the endpoint lists users exactly when the
    admin listing succeeds, and then a selector mounted on its answer
    offers the listed ids other than the current user's, in the order of
    the listing (every listed user having an email); when the listing
    fails or throws, the endpoint answers 500 and the selector keeps the
    candidates it had. *)
Theorem directory_to_candidates key admin currentUserId s0 :
  key <> "" ->
  let response := handler key admin in
  let s := fetchUsers currentUserId (asFetchResult response) s0 in
  match admin with
  | AdminListing listed None =>
      fst response = 200
      /\ (Forall (fun u => UsersApi.email u <> None) listed ->
          map UserSelector.id (users s)
          = filter (fun i => negb (String.eqb i currentUserId))
                   (map UsersApi.id listed))
  | _ => fst response = 500 /\ users s = users s0
  end.
Proof.
  intros Hk response s. subst s response. unfold handler.
  destruct key as [|c k]; [congruence|]. cbn [String.length Nat.eqb].
  destruct admin as [|listed [msg|]]; simpl; [split; reflexivity..|].
  split; [reflexivity|]. intros _.
  rewrite UserSelectorFacts.formattedUsers_ids. f_equal. apply map_id_profileOf.
Qed.

End UsersApiFacts.

(* ===================================================================== *)
(** * Further scenarios                                                  *)
(* ===================================================================== *)

Module MoreScenarios.
Import JS Supabase Async Examples MoreExamples.

#[local] Existing Instance RefStore.runtime.
#[local] Existing Instance RefStore.client.

(** *** The change feed *)

(** Task 100 arrives and is deleted again. *)
Lemma delete_undoes_fresh_insert_witness :
  ~ In 100 (TodoList.ids dated)
  /\ TodoList.applyRemoteEvent (TodoList.DELETE 100)
       (TodoList.applyRemoteEvent (TodoList.INSERT RefStore.task100) dated)
     = dated.
Proof.
  assert (Hn : ~ In (Todos.id RefStore.task100) (TodoList.ids dated)).
  { simpl. intuition discriminate. }
  split; [exact Hn|].
  exact (EventFacts.delete_undoes_fresh_insert RefStore.task100 dated Hn).
Defined.

(** Two updates of task 1: the second is what remains. *)
Lemma update_last_write_wins_witness :
  TodoList.applyRemoteEvent (TodoList.UPDATE (taskDue 1 None (Some true)))
    (TodoList.applyRemoteEvent
       (TodoList.UPDATE (taskDue 1 (Some "2024-02-02") None)) dated)
  = TodoList.applyRemoteEvent (TodoList.UPDATE (taskDue 1 None (Some true))) dated
  /\ In (taskDue 1 None (Some true))
        (TodoList.applyRemoteEvent (TodoList.UPDATE (taskDue 1 None (Some true))) dated).
Proof.
  split.
  - apply (EventFacts.update_last_write_wins
             (taskDue 1 (Some "2024-02-02") None) (taskDue 1 None (Some true)) dated).
    reflexivity.
  - left. reflexivity.
Defined.

(** An update of task 1 and the deletion of task 2, in both orders. *)
Lemma events_on_different_ids_commute_witness :
  TodoList.applyRemoteEvent (TodoList.UPDATE (taskDue 1 None (Some true)))
    (TodoList.applyRemoteEvent (TodoList.DELETE 2) dated)
  = TodoList.applyRemoteEvent (TodoList.DELETE 2)
      (TodoList.applyRemoteEvent (TodoList.UPDATE (taskDue 1 None (Some true))) dated)
  /\ TodoList.ids (TodoList.applyRemoteEvent (TodoList.DELETE 2)
        (TodoList.applyRemoteEvent (TodoList.UPDATE (taskDue 1 None (Some true))) dated))
     = [1; 3; 4; 5].
Proof.
  split; [|reflexivity].
  apply (EventFacts.events_on_different_ids_commute
           (TodoList.UPDATE (taskDue 1 None (Some true))) (TodoList.DELETE 2) dated).
  - simpl. lia.
  - reflexivity.
Defined.

(** An update and a deletion of task 100, which the list does not hold. *)
Lemma update_delete_of_absent_id_witness :
  TodoList.applyRemoteEvent (TodoList.UPDATE RefStore.task100) dated = dated
  /\ TodoList.applyRemoteEvent (TodoList.DELETE 100) dated = dated.
Proof.
  split.
  - apply (EventFacts.update_delete_of_absent_id (TodoList.UPDATE RefStore.task100) dated).
    + reflexivity.
    + simpl. intuition discriminate.
  - apply (EventFacts.update_delete_of_absent_id (TodoList.DELETE 100) dated).
    + reflexivity.
    + simpl. intuition discriminate.
Defined.

(** *** Creating and reassigning a task *)

(** The store cannot be reached: one call, the message of the failure, the
    form as it was. *)
Lemma addTodo_other_failure_witness :
  let out := TodoList.addTodo RefStore.alice bobForm "Buy milk" offlineWorld in
  fst out = Normal tt
  /\ List.length (log (snd out)) = 1%nat
  /\ TodoList.errorText (ui (snd out)) = "TypeError: Failed to fetch"
  /\ TodoList.newTaskText (ui (snd out)) = "Buy milk"
  /\ TodoList.newTaskAssignedTo (ui (snd out)) = Some "bob".
Proof.
  intros out.
  destruct (OutcomeFacts.addTodo_other_failure
              RefStore.alice bobForm "Buy milk" offlineWorld
              None RefStore.unreachable (RefStore.empty false))
    as (Hc & Hlog & Herr & Ht & Ha & _ & _).
  - discriminate.
  - reflexivity.
  - reflexivity.
  - fold out in Hc, Hlog, Herr, Ht, Ha.
    split; [exact Hc|]. split; [rewrite Hlog; reflexivity|].
    split; [exact Herr|]. split; [exact Ht|exact Ha].
Defined.

(** Alice creates a task for bob: one notification, for bob and the task. *)
Lemma addTodo_notifies_assignee_witness :
  let out := TodoList.addTodo RefStore.alice bobForm "Buy milk" bobFormWorld in
  fst out = Normal tt
  /\ map Notifications.ins_user_id (TodoList.notificationsOf (log (snd out))) = ["bob"]
  /\ map Notifications.ins_task_id (TodoList.notificationsOf (log (snd out))) = [1]
  /\ TodoList.newTaskText (ui (snd out)) = ""
  /\ TodoList.newTaskAssignedTo (ui (snd out)) = None.
Proof.
  intros out.
  destruct (OutcomeFacts.addTodo_notifies_assignee
              RefStore.alice bobForm "Buy milk" bobFormWorld milkForBob
              (snd (RefStore.insert_todo
                      (TodoList.newTodoOf RefStore.alice bobForm "Buy milk")
                      (RefStore.empty true)))
              "bob")
    as (Hc & Hn & _ & _ & _ & _ & Hui).
  - discriminate.
  - reflexivity.
  - reflexivity.
  - discriminate.
  - discriminate.
  - fold out in Hc, Hn, Hui.
    split; [exact Hc|]. split; [rewrite Hn; reflexivity|].
    split; [rewrite Hn; reflexivity|]. rewrite Hui. split; reflexivity.
Defined.

(** Alice reassigns task 100 to a user the store does not know. *)
Lemma updateTodoAssignment_refused_witness :
  let out := TodoList.updateTodoAssignment RefStore.alice aliceList
               RefStore.task100 (Some "ghost-user") aliceWorld in
  fst out = Normal tt
  /\ TodoList.todos (ui (snd out)) = [RefStore.task100]
  /\ TodoList.notificationsOf (log (snd out)) = []
  /\ TodoList.errorText (ui (snd out)) = TodoList.fkWarning.
Proof.
  intros out.
  destruct (OutcomeFacts.updateTodoAssignment_refused
              RefStore.alice aliceList RefStore.task100 (Some "ghost-user") aliceWorld
              None (RefStore.fkViolation "todos_assigned_to_fkey") (RefStore.seeded 0))
    as (Hc & Ht & Hlog & Herr); [reflexivity|].
  fold out in Hc, Ht, Hlog, Herr.
  split; [exact Hc|]. split; [exact Ht|]. split; [rewrite Hlog; reflexivity|].
  exact Herr.
Defined.

(** Alice clears the assignee of task 100. *)
Lemma updateTodoAssignment_accepted_locally_witness :
  let out := handler (fun r => TodoList.updateTodoAssignment RefStore.alice r
                                 RefStore.task100 None) aliceWorld in
  TodoList.ids (TodoList.todos (ui (snd out))) = [100]
  /\ map Todos.assigned_to (TodoList.todos (ui (snd out))) = [None]
  /\ TodoList.errorText (ui (snd out)) = "".
Proof.
  intros out.
  destruct (OutcomeFacts.updateTodoAssignment_accepted_locally
              RefStore.alice RefStore.task100 None aliceWorld
              (Todos.with_assigned_to RefStore.task100 None)
              (snd (RefStore.update_todo_assigned_to 100 None (RefStore.seeded 0))))
    as (Hids & Hset & _ & Herr); [reflexivity|].
  fold out in Hids, Hset, Herr.
  split; [exact Hids|]. split; [reflexivity|exact Herr].
Defined.

(** *** Dates *)

(** The due date of task 1 is cleared: task 2, still due today, is another
    task. *)
Lemma cleared_due_date_leaves_date_filters_witness :
  let s' := TodoListOps.updateTodoDueDate datedList
              (taskDue 1 (Some "2024-01-01") (Some false)) None None datedList in
  map Todos.id (Filter.filterTodos (Some RefStore.alice) (TodoList.todos s')
                                   overdue noon_2024_01_02) = []
  /\ In (taskDue 2 (Some "2024-01-02") (Some false))
        (Filter.filterTodos (Some RefStore.alice) (TodoList.todos s')
                            dueToday noon_2024_01_02)
  /\ Todos.id (taskDue 2 (Some "2024-01-02") (Some false)) <> 1.
Proof.
  intros s'.
  assert (Hin : In (taskDue 2 (Some "2024-01-02") (Some false))
                   (Filter.filterTodos (Some RefStore.alice) (TodoList.todos s')
                                       dueToday noon_2024_01_02)).
  { vm_compute. left. reflexivity. }
  split; [reflexivity|]. split; [exact Hin|].
  exact (TodoListOpsFacts.cleared_due_date_leaves_date_filters
           (Some RefStore.alice) datedList
           (taskDue 1 (Some "2024-01-01") (Some false)) noon_2024_01_02
           (taskDue 2 (Some "2024-01-02") (Some false)) (or_intror Hin)).
Defined.

(** The undated task and the completed one are not due today. *)
Lemma dueToday_excludes_witness :
  ~ In (taskDue 4 None (Some false))
       (Filter.filterTodos (Some RefStore.alice) dated dueToday noon_2024_01_02)
  /\ ~ In (taskDue 3 (Some "2024-01-01") (Some true))
          (Filter.filterTodos (Some RefStore.alice) dated dueToday noon_2024_01_02)
  /\ map Todos.id
         (Filter.filterTodos (Some RefStore.alice) dated dueToday noon_2024_01_02)
     = [2].
Proof.
  split; [|split; [|reflexivity]].
  - apply (FilterMore.dueToday_excludes_undated_and_completed
             (Some RefStore.alice) dated noon_2024_01_02 (taskDue 4 None (Some false))).
    left. reflexivity.
  - apply (FilterMore.dueToday_excludes_undated_and_completed
             (Some RefStore.alice) dated noon_2024_01_02
             (taskDue 3 (Some "2024-01-01") (Some true))).
    right. reflexivity.
Defined.

(** In UTC+05:30, at noon UTC of 2024-01-02: a task due at midnight UTC of
    2024-01-01 is on the local day before. *)
Lemma date_filters_compare_local_days_witness :
  Filter.isOverdue noon_2024_01_02 (taskDue 1 (Some "2024-01-01") (Some false))
  = ((19723 <? 19724) && true)
  /\ Filter.isDueToday noon_2024_01_02 (taskDue 1 (Some "2024-01-01") (Some false))
     = ((19723 =? 19724) && true)
  /\ Day (1704067200000 + 19800000) = 19723
  /\ Day (noon_2024_01_02 + 19800000) = 19724.
Proof.
  destruct (CalendarFacts.date_filters_compare_local_days
              19800000 noon_2024_01_02 (taskDue 1 (Some "2024-01-01") (Some false))
              "2024-01-01" 1704067200000) as [Ho Hd].
  - reflexivity.
  - reflexivity.
  - discriminate.
  - reflexivity.
  - unfold Calendar.inRange, msPerDay. simpl. lia.
  - unfold Calendar.inRange, msPerDay, noon_2024_01_02. simpl. lia.
  - split; [exact Ho|]. split; [exact Hd|]. split; reflexivity.
Defined.

(** *** The Todo row *)

(** Freshly mounted rows of the dated tasks, both clock reads at noon: red
    for task 1, yellow for task 2, none for the completed task 3.  With
    the first read in the last millisecond of the local day on which task
    2 is due and the second read at the midnight that follows, the row of
    task 2 has no border: it is not yet overdue at the first read and no
    longer due today at the second. *)
Lemma row_markers_agree_with_filters_witness :
  TodoItem.borderClass noon_2024_01_02 noon_2024_01_02
    (taskDue 1 (Some "2024-01-01") (Some false))
    (TodoItem.initial (taskDue 1 (Some "2024-01-01") (Some false)))
  = "border-l-4 border-red-500"
  /\ TodoItem.borderClass noon_2024_01_02 noon_2024_01_02
       (taskDue 2 (Some "2024-01-02") (Some false))
       (TodoItem.initial (taskDue 2 (Some "2024-01-02") (Some false)))
     = "border-l-4 border-yellow-500"
  /\ TodoItem.borderClass noon_2024_01_02 noon_2024_01_02
       (taskDue 3 (Some "2024-01-01") (Some true))
       (TodoItem.initial (taskDue 3 (Some "2024-01-01") (Some true)))
     = ""
  /\ TodoItem.borderClass 1704220199999 1704220200000
       (taskDue 2 (Some "2024-01-02") (Some false))
       (TodoItem.initial (taskDue 2 (Some "2024-01-02") (Some false)))
     = ""
  /\ Filter.isDueToday 1704220199999 (taskDue 2 (Some "2024-01-02") (Some false)) = true
  /\ Filter.isOverdue 1704220200000 (taskDue 2 (Some "2024-01-02") (Some false)) = true.
Proof.
  split; [|split; [|split; [|split; [|split; reflexivity]]]].
  - destruct (TodoItemFacts.row_markers_agree_with_filters
                noon_2024_01_02 noon_2024_01_02
                (taskDue 1 (Some "2024-01-01") (Some false))
                (TodoItem.initial (taskDue 1 (Some "2024-01-01") (Some false)))
                eq_refl) as (Hred & _).
    apply Hred. reflexivity.
  - destruct (TodoItemFacts.row_markers_agree_with_filters
                noon_2024_01_02 noon_2024_01_02
                (taskDue 2 (Some "2024-01-02") (Some false))
                (TodoItem.initial (taskDue 2 (Some "2024-01-02") (Some false)))
                eq_refl) as (_ & _ & _ & Hday).
    apply Hday; reflexivity.
  - destruct (TodoItemFacts.row_markers_agree_with_filters
                noon_2024_01_02 noon_2024_01_02
                (taskDue 3 (Some "2024-01-01") (Some true))
                (TodoItem.initial (taskDue 3 (Some "2024-01-01") (Some true)))
                eq_refl) as (_ & _ & Hnone & _).
    apply Hnone. split; reflexivity.
  - destruct (TodoItemFacts.row_markers_agree_with_filters
                1704220199999 1704220200000
                (taskDue 2 (Some "2024-01-02") (Some false))
                (TodoItem.initial (taskDue 2 (Some "2024-01-02") (Some false)))
                eq_refl) as (_ & _ & Hnone & _).
    apply Hnone. split; reflexivity.
Defined.

(** The overdue task 1 is toggled and the store confirms. *)
Lemma completed_row_has_no_marker_witness :
  TodoItem.borderClass noon_2024_01_02 noon_2024_01_02
    (taskDue 1 (Some "2024-01-01") (Some false))
    (TodoItem.initial (taskDue 1 (Some "2024-01-01") (Some false)))
  = "border-l-4 border-red-500"
  /\ TodoItem.borderClass noon_2024_01_02 noon_2024_01_02
       (taskDue 1 (Some "2024-01-01") (Some false))
       (TodoItem.toggle
          {| data := Some (taskDue 1 (Some "2024-01-01") (Some true)); error := None |}
          (TodoItem.initial (taskDue 1 (Some "2024-01-01") (Some false))))
     = "".
Proof.
  split; [reflexivity|].
  apply (TodoItemFacts.completed_row_has_no_marker
           noon_2024_01_02 noon_2024_01_02
           (taskDue 1 (Some "2024-01-01") (Some false))
           {| data := Some (taskDue 1 (Some "2024-01-01") (Some true)); error := None |}
           (taskDue 1 (Some "2024-01-01") (Some true))
           (TodoItem.initial (taskDue 1 (Some "2024-01-01") (Some false))));
    reflexivity.
Defined.

(** *** The user selector *)

(** Alice's selector after its first run, on a directory of alice and bob:
    choosing bob reports bob. *)
Lemma selection_is_null_or_another_user_witness :
  let s := UserSelector.fetchUsers "alice"
             (UserSelector.Response true (Some [profile "alice"; profile "bob"]))
             UserSelector.initial in
  UserSelectorView.optionValues s = [""; "bob"]
  /\ UserSelectorView.onChange "" = None
  /\ UserSelectorView.onChange "bob" = Some "bob".
Proof.
  intros s.
  destruct (UserSelectorViewFacts.selection_is_null_or_another_user
              "alice" s "bob") as [Hnull Hbob].
  - left. exists (UserSelector.Response true (Some [profile "alice"; profile "bob"])).
    reflexivity.
  - right. left. reflexivity.
  - split; [reflexivity|]. split; [exact Hnull|].
    destruct Hbob as [Hb|[Hb _]]; [discriminate Hb|exact Hb].
Defined.

(** *** The notification feed *)

(** The feed with one unread entry: with the panel open the badge, the
    button ["Mark all as read"] and the button of the entry 1 are
    rendered; with the panel closed, the badge alone. *)
Lemma badge_means_unread_witness :
  let closed := {| Notification.notifications := Notification.notifications oneUnread;
                   Notification.showNotifications := false;
                   Notification.unreadCount := Notification.unreadCount oneUnread |} in
  Notification.consistent oneUnread
  /\ FeedRuns.showsBadge oneUnread = true
  /\ FeedRuns.showsMarkAll oneUnread = true
  /\ FeedRuns.markAsReadButtons oneUnread = [1]
  /\ FeedRuns.showsBadge closed = true
  /\ FeedRuns.showsMarkAll closed = false
  /\ FeedRuns.markAsReadButtons closed = [].
Proof.
  intros closed.
  assert (Hc : Notification.consistent oneUnread) by reflexivity.
  assert (Hu : exists n, In n (Notification.notifications oneUnread)
                         /\ Notifications.is_read n = false).
  { exists (RefStore.notificationNo 1). split; [right; left|]; reflexivity. }
  destruct (FeedMore.badge_means_unread oneUnread Hc) as (Hb & Hm & _).
  split; [exact Hc|]. split; [apply Hb; exact Hu|].
  split; [apply Hm; split; [reflexivity|exact Hu]|].
  repeat split.
Defined.

Lemma unreadCount_never_negative_witness :
  0 <= Notification.unreadCount
         (ui (Notification.runAll "bob"
                [Notification.Load; Notification.MarkRead 1; Notification.MarkRead 1;
                 Notification.MarkRead 7; Notification.MarkAllRead]
                (bobFeed 1)))
  /\ Notification.unreadCount
       (ui (Notification.runAll "bob"
              [Notification.Load; Notification.MarkRead 1; Notification.MarkRead 1]
              (bobFeed 1))) = 0.
Proof.
  split; [|reflexivity].
  apply (FeedMore.unreadCount_never_negative "bob" _ (bobFeed 1)).
  simpl. lia.
Defined.

(** Bob's feed after the load of two notifications: marking the first as
    read keeps the agreement. *)
Lemma markAsRead_keeps_agreement_exactly_witness :
  let w := Notification.runAll "bob" [Notification.Load] (bobFeed 2) in
  Notification.consistent (ui w)
  /\ Notification.unreadWithId 1 (Notification.notifications (ui w)) = 1
  /\ Notification.consistent
       (ui (snd (Notification.run "bob" (Notification.MarkRead 1) w))).
Proof.
  intros w.
  assert (Hc : Notification.consistent (ui w)) by reflexivity.
  assert (Hok : fst (mark_notification_read 1 (db w)) = None) by reflexivity.
  split; [exact Hc|]. split; [reflexivity|].
  apply (FeedMore.markAsRead_keeps_agreement_exactly "bob" 1 w Hok Hc).
  left. reflexivity.
Defined.

Lemma tame_run_keeps_agreement_witness :
  let ops := [Notification.Load;
              Notification.RemoteInsert (RefStore.notificationNo 3);
              Notification.MarkRead 1; Notification.MarkAllRead;
              Notification.RemoteInsert (RefStore.notificationNo 4)] in
  FeedRuns.tame "bob" ops (bobFeed 2) = true
  /\ Notification.consistent (ui (Notification.runAll "bob" ops (bobFeed 2)))
  /\ Notification.unreadCount (ui (Notification.runAll "bob" ops (bobFeed 2))) = 1.
Proof.
  intros ops.
  assert (Ht : FeedRuns.tame "bob" ops (bobFeed 2) = true) by reflexivity.
  split; [exact Ht|]. split; [|reflexivity].
  apply (FeedMore.tame_run_keeps_agreement "bob" ops (bobFeed 2)); [reflexivity|exact Ht].
Defined.

(** *** The directory endpoint *)

(** The admin API lists alice, bob and carol; alice's selector offers bob
    and carol. *)
Lemma directory_to_candidates_witness :
  let listed := [ {| UsersApi.id := "alice"; UsersApi.email := Some "alice@example.com";
                     UsersApi.metadata_name := None |};
                  {| UsersApi.id := "bob"; UsersApi.email := Some "bob@example.com";
                     UsersApi.metadata_name := Some "Bob" |};
                  {| UsersApi.id := "carol"; UsersApi.email := Some "carol@example.com";
                     UsersApi.metadata_name := None |} ] in
  let s := UserSelector.fetchUsers "alice"
             (UsersApi.asFetchResult
                (UsersApi.handler "service-role-key" (UsersApi.AdminListing listed None)))
             UserSelector.initial in
  map UserSelector.id (UserSelector.users s) = ["bob"; "carol"]
  /\ map UserSelectorView.optionLabel (UserSelector.users s)
     = ["Bob"; "carol@example.com"].
Proof.
  intros listed s.
  destruct (UsersApiFacts.directory_to_candidates
              "service-role-key" (UsersApi.AdminListing listed None) "alice"
              UserSelector.initial) as [_ Hids]; [discriminate|].
  split; [|reflexivity].
  fold s in Hids. rewrite Hids; [reflexivity|].
  repeat constructor; discriminate.
Defined.

End MoreScenarios.
